(** * Covalent documentation notebooks: a verified reading

    The repository under study is a set of Jupyter notebooks that drive an
    external workflow-orchestration library (imported as [ct]).  The code
    cells of four notebooks are embedded here:

    - [doc/source/how_to/execution/choosing_executors.ipynb]
      (module [ChoosingExecutors]),
    - [doc/source/how_to/coding/file_transfers_to_from_s3.ipynb]
      (module [S3Transfer]),
    - [doc/source/tutorials/1_QuantumMachineLearning/pennylane_hybrid/source.ipynb]
      (module [PennyLane]),
    - the YouTube summarisation tutorial, a Streamlit application
      (module [YouTube]).

    Python values are dynamically typed, so every function takes and returns
    [pyval].  Everything a cell obtains from an imported library, from a
    builtin that touches the operating system, or from an object such a call
    returned, is an _external operation_: the program emits the operation,
    the world answers with a value or raises.  The statements below quantify
    over every possible world.

    Conventions of the embedding:
    - a function a cell defines is embedded under its own name; a call of one
      such function by another is a direct call, and a decorated function
      called directly runs its body; a function passed as a value is
      [PFun name], and calling a callable received as an argument is an
      external operation;
    - decorators are applied where the cell applies them, as external
      operations of the notebook's top-level code;
    - [f(a)(b)] on a library name [f] is one operation ([CallCurried]);
    - a [with] statement is the call that makes the context manager followed
      by its body; entering and leaving are not logged separately;
    - [os.environ] and [st.session_state] are dictionaries of the process
      ([globals]); files are reached through external operations;
    - the name [ct] is taken as bound to the orchestration library in all
      four notebooks, although the YouTube notebook never imports it (see
      the section on imports);
    - floating-point arithmetic is left to the world. *)

From Stdlib Require Import ZArith List String Ascii Bool Lia.
From stdpp Require Import gmap strings pretty.
Import ListNotations.
Open Scope string_scope.
Open Scope Z_scope.
Set Warnings "-register-all".

(** ** Python values *)

Inductive pyval : Type :=
| PNone
| PBool (b : bool)
| PInt (z : Z)
| PFloat (mantissa exponent : Z)   (* the literal mantissa * 10^exponent *)
| PStr (s : string)
| PTuple (items : list pyval)
| PList (items : list pyval)
| PSlice (start stop : pyval)
| PFun (name : string)             (* a function defined by a notebook cell *)
| PObj (handle : nat).             (* an object owned by an external library *)

(** Truth value testing, as [if v:] performs it.  Library objects met in the
    notebooks (results, uploaded files, executors) define neither [__bool__]
    nor [__len__], hence are true. *)
Definition truthy (v : pyval) : bool :=
  match v with
  | PNone => false
  | PBool b => b
  | PInt z => negb (z =? 0)
  | PFloat m _ => negb (m =? 0)
  | PStr s => negb (String.eqb s "")
  | PTuple l | PList l => match l with [] => false | _ => true end
  | PSlice _ _ | PFun _ | PObj _ => true
  end.

(** [bool] is a subclass of [int]. *)
Definition as_int (v : pyval) : option Z :=
  match v with
  | PInt z => Some z
  | PBool b => Some (if b then 1 else 0)
  | _ => None
  end.

Definition is_external (v : pyval) : bool :=
  match v with
  | PObj _ | PFloat _ _ => true
  | _ => false
  end.

(** ** External operations *)

Definition kwargs := list (string * pyval).

Inductive extop : Type :=
| Call (f : string) (args : list pyval) (kw : kwargs)
    (* f(args, **kw) for an imported or builtin name f *)
| CallCurried (f : string) (args1 : list pyval) (kw1 : kwargs)
              (args2 : list pyval) (kw2 : kwargs)
    (* f(args1, **kw1)(args2, **kw2): decorators with options, ct.dispatch *)
| CallValue (callee : pyval) (args : list pyval) (kw : kwargs)
    (* calling a callable received as a value *)
| CallMethod (recv : pyval) (m : string) (args : list pyval) (kw : kwargs)
| GetAttr (recv : pyval) (attr : string)
| GetItem (recv : pyval) (key : pyval)
| Name (qualified : string).
    (* reading a constant of an imported module, e.g. ct.fs.Order.AFTER *)

Inductive response : Type :=
| Returned (v : pyval)
| Raised (exn : string).

Definition event : Type := extop * response.

(** The external world: an arbitrary state and an arbitrary answer to every
    operation. *)
Class World := {
  ext_state : Type;
  ext_call : extop -> ext_state -> response * ext_state
}.

(** ** Process state owned by Python itself *)

Record globals := Globals {
  environ : gmap string pyval;        (* os.environ *)
  session_state : gmap string pyval   (* st.session_state *)
}.

Definition set_environ (k : string) (v : pyval) (g : globals) : globals :=
  {| environ := <[k := v]> (environ g); session_state := session_state g |}.

Definition set_session (k : string) (v : pyval) (g : globals) : globals :=
  {| environ := environ g; session_state := <[k := v]> (session_state g) |}.

(** ** The monad of notebook code: state, exceptions, emitted events *)

Inductive outcome (R : Type) : Type :=
| Ok (r : R)
| Exn (exn : string).
Arguments Ok {R} r.
Arguments Exn {R} exn.

Section Monad.
Context `{World}.

Record ran (R : Type) := Ran {
  res : outcome R;
  glob : globals;
  world : ext_state;
  emitted : list event
}.
Global Arguments Ran {R} res glob world emitted.
Global Arguments res {R} r.
Global Arguments glob {R} r.
Global Arguments world {R} r.
Global Arguments emitted {R} r.

Definition M (R : Type) : Type := globals -> ext_state -> ran R.

Definition ret {R} (r : R) : M R := fun g w => Ran (Ok r) g w [].

Definition raise {R} (exn : string) : M R := fun g w => Ran (Exn exn) g w [].

Definition bind {A B} (m : M A) (k : A -> M B) : M B :=
  fun g w =>
    let r1 := m g w in
    match res r1 with
    | Ok a =>
        let r2 := k a (glob r1) (world r1) in
        Ran (res r2) (glob r2) (world r2) (emitted r1 ++ emitted r2)
    | Exn e => Ran (Exn e) (glob r1) (world r1) (emitted r1)
    end.

(** One external operation: ask the world, log the exchange. *)
Definition ext (op : extop) : M pyval :=
  fun g w =>
    let (r, w') := ext_call op w in
    match r with
    | Returned v => Ran (Ok v) g w' [(op, r)]
    | Raised e => Ran (Exn e) g w' [(op, r)]
    end.
End Monad.

Declare Scope py_scope.
Delimit Scope py_scope with py.
Notation "x <- m ;; k" := (bind m (fun x => k))
  (at level 100, m at next level, right associativity) : py_scope.
Notation "m ;;; k" := (bind m (fun _ => k))
  (at level 100, right associativity) : py_scope.
Open Scope py_scope.

(** ** Python operators and builtins used by the cells

    Operations on values Python owns (ints, strings, lists, tuples) are
    computed here.  As soon as an operand is a float or a library object the
    operation is carried out by the external world. *)

Definition repeat_list {A} (l : list A) (n : Z) : list A :=
  List.concat (List.repeat l (Z.to_nat n)).

Definition repeat_string (s : string) (n : Z) : string :=
  String.concat "" (List.repeat s (Z.to_nat n)).

(** Python index normalisation: negative indices count from the end. *)
Definition py_index {A} (l : list A) (i : Z) : option A :=
  let n := Z.of_nat (List.length l) in
  let j := if i <? 0 then i + n else i in
  if (0 <=? j) && (j <? n) then List.nth_error l (Z.to_nat j) else None.

Definition clamp (n i : Z) : Z :=
  if i <? 0 then Z.max 0 (i + n) else Z.min i n.

Definition slice_bound (dflt : Z) (n : Z) (b : pyval) : option Z :=
  match b with
  | PNone => Some dflt
  | _ => match as_int b with Some i => Some (clamp n i) | None => None end
  end.

Definition py_slice {A} (l : list A) (start stop : pyval) : option (list A) :=
  let n := Z.of_nat (List.length l) in
  match slice_bound 0 n start, slice_bound n n stop with
  | Some lo, Some hi => Some (List.firstn (Z.to_nat (hi - lo)) (List.skipn (Z.to_nat lo) l))
  | _, _ => None
  end.

Definition chars (s : string) : list pyval :=
  List.map (fun c => PStr (String c EmptyString)) (list_ascii_of_string s).

Section Builtins.
Context `{World}.

(** [a * b] *)
Definition py_mul (a b : pyval) : M pyval :=
  if is_external a || is_external b then ext (Call "operator.mul" [a; b] [])
  else match as_int a, as_int b with
       | Some x, Some y => ret (PInt (x * y))
       | Some n, None =>
           match b with
           | PStr s => ret (PStr (repeat_string s n))
           | PList l => ret (PList (repeat_list l n))
           | PTuple l => ret (PTuple (repeat_list l n))
           | _ => raise "TypeError"
           end
       | None, Some n =>
           match a with
           | PStr s => ret (PStr (repeat_string s n))
           | PList l => ret (PList (repeat_list l n))
           | PTuple l => ret (PTuple (repeat_list l n))
           | _ => raise "TypeError"
           end
       | None, None => raise "TypeError"
       end.

(** [a - b] *)
Definition py_sub (a b : pyval) : M pyval :=
  if is_external a || is_external b then ext (Call "operator.sub" [a; b] [])
  else match as_int a, as_int b with
       | Some x, Some y => ret (PInt (x - y))
       | _, _ => raise "TypeError"
       end.

(** [a ** b]; a negative exponent leaves the integers. *)
Definition py_pow (a b : pyval) : M pyval :=
  if is_external a || is_external b then ext (Call "operator.pow" [a; b] [])
  else match as_int a, as_int b with
       | Some x, Some y =>
           if 0 <=? y then ret (PInt (x ^ y))
           else ext (Call "operator.pow" [a; b] [])
       | _, _ => raise "TypeError"
       end.

(** [recv[key]] *)
Definition py_getitem (recv key : pyval) : M pyval :=
  match recv with
  | PObj _ => ext (GetItem recv key)
  | PList l =>
      match key with
      | PSlice lo hi =>
          match py_slice l lo hi with Some r => ret (PList r) | None => raise "TypeError" end
      | _ => match as_int key with
             | Some i => match py_index l i with Some v => ret v | None => raise "IndexError" end
             | None => if is_external key then ext (GetItem recv key) else raise "TypeError"
             end
      end
  | PTuple l =>
      match key with
      | PSlice lo hi =>
          match py_slice l lo hi with Some r => ret (PTuple r) | None => raise "TypeError" end
      | _ => match as_int key with
             | Some i => match py_index l i with Some v => ret v | None => raise "IndexError" end
             | None => if is_external key then ext (GetItem recv key) else raise "TypeError"
             end
      end
  | PStr s =>
      match key with
      | PSlice lo hi =>
          match py_slice (list_ascii_of_string s) lo hi with
          | Some r => ret (PStr (string_of_list_ascii r))
          | None => raise "TypeError"
          end
      | _ => match as_int key with
             | Some i => match py_index (chars s) i with Some v => ret v | None => raise "IndexError" end
             | None => if is_external key then ext (GetItem recv key) else raise "TypeError"
             end
      end
  | _ => raise "TypeError"
  end.

(** [recv.attr], [recv.m(args)], [callee(args)] and iteration.  [None] has
    none of the attributes the cells ask for; literals are not callable. *)
Definition py_getattr (recv : pyval) (attr : string) : M pyval :=
  match recv with
  | PNone => raise "AttributeError"
  | _ => ext (GetAttr recv attr)
  end.

Definition py_method (recv : pyval) (m : string) (args : list pyval) (kw : kwargs)
  : M pyval :=
  match recv with
  | PNone => raise "AttributeError"
  | _ => ext (CallMethod recv m args kw)
  end.

Definition py_call (callee : pyval) (args : list pyval) (kw : kwargs) : M pyval :=
  match callee with
  | PObj _ | PFun _ => ext (CallValue callee args kw)
  | _ => raise "TypeError"
  end.

Definition py_iter (v : pyval) : M (list pyval) :=
  match v with
  | PList l | PTuple l => ret l
  | PStr s => ret (chars s)
  | PObj _ =>
      t <- ext (Call "list" [v] []) ;;
      match t with
      | PList l => ret l
      | _ => raise "TypeError"
      end
  | _ => raise "TypeError"
  end.

(** [a, b = v] and [a, b, c = v] *)
Definition unpack2_items (l : list pyval) : M (pyval * pyval) :=
  match l with
  | [a; b] => ret (a, b)
  | _ => raise "ValueError"
  end.

Definition py_unpack2 (v : pyval) : M (pyval * pyval) :=
  match v with
  | PTuple l | PList l => unpack2_items l
  | PStr s => unpack2_items (chars s)
  | PObj _ =>
      t <- ext (Call "tuple" [v] []) ;;
      match t with
      | PTuple l => unpack2_items l
      | _ => raise "TypeError"
      end
  | _ => raise "TypeError"
  end.

Definition unpack3_items (l : list pyval) : M (pyval * pyval * pyval) :=
  match l with
  | [a; b; c] => ret (a, b, c)
  | _ => raise "ValueError"
  end.

Definition py_unpack3 (v : pyval) : M (pyval * pyval * pyval) :=
  match v with
  | PTuple l | PList l => unpack3_items l
  | PStr s => unpack3_items (chars s)
  | PObj _ =>
      t <- ext (Call "tuple" [v] []) ;;
      match t with
      | PTuple l => unpack3_items l
      | _ => raise "TypeError"
      end
  | _ => raise "TypeError"
  end.

(** [range(n)] as the list it iterates over. *)
Definition range_list (n : Z) : list pyval :=
  List.map (fun i => PInt (Z.of_nat i)) (List.seq 0 (Z.to_nat n)).

Definition py_range (n : pyval) : M (list pyval) :=
  match as_int n with
  | Some z => ret (range_list z)
  | None =>
      match n with
      | PObj _ =>
          i <- ext (Call "operator.index" [n] []) ;;
          match as_int i with
          | Some z => ret (range_list z)
          | None => raise "TypeError"
          end
      | _ => raise "TypeError"
      end
  end.

(** [for x in xs: acc = body x acc] *)
Fixpoint for_each {A S} (xs : list A) (body : A -> S -> M S) (acc : S) : M S :=
  match xs with
  | [] => ret acc
  | x :: rest => acc' <- body x acc ;; for_each rest body acc'
  end.

(** The text an f-string substitutes for [{v}]. *)
Definition py_format (v : pyval) : M string :=
  match v with
  | PStr s => ret s
  | PInt z => ret (pretty z)
  | PBool b => ret (if b then "True" else "False")
  | PNone => ret "None"
  | _ =>
      t <- ext (Call "format" [v] []) ;;
      match t with
      | PStr s => ret s
      | _ => raise "TypeError"
      end
  end.

(** [os.environ[k] = v] and [st.session_state[k] = v] *)
Definition environ_set (k : string) (v : pyval) : M unit :=
  fun g w => Ran (Ok tt) (set_environ k v g) w [].

Definition session_set (k : string) (v : pyval) : M unit :=
  fun g w => Ran (Ok tt) (set_session k v g) w [].

(** [k in st.session_state] *)
Definition session_has (k : string) : M bool :=
  fun g w => Ran (Ok (bool_decide (is_Some (session_state g !! k)))) g w [].

(** [st.session_state[k]] *)
Definition session_get (k : string) : M pyval :=
  fun g w =>
    match session_state g !! k with
    | Some v => Ran (Ok v) g w []
    | None => Ran (Exn "KeyError") g w []
    end.
End Builtins.

(** ** Notebook structure *)

Inductive import_stmt : Type :=
| Import (module alias : string)              (* import module as alias *)
| FromImport (module : string) (names : list string).

(** The names an import statement binds in the notebook's namespace. *)
Definition bound_names (i : import_stmt) : list string :=
  match i with
  | Import _ alias => [alias]
  | FromImport _ names => names
  end.

Definition imported_module (i : import_stmt) : string :=
  match i with
  | Import m _ => m
  | FromImport m _ => m
  end.

(** A function defined by a cell, callable with positional arguments in any
    world. *)
Definition pyfun : Type := forall (H : World), list pyval -> M pyval.

(** ** doc/source/how_to/execution/choosing_executors.ipynb *)

Module ChoosingExecutors.
Section Cells.
Context `{World}.

Definition imports : list import_stmt := [Import "covalent" "ct"].

Definition identity (x : pyval) : M pyval := ret x.

Definition square (x : pyval) : M pyval := py_mul x x.

Definition workflow (a : pyval) : M pyval :=
  val_1 <- identity a ;;
  square val_1.

(** The cells, executed top to bottom. *)
Definition notebook : M unit :=
  executor1 <- ext (Call "ct.executor.LocalExecutor" [] []) ;;
  ext (CallCurried "ct.electron" [] [("executor", executor1)] [PFun "identity"] []) ;;;
  ext (CallCurried "ct.electron" [] [("executor", PStr "local")] [PFun "square"] []) ;;;
  ext (Call "ct.lattice" [PFun "workflow"] []) ;;;
  dispatch_id <- ext (CallCurried "ct.dispatch" [PFun "workflow"] [] []
                                  [("a", PInt 2)]) ;;
  ext (Call "print" [dispatch_id] []) ;;;
  output <- ext (Call "ct.get_result" []
                      [("dispatch_id", dispatch_id); ("wait", PBool true)]) ;;
  ext (Call "print" [output] []) ;;;
  ret tt.

(** What the last cell printed when the notebook was recorded
    ([result: 4] under [Lattice Result]). *)
Definition recorded_result : pyval := PInt 4.
End Cells.

Definition functions : list (string * pyfun) :=
  [ ("identity", fun _ args =>
       match args with [x] => identity x | _ => raise "TypeError" end);
    ("square", fun _ args =>
       match args with [x] => square x | _ => raise "TypeError" end);
    ("workflow", fun _ args =>
       match args with [a] => workflow a | _ => raise "TypeError" end) ].
End ChoosingExecutors.

(** ** doc/source/how_to/coding/file_transfers_to_from_s3.ipynb *)

Module S3Transfer.
Section Cells.
Context `{World}.

Definition imports : list import_stmt :=
  [ Import "covalent" "ct";
    FromImport "typing" ["List"; "Tuple"];
    FromImport "pathlib" ["Path"];
    FromImport "skimage" ["io"; "color"] ].

Definition unprocessed_filename : string := "unprocessed_file.png".
Definition processed_filename : string := "processed_file.png".
Definition s3_source_path : string :=
  "s3://covalent-howto-tmp/remote_" ++ unprocessed_filename.
Definition s3_dest_path : string :=
  "s3://covalent-howto-tmp/remote_" ++ processed_filename.

(** [str(Path(name).resolve())] *)
Definition resolved (name : string) : M pyval :=
  p <- ext (Call "Path" [PStr name] []) ;;
  r <- py_method p "resolve" [] [] ;;
  ext (Call "str" [r] []).

Definition to_grayscale (files : pyval) : M pyval :=
  row0 <- py_getitem files (PInt 0) ;;
  image_path <- py_getitem row0 (PInt 1) ;;
  raw <- ext (Call "io.imread" [image_path] []) ;;
  img <- py_getitem raw (PTuple [PSlice PNone PNone; PSlice PNone PNone;
                                 PSlice PNone (PInt 3)]) ;;
  gray_img <- ext (Call "color.rgb2gray" [img] []) ;;
  row1 <- py_getitem files (PInt 1) ;;
  gray_image_path <- py_getitem row1 (PInt 0) ;;
  ext (Call "io.imsave" [gray_image_path; gray_img] [("mode", PStr "L")]) ;;;
  ret PNone.

(** The lattice calls [to_grayscale()] with its default [files=None]. *)
Definition process_s3_data : M pyval := to_grayscale PNone.

Definition notebook : M unit :=
  strategy <- ext (Call "ct.fs_strategies.S3" [] []) ;;
  unprocessed_filepath <- resolved unprocessed_filename ;;
  processed_filepath <- resolved processed_filename ;;
  ft_1 <- ext (Call "ct.fs.FileTransfer" [PStr s3_source_path; unprocessed_filepath]
                    [("strategy", strategy)]) ;;
  after <- ext (Name "ct.fs.Order.AFTER") ;;
  ft_2 <- ext (Call "ct.fs.FileTransfer" [processed_filepath; PStr s3_dest_path]
                    [("strategy", strategy); ("order", after)]) ;;
  ext (CallCurried "ct.electron" [] [("files", PList [ft_1; ft_2])]
                   [PFun "to_grayscale"] []) ;;;
  ext (Call "ct.lattice" [PFun "process_s3_data"] []) ;;;
  dispatch_id <- ext (CallCurried "ct.dispatch" [PFun "process_s3_data"] [] [] []) ;;
  result <- ext (Call "ct.get_result" [dispatch_id] [("wait", PBool true)]) ;;
  status <- py_getattr result "status" ;;
  ext (Call "print" [status] []) ;;;
  ret tt.
End Cells.

Definition functions : list (string * pyfun) :=
  [ ("to_grayscale", fun _ args =>
       match args with
       | [] => to_grayscale PNone
       | [files] => to_grayscale files
       | _ => raise "TypeError"
       end);
    ("process_s3_data", fun _ args =>
       match args with [] => process_s3_data | _ => raise "TypeError" end) ].
End S3Transfer.

(** ** doc/source/tutorials/1_QuantumMachineLearning/pennylane_hybrid/source.ipynb *)

Module PennyLane.
Section Cells.
Context `{World}.

Definition imports : list import_stmt :=
  [ Import "pennylane" "qml";
    FromImport "pennylane" ["np"];
    Import "covalent" "ct";
    Import "matplotlib.pyplot" "plt" ].

Definition photon_redirection (params : pyval) : M pyval :=
  ext (Call "qml.FockState" [PInt 1] [("wires", PInt 0)]) ;;;
  p0 <- py_getitem params (PInt 0) ;;
  p1 <- py_getitem params (PInt 1) ;;
  ext (Call "qml.Beamsplitter" [p0; p1] [("wires", PList [PInt 0; PInt 1])]) ;;;
  n <- ext (Call "qml.NumberOperator" [PInt 1] []) ;;
  ext (Call "qml.expval" [n] []).

Definition qubit_rotation (phi1 phi2 : pyval) : M pyval :=
  ext (Call "qml.RX" [phi1] [("wires", PInt 0)]) ;;;
  ext (Call "qml.RY" [phi2] [("wires", PInt 0)]) ;;;
  z <- ext (Call "qml.PauliZ" [PInt 0] []) ;;
  ext (Call "qml.expval" [z] []).

Definition squared_difference (x y : pyval) : M pyval :=
  d <- py_sub x y ;;
  a <- ext (Call "np.abs" [d] []) ;;
  py_pow a (PInt 2).

Definition cost (params phi1 phi2 : pyval) : M pyval :=
  qubit_result <- qubit_rotation phi1 phi2 ;;
  photon_result <- photon_redirection params ;;
  squared_difference qubit_result photon_result.

Definition get_optimizer : M pyval :=
  ext (Call "qml.GradientDescentOptimizer" [] [("stepsize", PFloat 4 (-1))]).

Definition get_init_params (init_params : pyval) : M pyval :=
  ext (Call "np.array" [init_params] [("requires_grad", PBool true)]).

(** One pass of the loop body of [training]. *)
Definition training_step (opt cost : pyval) (i : pyval)
    (acc : pyval * list pyval * list pyval) : M (pyval * list pyval * list pyval) :=
  let '(params, training_steps, cost_steps) := acc in
  params <- py_method opt "step" [cost; params] [] ;;
  c <- py_call cost [params] [] ;;
  ret (params, (training_steps ++ [i])%list, (cost_steps ++ [c])%list).

Definition training (opt init_params cost steps : pyval) : M pyval :=
  indices <- py_range steps ;;
  acc <- for_each indices (training_step opt cost) (init_params, [], []) ;;
  let '(params, training_steps, cost_steps) := acc in
  ret (PTuple [params; PList training_steps; PList cost_steps]).

Definition workflow (init_params steps : pyval) : M pyval :=
  opt <- get_optimizer ;;
  params <- get_init_params init_params ;;
  r <- training opt params (PFun "cost") steps ;;
  t <- py_unpack3 r ;;
  let '(opt_params, training_steps, cost_steps) := t in
  ret (PTuple [opt_params; training_steps; cost_steps]).

(** First cell: print the requirements file line by line. *)
Definition print_requirements : M unit :=
  file <- ext (Call "open" [PStr "./requirements.txt"; PStr "r"] []) ;;
  lines <- py_iter file ;;
  for_each lines (fun line _ =>
                    s <- py_method line "rstrip" [] [] ;;
                    ext (Call "print" [s] []) ;;;
                    ret tt) tt.

Definition notebook : M unit :=
  print_requirements ;;;
  dev_fock <- ext (Call "qml.device" [PStr "strawberryfields.fock"]
                        [("wires", PInt 2); ("cutoff_dim", PInt 10)]) ;;
  dev_qubit <- ext (Call "qml.device" [PStr "default.qubit"] [("wires", PInt 1)]) ;;
  qn1 <- ext (CallCurried "qml.qnode" [dev_fock] [] [PFun "photon_redirection"] []) ;;
  ext (Call "ct.electron" [qn1] []) ;;;
  qn2 <- ext (CallCurried "qml.qnode" [dev_qubit] [] [PFun "qubit_rotation"] []) ;;
  ext (Call "ct.electron" [qn2] []) ;;;
  ext (Call "ct.electron" [PFun "squared_difference"] []) ;;;
  ext (Call "ct.electron" [PFun "cost"] []) ;;;
  ext (Call "ct.electron" [PFun "get_optimizer"] []) ;;;
  ext (Call "ct.electron" [PFun "get_init_params"] []) ;;;
  ext (Call "ct.electron" [PFun "training"] []) ;;;
  ext (Call "ct.lattice" [PFun "workflow"] []) ;;;
  dispatch_id <- ext (CallCurried "ct.dispatch" [PFun "workflow"] []
                                  [PList [PFloat 1 (-2); PFloat 1 (-2)]; PInt 50] []) ;;
  result <- ext (Call "ct.get_result" []
                      [("dispatch_id", dispatch_id); ("wait", PBool true)]) ;;
  rr <- py_getattr result "result" ;;
  t <- py_unpack3 rr ;;
  let '(opt_params, traing_steps, cost_steps) := t in
  sp <- ext (Call "plt.subplots" [PInt 1; PInt 1]
                  [("figsize", PTuple [PInt 7; PInt 5]); ("facecolor", PStr "w")]) ;;
  fa <- py_unpack2 sp ;;
  let '(fig, ax) := fa in
  py_method ax "plot" [traing_steps; cost_steps] [] ;;;
  py_method ax "set_xlabel" [PStr "Training steps"] [] ;;;
  py_method ax "set_ylabel" [PStr "Cost"] [] ;;;
  py_method ax "set_title" [PStr "Cost vs. Training steps"] [] ;;;
  ext (Call "plt.tight_layout" [] []) ;;;
  ext (Call "plt.show" [] []) ;;;
  pr <- photon_redirection opt_params ;;
  ext (Call "print" [pr] []) ;;;
  qr <- qubit_rotation (PFloat 4 (-1)) (PFloat 8 (-1)) ;;
  ext (Call "print" [qr] []) ;;;
  ret tt.
End Cells.

Definition functions : list (string * pyfun) :=
  [ ("photon_redirection", fun _ args =>
       match args with [p] => photon_redirection p | _ => raise "TypeError" end);
    ("qubit_rotation", fun _ args =>
       match args with [a; b] => qubit_rotation a b | _ => raise "TypeError" end);
    ("squared_difference", fun _ args =>
       match args with [x; y] => squared_difference x y | _ => raise "TypeError" end);
    ("cost", fun _ args =>
       match args with
       | [p] => cost p (PFloat 4 (-1)) (PFloat 8 (-1))
       | [p; phi1] => cost p phi1 (PFloat 8 (-1))
       | [p; phi1; phi2] => cost p phi1 phi2
       | _ => raise "TypeError"
       end);
    ("get_optimizer", fun _ args =>
       match args with [] => get_optimizer | _ => raise "TypeError" end);
    ("get_init_params", fun _ args =>
       match args with [p] => get_init_params p | _ => raise "TypeError" end);
    ("training", fun _ args =>
       match args with
       | [opt; init_params; cost; steps] => training opt init_params cost steps
       | _ => raise "TypeError"
       end);
    ("workflow", fun _ args =>
       match args with [p; n] => workflow p n | _ => raise "TypeError" end) ].
End PennyLane.

(** ** The YouTube summarisation tutorial (a Streamlit application) *)

Module YouTube.
Section Cells.
Context `{World}.

Definition imports : list import_stmt :=
  [ Import "os" "os";
    Import "streamlit" "st";
    FromImport "pytube" ["YouTube"];
    FromImport "pydub" ["AudioSegment"];
    FromImport "transformers" ["pipeline"];
    FromImport "TTS.api" ["TTS"];
    Import "covalent_cloud" "cc";
    Import "streamlit" "st" ].

Definition audio_deps : list pyval :=
  [ PStr "transformers==4.33.3"; PStr "pydub==0.25.1";
    PStr "torchaudio==2.1.0"; PStr "librosa==0.10.0";
    PStr "torch==2.1.0" ].
Definition text_deps : list pyval := [PStr "transformers==4.33.3"; PStr "torch==2.1.0"].
Definition tts_deps : list pyval := (audio_deps ++ [PStr "TTS==0.19.1"])%list.

Definition download_video (url : pyval) : M pyval :=
  yt <- ext (Call "YouTube" [url] []) ;;
  streams <- py_getattr yt "streams" ;;
  audio_only <- py_method streams "filter" []
                  [("only_audio", PBool true); ("file_extension", PStr "mp4")] ;;
  first <- py_method audio_only "first" [] [] ;;
  out_file <- py_method first "download" [PStr "."] [] ;;
  ext (Call "os.rename" [out_file; PStr "audio.mp4"] []) ;;;
  f <- ext (Call "open" [PStr "audio.mp4"; PStr "rb"] []) ;;
  file_content <- py_method f "read" [] [] ;;
  ret file_content.

Definition load_audio (input_file_content : pyval) : M pyval :=
  cwd <- ext (Call "os.getcwd" [] []) ;;
  input_path <- ext (Call "os.path.join" [cwd; PStr "file.mp4"] []) ;;
  f <- ext (Call "open" [input_path; PStr "wb"] []) ;;
  py_method f "write" [input_file_content] [] ;;;
  audio_content <- ext (Call "AudioSegment.from_file" [input_path]
                             [("format", PStr "mp4")]) ;;
  ret audio_content.

Definition transcribe_audio (audio_content : pyval) : M pyval :=
  py_method audio_content "export" [PStr "audio_file.wav"] [("format", PStr "wav")] ;;;
  pipe <- ext (Call "pipeline" []
                    [("task", PStr "automatic-speech-recognition");
                     ("model", PStr "openai/whisper-large-v3");
                     ("chunk_length_s", PInt 30); ("max_new_tokens", PInt 2048)]) ;;
  transcription <- py_call pipe [PStr "audio_file.wav"] [] ;;
  py_getitem transcription (PStr "text").

Definition summarize_transcription (transcription : pyval) : M pyval :=
  summarizer <- ext (Call "pipeline" [PStr "summarization"]
                          [("model", PStr "facebook/bart-large-cnn")]) ;;
  out <- py_call summarizer [transcription]
           [("min_length", PInt 5); ("max_length", PInt 100);
            ("do_sample", PBool false); ("truncation", PBool true)] ;;
  first <- py_getitem out (PInt 0) ;;
  summary <- py_getitem first (PStr "summary_text") ;;
  ret summary.

Definition text_to_speech_voice_clone (text speaker_content output_file : pyval)
  : M pyval :=
  f <- ext (Call "open" [PStr "speaker.wav"; PStr "wb"] []) ;;
  py_method f "write" [speaker_content] [] ;;;
  environ_set "COQUI_TOS_AGREED" (PStr "1") ;;;
  tts <- ext (Call "TTS" [PStr "tts_models/multilingual/multi-dataset/xtts_v1"] []) ;;
  py_method tts "tts_to_file" []
    [("text", text); ("file_path", output_file);
     ("speaker_wav", PStr "speaker.wav"); ("language", PStr "en")] ;;;
  f' <- ext (Call "open" [output_file; PStr "rb"] []) ;;
  file_content <- py_method f' "read" [] [] ;;
  ret file_content.

Definition load_wav_file (wav_file : pyval) : M pyval :=
  f <- ext (Call "open" [wav_file; PStr "rb"] []) ;;
  file_content <- py_method f "read" [] [] ;;
  ret file_content.

Definition workflow (url user_voice_file output_file : pyval) : M pyval :=
  video_content <- download_video url ;;
  audio_content <- load_audio video_content ;;
  user_voice_content <- load_wav_file user_voice_file ;;
  transcription <- transcribe_audio audio_content ;;
  summary <- summarize_transcription transcription ;;
  output_file_content <- text_to_speech_voice_clone summary user_voice_content
                           output_file ;;
  ret (PTuple [summary; transcription; output_file_content]).

Definition display_summary (summary : pyval) : M pyval :=
  ext (Call "st.subheader" [PStr "YouTube transcription summary:"] []) ;;;
  ext (Call "st.text" [summary] []) ;;;
  ret PNone.

Definition display_full_transcription (transcription : pyval) : M pyval :=
  ext (Call "st.subheader" [PStr "YouTube full transcription"] []) ;;;
  shown <- ext (Call "st.checkbox" [PStr "Show/Hide"; PBool false] []) ;;
  if truthy shown
  then ext (Call "st.text" [transcription] []) ;;; ret PNone
  else ret PNone.

Definition display_audio_summary (audio_file_content : pyval) : M pyval :=
  ext (Call "st.subheader" [PStr "Summary in your own voice:"] []) ;;;
  ext (Call "st.audio" [audio_file_content] [("format", PStr "audio/wav")]) ;;;
  ret PNone.

Definition display_results (summary transcription audio_file_content : pyval)
  : M pyval :=
  display_summary summary ;;;
  display_full_transcription transcription ;;;
  display_audio_summary audio_file_content ;;;
  ret PNone.

Definition upload_speaker_file : M pyval :=
  speaker_file <- ext (Call "st.file_uploader" [PStr "Upload an audio file (WAV)"]
                            [("type", PList [PStr "wav"])]) ;;
  if truthy speaker_file
  then
    ext (Call "st.audio" [speaker_file] [("format", PStr "audio/wav")]) ;;;
    let speaker_file_path := PStr "speaker.wav" in
    f <- ext (Call "open" [speaker_file_path; PStr "wb"] []) ;;
    buffer <- py_method speaker_file "getbuffer" [] [] ;;
    py_method f "write" [buffer] [] ;;;
    ret (PTuple [speaker_file; speaker_file_path])
  else ret (PTuple [PNone; PNone]).

Definition process_input (speaker_file speaker_file_path youtube_url : pyval)
  : M pyval :=
  if truthy speaker_file && truthy youtube_url
  then
    cwd <- ext (Call "os.getcwd" [] []) ;;
    audio_file_full_path <- ext (Call "os.path.join" [cwd; PStr "audio.wav"] []) ;;
    cwd' <- ext (Call "os.getcwd" [] []) ;;
    speaker_file_full_path <- ext (Call "os.path.join" [cwd'; speaker_file_path] []) ;;
    dispatch_id <- ext (CallCurried "ct.dispatch" [PFun "workflow"] []
                          [youtube_url; speaker_file_full_path; audio_file_full_path]
                          []) ;;
    shown_id <- py_format dispatch_id ;;
    ext (Call "st.spinner"
              [PStr ("Processing... job dispatch id: " ++ shown_id)] []) ;;;
    result <- ext (Call "ct.get_result" [dispatch_id] [("wait", PBool true)]) ;;
    if truthy result
    then
      rr <- py_getattr result "result" ;;
      t <- py_unpack3 rr ;;
      let '(summary, transcription, output_file_content) := t in
      session_set "transcription" transcription ;;;
      session_set "summary" summary ;;;
      session_set "audio_file_content" output_file_content ;;;
      display_results summary transcription output_file_content ;;;
      ret PNone
    else
      ext (Call "st.error" [PStr "Something went wrong. Please try again."] []) ;;;
      ret PNone
  else ret PNone.

Definition main : M pyval :=
  ext (Call "st.title" [PStr "Summarize YouTube videos in your own voice using AI"]
            []) ;;;
  uploaded <- upload_speaker_file ;;
  sp <- py_unpack2 uploaded ;;
  let '(speaker_file, speaker_file_path) := sp in
  youtube_url <- ext (Call "st.text_input" [PStr "Enter valid YouTube URL"] []) ;;
  pressed <- ext (Call "st.button" [PStr "Process"] []) ;;
  if truthy pressed
  then process_input speaker_file speaker_file_path youtube_url ;;; ret PNone
  else
    stored <- session_has "transcription" ;;
    if (stored : bool)
    then
      summary <- session_get "summary" ;;
      transcription <- session_get "transcription" ;;
      audio_file_content <- session_get "audio_file_content" ;;
      display_results summary transcription audio_file_content ;;;
      ret PNone
    else ret PNone.

(** One execution of the script, top to bottom. *)
Definition notebook : M unit :=
  executor <- ext (Call "ct.executor.GCPBatchExecutor" []
                     [("container_image_uri",
                        PStr "docker.io/filipbolt/covalent-gcp-0.229.0rc0");
                      ("vcpus", PInt 4); ("memory", PInt 8192);
                      ("time_limit", PInt 3000); ("poll_freq", PInt 1);
                      ("retries", PInt 1)]) ;;
  cc_executor <- ext (Call "cc.CloudExecutor" []
                        [("num_cpus", PInt 4); ("env", PStr "genai-env");
                         ("memory", PInt 8192); ("time_limit", PInt 3000)]) ;;
  ext (Call "ct.electron" [PFun "download_video"] []) ;;;
  ext (Call "ct.electron" [PFun "load_audio"] []) ;;;
  ext (CallCurried "ct.electron" []
         [("executor", executor); ("deps_pip", PList audio_deps)]
         [PFun "transcribe_audio"] []) ;;;
  ext (CallCurried "ct.electron" []
         [("executor", executor); ("deps_pip", PList text_deps)]
         [PFun "summarize_transcription"] []) ;;;
  ext (CallCurried "ct.electron" []
         [("executor", executor); ("deps_pip", PList tts_deps)]
         [PFun "text_to_speech_voice_clone"] []) ;;;
  ext (Call "ct.electron" [PFun "load_wav_file"] []) ;;;
  ext (Call "ct.lattice" [PFun "workflow"] []) ;;;
  main ;;;
  ret tt.

(** Streamlit executes the script again on every interaction and shows an
    uncaught exception instead of stopping the session; the session state
    survives from one execution to the next. *)
Definition rerun : M unit :=
  fun g w => let r := notebook g w in Ran (Ok tt) (glob r) (world r) (emitted r).

Fixpoint session (runs : nat) : M unit :=
  match runs with
  | O => ret tt
  | S n => rerun ;;; session n
  end.
End Cells.

Definition functions : list (string * pyfun) :=
  [ ("download_video", fun _ args =>
       match args with [u] => download_video u | _ => raise "TypeError" end);
    ("load_audio", fun _ args =>
       match args with [c] => load_audio c | _ => raise "TypeError" end);
    ("transcribe_audio", fun _ args =>
       match args with [a] => transcribe_audio a | _ => raise "TypeError" end);
    ("summarize_transcription", fun _ args =>
       match args with [t] => summarize_transcription t | _ => raise "TypeError" end);
    ("text_to_speech_voice_clone", fun _ args =>
       match args with
       | [t; s; o] => text_to_speech_voice_clone t s o
       | _ => raise "TypeError"
       end);
    ("load_wav_file", fun _ args =>
       match args with [f] => load_wav_file f | _ => raise "TypeError" end);
    ("workflow", fun _ args =>
       match args with [u; v; o] => workflow u v o | _ => raise "TypeError" end);
    ("display_results", fun _ args =>
       match args with [s; t; a] => display_results s t a | _ => raise "TypeError" end);
    ("display_summary", fun _ args =>
       match args with [s] => display_summary s | _ => raise "TypeError" end);
    ("display_full_transcription", fun _ args =>
       match args with [t] => display_full_transcription t | _ => raise "TypeError" end);
    ("display_audio_summary", fun _ args =>
       match args with [a] => display_audio_summary a | _ => raise "TypeError" end);
    ("main", fun _ args =>
       match args with [] => main | _ => raise "TypeError" end);
    ("upload_speaker_file", fun _ args =>
       match args with [] => upload_speaker_file | _ => raise "TypeError" end);
    ("process_input", fun _ args =>
       match args with [f; p; u] => process_input f p u | _ => raise "TypeError" end) ].
End YouTube.

(** ** Every function the notebooks define *)

Definition tagged (notebook : string) (fs : list (string * pyfun))
  : list (string * string * pyfun) :=
  List.map (fun nf => (notebook, fst nf, snd nf)) fs.

Definition all_functions : list (string * string * pyfun) :=
  (tagged "choosing_executors" ChoosingExecutors.functions
   ++ tagged "file_transfers_to_from_s3" S3Transfer.functions
   ++ tagged "pennylane_hybrid" PennyLane.functions
   ++ tagged "youtube_summarization" YouTube.functions)%list.

(** A function has behaviour of its own when, on some arguments, the value it
    returns is fixed by its code alone: the same in every world, and not the
    [None] of a function that returns nothing. *)
Definition own_behaviour (f : pyfun) : Prop :=
  exists args v, v <> PNone /\
    forall (H : World) g w, res (f H args g w) = Ok v.

Definition every_function_only_chains_calls : Prop :=
  forall nb name f, In (nb, name, f) all_functions -> ~ own_behaviour f.

(** A function leaves the process state alone when environment and session
    state are the same after every call. *)
Definition preserves_globals (f : pyfun) : Prop :=
  forall (H : World) args g w, glob (f H args g w) = g.

Definition no_function_mutates_state : Prop :=
  forall nb name f, In (nb, name, f) all_functions -> preserves_globals f.

(** The functions that do compute a result of their own. *)
Definition self_contained : list (string * string) :=
  [ ("choosing_executors", "identity");
    ("choosing_executors", "square");
    ("choosing_executors", "workflow");
    ("pennylane_hybrid", "training") ].

(** The functions that write to the process state, and what they write:
    [text_to_speech_voice_clone] (and the workflow calling it) accepts the
    terms of service through the environment; [process_input] (and [main]
    calling it) keeps the retrieved result in the session state. *)
Definition mutators : list (string * string) :=
  [ ("youtube_summarization", "text_to_speech_voice_clone");
    ("youtube_summarization", "workflow");
    ("youtube_summarization", "process_input");
    ("youtube_summarization", "main") ].

Definition agreed (g : globals) : globals :=
  set_environ "COQUI_TOS_AGREED" (PStr "1") g.

Definition remembered (summary transcription audio : pyval) (g : globals) : globals :=
  set_session "audio_file_content" audio
    (set_session "summary" summary
       (set_session "transcription" transcription g)).

(** ** Reading a trace *)

Definition lookup_kw (k : string) (kw : kwargs) : option pyval :=
  match List.find (fun p => String.eqb (fst p) k) kw with
  | Some p => Some (snd p)
  | None => None
  end.

Definition is_call_to (name : string) (op : extop) : bool :=
  match op with
  | Call f _ _ | CallCurried f _ _ _ _ => String.eqb f name
  | _ => false
  end.

Definition is_dispatch (op : extop) : bool := is_call_to "ct.dispatch" op.
Definition is_get_result (op : extop) : bool := is_call_to "ct.get_result" op.

(** The dispatch id a [ct.get_result] call is keyed by: its first positional
    argument, else the keyword [dispatch_id]. *)
Definition dispatch_id_arg (op : extop) : option pyval :=
  match op with
  | Call _ (id :: _) _ => Some id
  | Call _ [] kw => lookup_kw "dispatch_id" kw
  | _ => None
  end.

Definition wait_arg (op : extop) : option pyval :=
  match op with
  | Call _ _ kw => lookup_kw "wait" kw
  | _ => None
  end.

Definition op_kwargs (op : extop) : kwargs :=
  match op with
  | Call _ _ kw | CallValue _ _ kw | CallMethod _ _ _ kw => kw
  | CallCurried _ _ kw1 _ kw2 => (kw1 ++ kw2)%list
  | _ => []
  end.

Definition configures_retry (op : extop) : bool :=
  List.existsb (fun p => String.eqb (fst p) "retries") (op_kwargs op).

Definition is_error_action (op : extop) : bool := is_call_to "st.error" op.

(** The value an exchange produced, if it produced one. *)
Definition returned (r : response) : option pyval :=
  match r with
  | Returned v => Some v
  | Raised _ => None
  end.

Definition outcome_of (r : response) : outcome pyval :=
  match r with
  | Returned v => Ok v
  | Raised e => Exn e
  end.

(** ** Monitors: properties of a trace checked event by event *)

Record monitor := Monitor {
  mstate : Type;
  mstep : mstate -> event -> mstate;
  mguard : mstate -> event -> Prop
}.

Fixpoint along (mon : monitor) (q : mstate mon) (tr : list event) : Prop :=
  match tr with
  | [] => True
  | ev :: rest => mguard mon q ev /\ along mon (mstep mon q ev) rest
  end.

Definition final (mon : monitor) (q : mstate mon) (tr : list event) : mstate mon :=
  List.fold_left (mstep mon) tr q.

(** *** Retrieval is keyed by the dispatched identifier

    The state holds the identifier the latest dispatch call returned and
    counts the retrievals made so far. *)
Record keyed_state := Keyed {
  dispatched : option pyval;
  retrievals : nat
}.

Definition keyed_monitor : monitor :=
  {| mstate := keyed_state;
     mstep := fun q ev =>
       if is_dispatch (fst ev)
       then {| dispatched := returned (snd ev); retrievals := retrievals q |}
       else if is_get_result (fst ev)
            then {| dispatched := dispatched q; retrievals := S (retrievals q) |}
            else q;
     mguard := fun q ev =>
       if is_get_result (fst ev)
       then exists id, dispatched q = Some id /\ dispatch_id_arg (fst ev) = Some id
       else True |}.

Definition nothing_dispatched : keyed_state :=
  {| dispatched := None; retrievals := 0 |}.

(** *** Retrieval is one blocking wait per dispatch

    The state tells whether a dispatched workflow is still to be retrieved:
    a retrieval passes [wait=True] and is the only one for its dispatch. *)
Definition blocking_monitor : monitor :=
  {| mstate := bool;
     mstep := fun q ev =>
       if is_dispatch (fst ev) then true
       else if is_get_result (fst ev) then false
       else q;
     mguard := fun q ev =>
       if is_get_result (fst ev)
       then q = true /\ wait_arg (fst ev) = Some (PBool true)
       else True |}.

(** *** The orchestration API is called

    The state tells whether an operation reached through the given alias has
    been called. *)
Definition through_alias (alias : string) (op : extop) : bool :=
  match op with
  | Call f _ _ | CallCurried f _ _ _ _ | Name f => String.prefix (alias ++ ".") f
  | _ => false
  end.

Definition api_monitor (alias : string) : monitor :=
  {| mstate := bool;
     mstep := fun q ev => q || through_alias alias (fst ev);
     mguard := fun _ _ => True |}.

(** The modules of the orchestration library and the aliases a notebook
    binds them to. *)
Definition orchestration_modules : list string := ["covalent"; "covalent_cloud"].

Definition orchestration_aliases (imports : list import_stmt) : list string :=
  List.concat
    (List.map (fun i =>
                 if List.existsb (String.eqb (imported_module i)) orchestration_modules
                 then bound_names i else [])
              imports).

Definition binds (imports : list import_stmt) (alias : string) : bool :=
  List.existsb (fun i => List.existsb (String.eqb alias) (bound_names i)) imports.

Definition imports_module (imports : list import_stmt) (module : string) : bool :=
  List.existsb (fun i => String.eqb (imported_module i) module) imports.

(** *** The grayscale image is the library's

    The state is the latest value [color.rgb2gray] returned; what
    [io.imsave] writes is that value. *)
Definition grayscale_monitor : monitor :=
  {| mstate := option pyval;
     mstep := fun q ev =>
       if is_call_to "color.rgb2gray" (fst ev) then returned (snd ev) else q;
     mguard := fun q ev =>
       match fst ev with
       | Call f args _ =>
           if String.eqb f "io.imsave"
           then exists path img, args = [path; img] /\ q = Some img
           else True
       | _ => True
       end |}.

(** *** The transcription is the library's

    The state is the latest value read out of a library object by
    subscription. *)
Definition item_monitor : monitor :=
  {| mstate := option pyval;
     mstep := fun q ev =>
       match fst ev, snd ev with
       | GetItem _ _, Returned v => Some v
       | _, _ => q
       end;
     mguard := fun _ _ => True |}.

(** *** The optimisation is the library's

    The state holds the parameters the latest [opt.step] returned and the
    values the calls of [cost] returned, in order. *)
Record training_state := Trained {
  stepped : option pyval;
  costs_seen : list pyval
}.

Definition training_monitor : monitor :=
  {| mstate := training_state;
     mstep := fun q ev =>
       match fst ev, snd ev with
       | CallMethod _ _ _ _, Returned v =>
           {| stepped := Some v; costs_seen := costs_seen q |}
       | CallValue _ _ _, Returned c =>
           {| stepped := stepped q; costs_seen := (costs_seen q ++ [c])%list |}
       | _, _ => q
       end;
     mguard := fun _ _ => True |}.

(** *** The order of the steps *)

Inductive phase : Type := Configure | Decorate | Dispatch | Poll | Display.

Definition rank (p : phase) : nat :=
  match p with
  | Configure => 0
  | Decorate => 1
  | Dispatch => 2
  | Poll => 3
  | Display => 4
  end.

(** The step an operation of the orchestration API belongs to, by its name:
    constructing executors, devices, strategies and file transfers configures;
    [ct.electron], [ct.lattice] and [qml.qnode] decorate; [ct.get_result] and
    reading [status] or [result] off what it returned poll. *)
Definition api_phase (op : extop) : option phase :=
  match op with
  | Call f _ _ | CallCurried f _ _ _ _ =>
      if String.prefix "ct.executor." f || String.prefix "ct.fs_strategies." f
         || String.eqb f "ct.fs.FileTransfer" || String.eqb f "cc.CloudExecutor"
         || String.eqb f "qml.device"
      then Some Configure
      else if String.eqb f "ct.electron" || String.eqb f "ct.lattice"
              || String.eqb f "qml.qnode"
      then Some Decorate
      else if String.eqb f "ct.dispatch" then Some Dispatch
      else if String.eqb f "ct.get_result" then Some Poll
      else None
  | Name f => if String.prefix "ct.fs." f then Some Configure else None
  | GetAttr _ a =>
      if String.eqb a "status" || String.eqb a "result" then Some Poll else None
  | _ => None
  end.

(** Operations that put something on the screen. *)
Definition is_display (op : extop) : bool :=
  match op with
  | Call f _ _ =>
      String.eqb f "print" || String.prefix "plt." f || String.eqb f "st.text"
      || String.eqb f "st.audio" || String.eqb f "st.subheader"
      || String.eqb f "st.error"
  | CallMethod _ m _ _ =>
      String.eqb m "plot" || String.prefix "set_" m
  | _ => false
  end.

(** The state of a run: the rank of the latest step, whether a result has
    been polled in this run, whether one had been polled earlier in the
    session (a Streamlit page keeps it in the session state), the steps
    taken so far, and what may be shown before any result exists: the
    dispatch id, the requirement line stripped last, the voice sample the
    visitor uploaded. *)
Record progress := Progress {
  reached : nat;
  polled : bool;
  carried : bool;
  taken : list phase;
  ident : option pyval;
  line : option pyval;
  preview : option pyval
}.

(** What a script shows that is not a result: the dispatch id, a line of the
    requirements file, the uploaded voice sample. *)
Definition not_a_result (q : progress) (op : extop) : Prop :=
  match op with
  | Call f [x] _ =>
      (f = "print" /\ (ident q = Some x \/ line q = Some x))
      \/ (f = "st.audio" /\ preview q = Some x)
  | _ => False
  end.

Definition is_poll (p : phase) : bool :=
  match p with Poll => true | _ => false end.

(** The step an operation takes: a step of the API by its name, or the
    display step, taken by the displays that follow the poll. *)
Definition step_of (polled : bool) (op : extop) : option phase :=
  match api_phase op with
  | Some p => Some p
  | None => if polled && is_display op then Some Display else None
  end.

(** The steps taken, each kind listed once per stretch. *)
Definition take (p : phase) (steps : list phase) : list phase :=
  match last steps with
  | Some p' => if Nat.eqb (rank p') (rank p) then steps else (steps ++ [p])%list
  | None => [p]
  end.

Definition noted (q : progress) (ev : event) : progress :=
  match fst ev, snd ev with
  | CallCurried f _ _ _ _, Returned v =>
      if String.eqb f "ct.dispatch"
      then {| reached := reached q; polled := polled q; carried := carried q;
              taken := taken q; ident := Some v; line := line q;
              preview := preview q |}
      else q
  | CallMethod _ m _ _, Returned v =>
      if String.eqb m "rstrip"
      then {| reached := reached q; polled := polled q; carried := carried q;
              taken := taken q; ident := ident q; line := Some v;
              preview := preview q |}
      else q
  | Call f _ _, Returned v =>
      if String.eqb f "st.file_uploader"
      then {| reached := reached q; polled := polled q; carried := carried q;
              taken := taken q; ident := ident q; line := line q;
              preview := Some v |}
      else q
  | _, _ => q
  end.

(** The steps come in order; a poll needs a dispatch before it; and what is
    displayed before a result has been polled, in this run or earlier in the
    session, is not a result. *)
Definition order_monitor : monitor :=
  {| mstate := progress;
     mstep := fun q ev =>
       let q' := noted q ev in
       match step_of (polled q) (fst ev) with
       | Some p => {| reached := rank p; polled := polled q || is_poll p;
                      carried := carried q; taken := take p (taken q);
                      ident := ident q'; line := line q'; preview := preview q' |}
       | None => q'
       end;
     mguard := fun q ev =>
       match step_of (polled q) (fst ev) with
       | Some p =>
           (reached q <= rank p)%nat
           /\ (is_poll p = true -> (rank Dispatch <= reached q)%nat)
       | None => True
       end
       /\ (is_display (fst ev) = true ->
           polled q = true \/ carried q = true \/ not_a_result q (fst ev)) |}.

(** A run begins with nothing done. *)
Definition begin (carried : bool) : progress :=
  {| reached := 0; polled := false; carried := carried; taken := [];
     ident := None; line := None; preview := None |}.

Definition start : progress := begin false.

Definition every_step : list phase := [Configure; Decorate; Dispatch; Poll; Display].

(** *** Results shown by the Streamlit page

    [st.text] shows a summary or a transcription.  The state tells whether a
    [ct.get_result] call has returned since the session began. *)
Definition shown_monitor : monitor :=
  {| mstate := bool;
     mstep := fun q ev =>
       if is_get_result (fst ev)
       then match snd ev with Returned _ => true | Raised _ => q end
       else q;
     mguard := fun q ev =>
       if is_call_to "st.text" (fst ev) then q = true else True |}.

(** What the page keeps in the session state was retrieved earlier in the
    session. *)
Definition stored_was_retrieved (g : globals) (q : bool) : Prop :=
  is_Some (session_state g !! "transcription") -> q = true.

(** *** Local failure handling

    The first monitor accepts traces free of retry configuration and of
    error actions.  The second describes the YouTube page: the state is the
    latest retrieved result; a retry count is only ever handed to the
    executor constructor, and the error message follows a false result. *)
Definition no_failure_logic : monitor :=
  {| mstate := unit;
     mstep := fun q _ => q;
     mguard := fun _ ev =>
       configures_retry (fst ev) = false /\ is_error_action (fst ev) = false |}.

Definition failure_monitor : monitor :=
  {| mstate := option pyval;
     mstep := fun q ev =>
       if is_get_result (fst ev) then returned (snd ev) else q;
     mguard := fun q ev =>
       (configures_retry (fst ev) = true ->
          is_call_to "ct.executor.GCPBatchExecutor" (fst ev) = true
          /\ lookup_kw "retries" (op_kwargs (fst ev)) = Some (PInt 1))
       /\ (is_error_action (fst ev) = true ->
             exists v, q = Some v /\ truthy v = false) |}.

(** *** The status is read off the retrieved result

    The state holds the latest retrieved result and the latest status read;
    [status] is read off the retrieved result and what is printed is that
    status. *)
Record status_state := Status {
  retrieved : option pyval;
  status_read : option pyval
}.

Definition reads_status (op : extop) : bool :=
  match op with
  | GetAttr _ a => String.eqb a "status"
  | _ => false
  end.

Definition status_monitor : monitor :=
  {| mstate := status_state;
     mstep := fun q ev =>
       match snd ev with
       | Returned v =>
           if is_get_result (fst ev)
           then {| retrieved := Some v; status_read := status_read q |}
           else if reads_status (fst ev)
                then {| retrieved := retrieved q; status_read := Some v |}
                else q
       | Raised _ => q
       end;
     mguard := fun q ev =>
       match fst ev with
       | GetAttr recv a =>
           if String.eqb a "status" then retrieved q = Some recv else True
       | Call f args _ =>
           if String.eqb f "print"
           then exists x, args = [x] /\ status_read q = Some x
           else True
       | _ => True
       end |}.

(** The claim that no notebook has failure logic of its own. *)
Definition no_local_failure_handling : Prop :=
  forall (H : World) g w,
    along no_failure_logic tt (emitted (ChoosingExecutors.notebook g w))
    /\ along no_failure_logic tt (emitted (S3Transfer.notebook g w))
    /\ along no_failure_logic tt (emitted (PennyLane.notebook g w))
    /\ along no_failure_logic tt (emitted (YouTube.notebook g w)).

(** An exception raised by an external operation is never caught: it is the
    last event of the run and the outcome of the run. *)
Definition uncaught (tr : list event) {R} (o : outcome R) : Prop :=
  forall pre op e post,
    tr = (pre ++ (op, Raised e) :: post)%list -> post = [] /\ o = Exn e.

(** ** Weakest preconditions for notebook code under a monitor *)

Section WP.
Context `{World} (mon : monitor).

Definition wp {R} (m : M R) (g : globals) (q : mstate mon)
    (post : outcome R -> globals -> mstate mon -> Prop) : Prop :=
  forall w,
    let r := m g w in
    along mon q (emitted r) /\ post (res r) (glob r) (final mon q (emitted r)).
End WP.

(** A computation that leaves the globals alone and asks the world at most
    once, for [op]; if the world raises, so does the computation. *)
Definition asks_once `{World} {R} (op : extop) (m : M R) : Prop :=
  forall g w,
    glob (m g w) = g /\
    (emitted (m g w) = [] \/
     exists r, emitted (m g w) = [(op, r)] /\
               forall e, r = Raised e -> res (m g w) = Exn e).

(** *** No exception is caught

    The state is the exception an external operation raised, if any; nothing
    may follow it. *)
Definition raise_monitor : monitor :=
  {| mstate := option string;
     mstep := fun q ev => match snd ev with Raised e => Some e | Returned _ => q end;
     mguard := fun q _ => q = None |}.

(** The monitor that accepts everything. *)
Definition unmonitored : monitor :=
  {| mstate := unit; mstep := fun q _ => q; mguard := fun _ _ => True |}.

(** The operations of the cell that lists the requirements file. *)
Definition listing_op (op : extop) : Prop :=
  match op with
  | Call f _ kw => (f = "open" \/ f = "list" \/ f = "print") /\ kw = []
  | CallMethod _ m _ kw => m = "rstrip" /\ kw = []
  | _ => False
  end.

(** The operations of the training loop. *)
Definition training_op (op : extop) : Prop :=
  match op with
  | CallMethod _ m _ _ => m = "step"
  | CallValue _ _ _ => True
  | _ => False
  end.

(** ** What is claimed of a run of a notebook *)

Section Verdicts.
Context `{World}.

(** Every retrieval is keyed by the identifier the dispatch returned; a
    run that completes made one retrieval. *)
Definition keyed_run (nb : M unit) (g : globals) (w : ext_state) : Prop :=
  along keyed_monitor nothing_dispatched (emitted (nb g w))
  /\ (res (nb g w) = Ok tt ->
      exists id, final keyed_monitor nothing_dispatched (emitted (nb g w))
                 = {| dispatched := Some id; retrievals := 1 |}).

(** Every retrieval is a blocking wait, the only one for its dispatch; a
    run that completes leaves nothing to retrieve. *)
Definition blocking_run (nb : M unit) (g : globals) (w : ext_state) : Prop :=
  along blocking_monitor false (emitted (nb g w))
  /\ (res (nb g w) = Ok tt ->
      final blocking_monitor false (emitted (nb g w)) = false).

(** The steps come in order; a run that completes has taken every step. *)
Definition ordered_run (nb : M unit) (g : globals) (w : ext_state) : Prop :=
  along order_monitor start (emitted (nb g w))
  /\ (res (nb g w) = Ok tt ->
      taken (final order_monitor start (emitted (nb g w))) = every_step).
End Verdicts.

(** A world in which no operation raises, and values that can be called. *)
Definition never_raises (H : World) : Prop :=
  forall op w, exists v, fst (ext_call op w) = Returned v.

Definition callable (v : pyval) : bool :=
  match v with
  | PObj _ | PFun _ => true
  | _ => false
  end.

(** ** Worlds used in examples *)

(** A world without memory that answers by the operation alone. *)
Definition scripted (answer : extop -> response) : World :=
  {| ext_state := unit; ext_call := fun op w => (answer op, w) |}.

(** Every external operation fails. *)
Definition failing_world : World := scripted (fun _ => Raised "RuntimeError").

(** Every external operation returns [None]. *)
Definition silent_world : World := scripted (fun _ => Returned PNone).

(** A visitor uploads a voice sample, enters a URL and presses the button;
    the workflow completes. *)
Definition studio_answer (op : extop) : response :=
  if is_call_to "st.file_uploader" op then Returned (PObj 1)
  else if is_call_to "st.text_input" op then Returned (PStr "https://youtu.be/demo")
  else if is_call_to "st.button" op then Returned (PBool true)
  else if is_call_to "st.checkbox" op then Returned (PBool false)
  else if is_dispatch op then Returned (PStr "5f0e220f-35dc-4a75-92c6-a00176f530e2")
  else if is_get_result op then Returned (PObj 2)
  else match op with
       | GetAttr _ "result" =>
           Returned (PTuple [PStr "a summary"; PStr "a transcription"; PObj 3])
       | _ => Returned (PObj 0)
       end.
Definition studio_world : World := scripted studio_answer.

(** The same visit, but the result cannot be retrieved. *)
Definition lost_answer (op : extop) : response :=
  if is_get_result op then Returned PNone else studio_answer op.
Definition lost_world : World := scripted lost_answer.

(** A world that numbers its answers: the n-th operation returns object n. *)
Definition counting_world : World :=
  {| ext_state := nat; ext_call := fun _ n => (Returned (PObj n), S n) |}.

(** A visitor who presses the button once: the first execution of the script
    processes the input, later ones find the button released. *)
Definition returning_visitor : World :=
  {| ext_state := bool;
     ext_call := fun op pressed =>
       if is_call_to "st.button" op then (Returned (PBool (negb pressed)), true)
       else (studio_answer op, pressed) |}.

Definition empty_globals : globals := {| environ := ∅; session_state := ∅ |}.

(** ** Further readings of a trace *)

(** The exceptions Python raises by itself in the cells: a missing attribute,
    a value of the wrong type, a sequence of the wrong length, an index out
    of range. *)
Definition own_errors : list string :=
  ["AttributeError"; "TypeError"; "ValueError"; "IndexError"].

(** The items a value unpacks into without the help of a library. *)
Definition items_of (v : pyval) : option (list pyval) :=
  match v with
  | PTuple l | PList l => Some l
  | PStr s => Some (chars s)
  | _ => None
  end.

(** The positional arguments of a call (of the second call, when curried). *)
Definition op_args (op : extop) : list pyval :=
  match op with
  | Call _ a _ | CallValue _ a _ | CallMethod _ _ a _ | CallCurried _ _ _ a _ => a
  | _ => []
  end.

Definition is_method (m : string) (op : extop) : bool :=
  match op with
  | CallMethod _ m' _ _ => String.eqb m' m
  | _ => false
  end.

Definition receiver (op : extop) : option pyval :=
  match op with
  | CallMethod recv _ _ _ | GetAttr recv _ | GetItem recv _ => Some recv
  | CallValue f _ _ => Some f
  | _ => None
  end.

(** A computation that leaves the globals alone, asks the world at most once,
    for [op], and otherwise fails only with one of Python's own errors. *)
Definition asks_or_fails `{World} {R} (op : extop) (m : M R) : Prop :=
  forall g w,
    let r := m g w in
    glob r = g /\
    ((emitted r = [] /\ forall e, res r = Exn e -> In e own_errors) \/
     exists x, emitted r = [(op, x)] /\
               match x with
               | Raised e => res r = Exn e
               | Returned _ => forall e, res r = Exn e -> In e own_errors
               end).

(** ** The Streamlit page: what it keeps and what it shows *)

Definition result_keys : list string :=
  ["transcription"; "summary"; "audio_file_content"].

(** The three results are in the session state together or not at all. *)
Definition stored_together (g : globals) : Prop :=
  forall k k', In k result_keys -> In k' result_keys ->
    is_Some (session_state g !! k) -> is_Some (session_state g !! k').

(** A session state holding a transcription but nothing else. *)
Definition half_stored : globals :=
  set_session "transcription" (PStr "a transcription")
    {| environ := ∅; session_state := ∅ |}.

(** *** What the visitor did before a dispatch

    The state holds the latest answers of the uploader, of the URL field and
    of the button. *)
Record visit := Visit {
  uploaded : option pyval;
  typed : option pyval;
  pressed : option pyval
}.

Definition visit_monitor : monitor :=
  {| mstate := visit;
     mstep := fun q ev =>
       match snd ev with
       | Returned v =>
           if is_call_to "st.file_uploader" (fst ev)
           then {| uploaded := Some v; typed := typed q; pressed := pressed q |}
           else if is_call_to "st.text_input" (fst ev)
           then {| uploaded := uploaded q; typed := Some v; pressed := pressed q |}
           else if is_call_to "st.button" (fst ev)
           then {| uploaded := uploaded q; typed := typed q; pressed := Some v |}
           else q
       | Raised _ => q
       end;
     mguard := fun q ev =>
       if is_dispatch (fst ev)
       then exists f u b,
           uploaded q = Some f /\ typed q = Some u /\ pressed q = Some b
           /\ truthy f = true /\ truthy u = true /\ truthy b = true
           /\ exists rest, op_args (fst ev) = u :: rest
       else True |}.

(** *** What a retrieval gave

    The state is the latest value read as [.result] or made into a tuple. *)
Definition result_monitor : monitor :=
  {| mstate := option pyval;
     mstep := fun q ev =>
       match fst ev, snd ev with
       | GetAttr _ a, Returned v => if String.eqb a "result" then Some v else q
       | Call f _ _, Returned v => if String.eqb f "tuple" then Some v else q
       | _, _ => q
       end;
     mguard := fun _ _ => True |}.

(** *** Saving the uploaded voice sample

    The state holds the uploaded file, the file opened for writing, the
    buffer read off the upload, and whether the write returned. *)
Record upload_state := Upload {
  sample : option pyval;
  opened : option pyval;
  buffered : option pyval;
  written : bool
}.

Definition upload_monitor : monitor :=
  {| mstate := upload_state;
     mstep := fun q ev =>
       match snd ev with
       | Returned v =>
           if is_call_to "st.file_uploader" (fst ev)
           then {| sample := Some v; opened := opened q; buffered := buffered q;
                   written := written q |}
           else if is_call_to "open" (fst ev)
           then {| sample := sample q; opened := Some v; buffered := buffered q;
                   written := written q |}
           else if is_method "getbuffer" (fst ev)
           then {| sample := sample q; opened := opened q; buffered := Some v;
                   written := written q |}
           else if is_method "write" (fst ev)
           then {| sample := sample q; opened := opened q; buffered := buffered q;
                   written := true |}
           else q
       | Raised _ => q
       end;
     mguard := fun q ev =>
       if is_call_to "st.audio" (fst ev)
       then exists f, sample q = Some f /\ op_args (fst ev) = [f]
       else if is_call_to "open" (fst ev)
       then op_args (fst ev) = [PStr "speaker.wav"; PStr "wb"]
       else if is_method "getbuffer" (fst ev)
       then receiver (fst ev) = sample q
       else if is_method "write" (fst ev)
       then exists h b, opened q = Some h /\ buffered q = Some b
                        /\ receiver (fst ev) = Some h /\ op_args (fst ev) = [b]
       else True |}.

(** *** Showing a result

    The state is the answer of the Show/Hide checkbox, once asked.  Before
    it, [st.text] shows the summary; after it, the transcription, and only
    if the box is ticked; [st.audio] plays the audio. *)
Definition display_monitor (summary transcription audio : pyval) : monitor :=
  {| mstate := option pyval;
     mstep := fun q ev =>
       match snd ev with
       | Returned v => if is_call_to "st.checkbox" (fst ev) then Some v else q
       | Raised _ => q
       end;
     mguard := fun q ev =>
       if is_call_to "st.text" (fst ev)
       then match q with
            | None => op_args (fst ev) = [summary]
            | Some ticked => truthy ticked = true /\ op_args (fst ev) = [transcription]
            end
       else if is_call_to "st.audio" (fst ev)
       then op_args (fst ev) = [audio] /\ q <> None
       else True |}.

(** *** Showing what is stored

    The state tells whether a retrieval has returned in this run; until
    then [st.text] shows the stored summary or the stored transcription. *)
Definition redisplay_monitor (summary transcription : pyval) : monitor :=
  {| mstate := bool;
     mstep := fun q ev =>
       if is_get_result (fst ev)
       then match snd ev with Returned _ => true | Raised _ => q end
       else q;
     mguard := fun q ev =>
       if is_call_to "st.text" (fst ev)
       then q = false ->
            op_args (fst ev) = [summary] \/ op_args (fst ev) = [transcription]
       else True |}.

(** ** The tasks of the YouTube workflow: where their data comes from *)

(** *** From transcription to voice

    The state holds the latest text read out of a recognition result and
    the latest summary read out of a summarisation result. *)
Record spoken := Spoken {
  heard : option pyval;
  summed : option pyval
}.

Definition reads_item (key : string) (op : extop) : bool :=
  match op with
  | GetItem _ (PStr k) => String.eqb k key
  | _ => false
  end.

Definition is_summarizer_call (op : extop) : bool :=
  match op with
  | CallValue _ _ kw =>
      match lookup_kw "min_length" kw with Some _ => true | None => false end
  | _ => false
  end.

Definition workflow_monitor : monitor :=
  {| mstate := spoken;
     mstep := fun q ev =>
       match snd ev with
       | Returned v =>
           if reads_item "text" (fst ev) then {| heard := Some v; summed := summed q |}
           else if reads_item "summary_text" (fst ev)
           then {| heard := heard q; summed := Some v |}
           else q
       | Raised _ => q
       end;
     mguard := fun q ev =>
       if is_summarizer_call (fst ev)
       then exists t, heard q = Some t /\ op_args (fst ev) = [t]
       else if is_method "tts_to_file" (fst ev)
       then exists s, summed q = Some s
                      /\ lookup_kw "text" (op_kwargs (fst ev)) = Some s
       else True |}.

(** *** Cloning the voice

    The state tells whether the voice sample has been written, holds the
    model the [TTS] constructor returned, tells whether the constructor has
    been called and whether the speech has been synthesised, and holds what
    was read last. *)
Record voice_state := Voice {
  sample_written : bool;
  model : option pyval;
  constructed : bool;
  synthesized : bool;
  voiced : option pyval
}.

Definition voice_monitor (text speaker_content output_file : pyval) : monitor :=
  {| mstate := voice_state;
     mstep := fun q ev =>
       match snd ev with
       | Returned v =>
           if is_method "write" (fst ev)
           then {| sample_written := true; model := model q;
                   constructed := constructed q; synthesized := synthesized q;
                   voiced := voiced q |}
           else if is_call_to "TTS" (fst ev)
           then {| sample_written := sample_written q; model := Some v;
                   constructed := true; synthesized := synthesized q;
                   voiced := voiced q |}
           else if is_method "tts_to_file" (fst ev)
           then {| sample_written := sample_written q; model := model q;
                   constructed := constructed q; synthesized := true;
                   voiced := voiced q |}
           else if is_method "read" (fst ev)
           then {| sample_written := sample_written q; model := model q;
                   constructed := constructed q; synthesized := synthesized q;
                   voiced := Some v |}
           else q
       | Raised _ =>
           if is_call_to "TTS" (fst ev)
           then {| sample_written := sample_written q; model := model q;
                   constructed := true; synthesized := synthesized q;
                   voiced := voiced q |}
           else q
       end;
     mguard := fun q ev =>
       if is_call_to "open" (fst ev)
       then (sample_written q = false
             /\ op_args (fst ev) = [PStr "speaker.wav"; PStr "wb"])
            \/ (synthesized q = true /\ op_args (fst ev) = [output_file; PStr "rb"])
       else if is_method "write" (fst ev)
       then op_args (fst ev) = [speaker_content]
       else if is_call_to "TTS" (fst ev)
       then sample_written q = true
       else if is_method "tts_to_file" (fst ev)
       then receiver (fst ev) = model q
            /\ lookup_kw "text" (op_kwargs (fst ev)) = Some text
            /\ lookup_kw "file_path" (op_kwargs (fst ev)) = Some output_file
            /\ lookup_kw "speaker_wav" (op_kwargs (fst ev)) = Some (PStr "speaker.wav")
       else True |}.

Definition silent_voice : voice_state :=
  {| sample_written := false; model := None; constructed := false;
     synthesized := false; voiced := None |}.

(** *** Loading the audio from the file just written

    The state holds the path [os.path.join] returned, whether the bytes
    have been written, and what [AudioSegment.from_file] returned. *)
Record audio_state := Audio {
  joined : option pyval;
  stored : bool;
  loaded : option pyval
}.

Definition load_audio_monitor (content : pyval) : monitor :=
  {| mstate := audio_state;
     mstep := fun q ev =>
       match snd ev with
       | Returned v =>
           if is_call_to "os.path.join" (fst ev)
           then {| joined := Some v; stored := stored q; loaded := loaded q |}
           else if is_method "write" (fst ev)
           then {| joined := joined q; stored := true; loaded := loaded q |}
           else if is_call_to "AudioSegment.from_file" (fst ev)
           then {| joined := joined q; stored := stored q; loaded := Some v |}
           else q
       | Raised _ => q
       end;
     mguard := fun q ev =>
       if is_call_to "open" (fst ev)
       then exists p, joined q = Some p /\ op_args (fst ev) = [p; PStr "wb"]
       else if is_method "write" (fst ev)
       then op_args (fst ev) = [content]
       else if is_call_to "AudioSegment.from_file" (fst ev)
       then exists p, joined q = Some p /\ op_args (fst ev) = [p]
                      /\ stored q = true
       else True |}.

(** *** Downloading the audio track

    The state holds the path the download returned, whether it has been
    renamed, and what was read back. *)
Record download_state := Download {
  fetched : option pyval;
  moved : bool;
  read_back : option pyval
}.

Definition download_monitor (url : pyval) : monitor :=
  {| mstate := download_state;
     mstep := fun q ev =>
       match snd ev with
       | Returned v =>
           if is_method "download" (fst ev)
           then {| fetched := Some v; moved := moved q; read_back := read_back q |}
           else if is_call_to "os.rename" (fst ev)
           then {| fetched := fetched q; moved := true; read_back := read_back q |}
           else if is_method "read" (fst ev)
           then {| fetched := fetched q; moved := moved q; read_back := Some v |}
           else q
       | Raised _ => q
       end;
     mguard := fun q ev =>
       if is_call_to "YouTube" (fst ev)
       then op_args (fst ev) = [url]
       else if is_call_to "os.rename" (fst ev)
       then exists f, fetched q = Some f
                      /\ op_args (fst ev) = [f; PStr "audio.mp4"]
       else if is_call_to "open" (fst ev)
       then moved q = true /\ op_args (fst ev) = [PStr "audio.mp4"; PStr "rb"]
       else True |}.

(** *** Recognising and summarising

    The state tells whether the audio has been exported and holds the
    pipeline constructed, what calling it returned, the first item the
    library returned of that output and the text read last. *)
Record pipeline_state := Pipeline {
  exported : bool;
  pipe : option pyval;
  output : option pyval;
  first_looked_up : option pyval;
  text_read : option pyval
}.

Definition pipeline_step (q : pipeline_state) (ev : event) : pipeline_state :=
  match snd ev with
  | Returned v =>
      if is_method "export" (fst ev)
      then {| exported := true; pipe := pipe q; output := output q;
              first_looked_up := first_looked_up q; text_read := text_read q |}
      else if is_call_to "pipeline" (fst ev)
      then {| exported := exported q; pipe := Some v; output := output q;
              first_looked_up := first_looked_up q; text_read := text_read q |}
      else match fst ev with
           | CallValue _ _ _ =>
               {| exported := exported q; pipe := pipe q; output := Some v;
                  first_looked_up := first_looked_up q; text_read := text_read q |}
           | GetItem _ (PStr _) =>
               {| exported := exported q; pipe := pipe q; output := output q;
                  first_looked_up := first_looked_up q; text_read := Some v |}
           | GetItem _ _ =>
               {| exported := exported q; pipe := pipe q; output := output q;
                  first_looked_up := Some v; text_read := text_read q |}
           | _ => q
           end
  | Raised _ => q
  end.

Definition transcribe_monitor (audio_content : pyval) : monitor :=
  {| mstate := pipeline_state;
     mstep := pipeline_step;
     mguard := fun q ev =>
       match fst ev with
       | CallMethod recv m args kw =>
           recv = audio_content /\ m = "export" /\ args = [PStr "audio_file.wav"]
           /\ lookup_kw "format" kw = Some (PStr "wav")
       | CallValue f args _ =>
           pipe q = Some f /\ args = [PStr "audio_file.wav"] /\ exported q = true
       | GetItem recv key => output q = Some recv /\ key = PStr "text"
       | _ => True
       end |}.

(** [out[0]]: Python's own first item, or the one the library returned. *)
Definition first_of (q : pipeline_state) : option pyval :=
  match output q with
  | Some out =>
      match items_of out with
      | Some l => py_index l 0
      | None => first_looked_up q
      end
  | None => None
  end.

Definition summary_monitor (transcription : pyval) : monitor :=
  {| mstate := pipeline_state;
     mstep := pipeline_step;
     mguard := fun q ev =>
       match fst ev with
       | CallValue f args _ => pipe q = Some f /\ args = [transcription]
       | GetItem recv (PStr k) => first_of q = Some recv /\ k = "summary_text"
       | GetItem recv key => output q = Some recv /\ key = PInt 0
       | CallMethod _ _ _ _ => False
       | _ => True
       end |}.

(** ** How the notebooks wire tasks, executors and transfers *)

(** The tasks the YouTube notebook sends to Google Cloud Batch. *)
Definition batch_tasks : list string :=
  ["transcribe_audio"; "summarize_transcription"; "text_to_speech_voice_clone"].

(** *** Executors of the YouTube tasks

    The state is the executor [ct.executor.GCPBatchExecutor] returned. *)
Definition executor_monitor : monitor :=
  {| mstate := option pyval;
     mstep := fun q ev =>
       if is_call_to "ct.executor.GCPBatchExecutor" (fst ev)
       then returned (snd ev) else q;
     mguard := fun q ev =>
       (forall x, lookup_kw "executor" (op_kwargs (fst ev)) = Some x -> q = Some x)
       /\ (is_call_to "ct.electron" (fst ev) = true ->
           exists task,
             op_args (fst ev) = [PFun task]
             /\ (is_Some (lookup_kw "executor" (op_kwargs (fst ev)))
                 <-> In task batch_tasks)) |}.

(** *** The two file transfers of the S3 notebook

    The state holds the strategy object, the transfers constructed so far
    and the value read as [ct.fs.Order.AFTER]. *)
Record transfer_state := Transfers {
  strategy_made : option pyval;
  transfers_made : list pyval;
  after_read : option pyval
}.

Definition transfer_monitor : monitor :=
  {| mstate := transfer_state;
     mstep := fun q ev =>
       match snd ev with
       | Returned v =>
           if is_call_to "ct.fs_strategies.S3" (fst ev)
           then {| strategy_made := Some v; transfers_made := transfers_made q;
                   after_read := after_read q |}
           else if is_call_to "ct.fs.FileTransfer" (fst ev)
           then {| strategy_made := strategy_made q;
                   transfers_made := (transfers_made q ++ [v])%list;
                   after_read := after_read q |}
           else match fst ev with
                | Name _ => {| strategy_made := strategy_made q;
                               transfers_made := transfers_made q;
                               after_read := Some v |}
                | _ => q
                end
       | Raised _ => q
       end;
     mguard := fun q ev =>
       if is_call_to "ct.fs.FileTransfer" (fst ev)
       then (exists s, strategy_made q = Some s
                       /\ lookup_kw "strategy" (op_kwargs (fst ev)) = Some s)
            /\ match transfers_made q with
               | [] =>
                   (exists local, op_args (fst ev)
                                  = [PStr S3Transfer.s3_source_path; local])
                   /\ lookup_kw "order" (op_kwargs (fst ev)) = None
               | [_] =>
                   (exists local, op_args (fst ev)
                                  = [local; PStr S3Transfer.s3_dest_path])
                   /\ (exists o, after_read q = Some o
                                 /\ lookup_kw "order" (op_kwargs (fst ev)) = Some o)
               | _ => False
               end
       else if is_call_to "ct.electron" (fst ev)
       then exists t1 t2, transfers_made q = [t1; t2]
                          /\ lookup_kw "files" (op_kwargs (fst ev))
                             = Some (PList [t1; t2])
       else True |}.

(** ** The grayscale task *)

(** [raw_img[:, :, :3]]: every row, every column, the first three channels. *)
Definition rgb_channels : pyval :=
  PTuple [PSlice PNone PNone; PSlice PNone PNone; PSlice PNone (PInt 3)].

(** The state holds the image read, its colour channels, the gray image
    and whether it has been saved. *)
Record gray_state := Gray {
  raw_image : option pyval;
  channels : option pyval;
  gray_image : option pyval;
  saved : bool
}.

Definition conversion_monitor (read_path write_path : pyval) : monitor :=
  {| mstate := gray_state;
     mstep := fun q ev =>
       match snd ev with
       | Returned v =>
           if is_call_to "io.imread" (fst ev)
           then {| raw_image := Some v; channels := channels q;
                   gray_image := gray_image q; saved := saved q |}
           else if is_call_to "color.rgb2gray" (fst ev)
           then {| raw_image := raw_image q; channels := channels q;
                   gray_image := Some v; saved := saved q |}
           else if is_call_to "io.imsave" (fst ev)
           then {| raw_image := raw_image q; channels := channels q;
                   gray_image := gray_image q; saved := true |}
           else match fst ev with
                | GetItem _ _ =>
                    {| raw_image := raw_image q; channels := Some v;
                       gray_image := gray_image q; saved := saved q |}
                | _ => q
                end
       | Raised _ => q
       end;
     mguard := fun q ev =>
       if is_call_to "io.imread" (fst ev)
       then op_args (fst ev) = [read_path]
       else if is_call_to "color.rgb2gray" (fst ev)
       then exists c, channels q = Some c /\ op_args (fst ev) = [c]
       else if is_call_to "io.imsave" (fst ev)
       then exists img, gray_image q = Some img
                        /\ op_args (fst ev) = [write_path; img]
                        /\ lookup_kw "mode" (op_kwargs (fst ev)) = Some (PStr "L")
       else match fst ev with
            | GetItem recv key => raw_image q = Some recv /\ key = rgb_channels
            | _ => True
            end |}.

(** Nothing is saved. *)
Definition never_saves : monitor :=
  {| mstate := unit;
     mstep := fun q _ => q;
     mguard := fun _ ev => is_call_to "io.imsave" (fst ev) = false |}.

(** A [files] argument that does not hold two transfers. *)
Definition too_few_transfers (files : pyval) : Prop :=
  files = PNone \/ exists l, files = PList l /\ (List.length l < 2)%nat.

(** ** The PennyLane tutorial *)

(** *** Listing the requirements

    The state holds the lines still to be printed (once the file has been
    opened and, if it is a library object, listed) and the stripped line
    waiting to be printed. *)
Record listing_state := Listing {
  pending : option (list pyval);
  stripped : option pyval
}.

Definition listing_monitor : monitor :=
  {| mstate := listing_state;
     mstep := fun q ev =>
       match snd ev with
       | Returned v =>
           if is_call_to "open" (fst ev)
           then {| pending := items_of v; stripped := None |}
           else if is_call_to "list" (fst ev)
           then {| pending := match v with PList l => Some l | _ => None end;
                   stripped := None |}
           else if is_method "rstrip" (fst ev)
           then {| pending := option_map (@List.tl pyval) (pending q);
                   stripped := Some v |}
           else if is_call_to "print" (fst ev)
           then {| pending := pending q; stripped := None |}
           else q
       | Raised _ => q
       end;
     mguard := fun q ev =>
       if is_call_to "open" (fst ev)
       then op_args (fst ev) = [PStr "./requirements.txt"; PStr "r"]
       else if is_method "rstrip" (fst ev)
       then exists line rest, pending q = Some (line :: rest)
                              /\ receiver (fst ev) = Some line
                              /\ stripped q = None
       else if is_call_to "print" (fst ev)
       then exists s, stripped q = Some s /\ op_args (fst ev) = [s]
       else True |}.

(** *** Gradient descent

    The state holds the optimizer and the array the libraries constructed,
    the argument the array was made of, the current parameters, whether the
    next operation is a step of the optimizer, and the number of rounds
    completed. *)
Record descent_state := Descent {
  optimizer : option pyval;
  seed : option pyval;
  current : option pyval;
  stepping : bool;
  rounds : nat
}.

Definition descent_monitor (cost : pyval) : monitor :=
  {| mstate := descent_state;
     mstep := fun q ev =>
       match snd ev with
       | Returned v =>
           if is_call_to "qml.GradientDescentOptimizer" (fst ev)
           then {| optimizer := Some v; seed := seed q; current := current q;
                   stepping := stepping q; rounds := rounds q |}
           else if is_call_to "np.array" (fst ev)
           then {| optimizer := optimizer q; seed := head (op_args (fst ev));
                   current := Some v; stepping := stepping q; rounds := rounds q |}
           else match fst ev with
                | CallMethod _ _ _ _ =>
                    {| optimizer := optimizer q; seed := seed q; current := Some v;
                       stepping := false; rounds := rounds q |}
                | CallValue _ _ _ =>
                    {| optimizer := optimizer q; seed := seed q; current := current q;
                       stepping := true; rounds := S (rounds q) |}
                | _ => q
                end
       | Raised _ => q
       end;
     mguard := fun q ev =>
       match fst ev with
       | CallMethod recv m args kw =>
           m = "step" /\ optimizer q = Some recv /\ kw = []
           /\ (exists p, current q = Some p /\ args = [cost; p])
           /\ stepping q = true
       | CallValue f args kw =>
           f = cost /\ kw = []
           /\ (exists p, current q = Some p /\ args = [p])
           /\ stepping q = false
       | Call f _ kw =>
           (f = "qml.GradientDescentOptimizer"
            \/ (f = "np.array" /\ lookup_kw "requires_grad" kw = Some (PBool true)))
           /\ rounds q = O /\ stepping q = true
       | _ => False
       end |}.

(** *** The cost function

    The state holds the observable constructed last with the name of its
    constructor, the items read off the parameters, the expectation values
    measured so far, the difference and the magnitude the libraries returned
    and the square they returned. *)
Record cost_state := Cost {
  observable : option (string * pyval);
  looked_up : list pyval;
  measured : list pyval;
  difference : option pyval;
  magnitude : option pyval;
  squared : option pyval
}.

Definition constructor_name (op : extop) : string :=
  match op with
  | Call f _ _ | CallCurried f _ _ _ _ => f
  | _ => ""
  end.

Definition is_observable (op : extop) : bool :=
  is_call_to "qml.PauliZ" op || is_call_to "qml.NumberOperator" op.

(** [params[k]]: Python's own item, or the k-th item the library returned. *)
Definition angle (params : pyval) (q : cost_state) (k : Z) : option pyval :=
  match items_of params with
  | Some l => py_index l k
  | None => List.nth_error (looked_up q) (Z.to_nat k)
  end.

(** The value [x - y] denotes when Python computes it itself, or the one the
    library returned for it. *)
Definition is_difference (q : cost_state) (d : pyval) : Prop :=
  match difference q with
  | Some d' => d = d'
  | None =>
      exists x y i j, measured q = [x; y] /\ as_int x = Some i /\ as_int y = Some j
                      /\ d = PInt (i - j)
  end.

Definition cost_monitor (params phi1 phi2 : pyval) : monitor :=
  {| mstate := cost_state;
     mstep := fun q ev =>
       match snd ev with
       | Returned v =>
           if is_observable (fst ev)
           then {| observable := Some (constructor_name (fst ev), v);
                   looked_up := looked_up q; measured := measured q;
                   difference := difference q; magnitude := magnitude q;
                   squared := squared q |}
           else if is_call_to "qml.expval" (fst ev)
           then {| observable := observable q; looked_up := looked_up q;
                   measured := (measured q ++ [v])%list;
                   difference := difference q; magnitude := magnitude q;
                   squared := squared q |}
           else if is_call_to "operator.sub" (fst ev)
           then {| observable := observable q; looked_up := looked_up q;
                   measured := measured q;
                   difference := Some v; magnitude := magnitude q;
                   squared := squared q |}
           else if is_call_to "np.abs" (fst ev)
           then {| observable := observable q; looked_up := looked_up q;
                   measured := measured q;
                   difference := difference q; magnitude := Some v;
                   squared := squared q |}
           else if is_call_to "operator.pow" (fst ev)
           then {| observable := observable q; looked_up := looked_up q;
                   measured := measured q;
                   difference := difference q; magnitude := magnitude q;
                   squared := Some v |}
           else match fst ev with
                | GetItem _ _ =>
                    {| observable := observable q;
                       looked_up := (looked_up q ++ [v])%list;
                       measured := measured q;
                       difference := difference q; magnitude := magnitude q;
                       squared := squared q |}
                | _ => q
                end
       | Raised _ => q
       end;
     mguard := fun q ev =>
       if is_call_to "qml.RX" (fst ev)
       then op_args (fst ev) = [phi1] /\ measured q = []
       else if is_call_to "qml.RY" (fst ev)
       then op_args (fst ev) = [phi2] /\ measured q = []
       else if is_call_to "qml.Beamsplitter" (fst ev)
       then (exists x y, angle params q 0 = Some x /\ angle params q 1 = Some y
                         /\ op_args (fst ev) = [x; y])
            /\ List.length (measured q) = 1%nat
       else if is_call_to "qml.expval" (fst ev)
       then exists o, op_args (fst ev) = [o]
                      /\ observable q
                         = Some (match measured q with
                                 | [] => "qml.PauliZ"
                                 | _ => "qml.NumberOperator"
                                 end, o)
       else if is_call_to "operator.sub" (fst ev)
       then op_args (fst ev) = measured q /\ List.length (measured q) = 2%nat
       else if is_call_to "np.abs" (fst ev)
       then exists d, op_args (fst ev) = [d] /\ is_difference q d
       else if is_call_to "operator.pow" (fst ev)
       then exists m, magnitude q = Some m /\ op_args (fst ev) = [m; PInt 2]
       else match fst ev with
            | GetItem recv _ => recv = params
            | _ => True
            end |}.

Definition nothing_measured : cost_state :=
  {| observable := None; looked_up := []; measured := []; difference := None;
     magnitude := None; squared := None |}.

(** The value [cost] returns: the square the library returned, or the square
    Python computed of an integer magnitude. *)
Definition is_square (q : cost_state) (v : pyval) : Prop :=
  match squared q with
  | Some s => v = s
  | None => exists m i, magnitude q = Some m /\ as_int m = Some i /\ v = PInt (i ^ 2)
  end.

(** *** Plotting the retrieved result

    The state holds what [ct.get_result] returned, the value read as its
    [result], and the items that value was unpacked into. *)
Record plot_state := Plot {
  result_object : option pyval;
  result_value : option pyval;
  unpacked : option (list pyval)
}.

Definition reads_attr (attr : string) (op : extop) : bool :=
  match op with
  | GetAttr _ a => String.eqb a attr
  | _ => false
  end.

Definition plot_monitor : monitor :=
  {| mstate := plot_state;
     mstep := fun q ev =>
       match snd ev with
       | Returned v =>
           if is_get_result (fst ev)
           then {| result_object := Some v; result_value := result_value q;
                   unpacked := unpacked q |}
           else if reads_attr "result" (fst ev)
           then {| result_object := result_object q; result_value := Some v;
                   unpacked := items_of v |}
           else if is_call_to "tuple" (fst ev)
           then match unpacked q with
                | Some _ => q
                | None => {| result_object := result_object q;
                             result_value := result_value q;
                             unpacked := items_of v |}
                end
           else q
       | Raised _ => q
       end;
     mguard := fun q ev =>
       match fst ev with
       | GetAttr recv a => result_object q = Some recv /\ a = "result"
       | Call f args _ =>
           if String.eqb f "tuple"
           then match unpacked q with
                | Some _ => True
                | None => exists x, result_value q = Some x /\ args = [x]
                end
           else True
       | CallMethod _ m args _ =>
           if String.eqb m "plot"
           then exists p ts cs, unpacked q = Some [p; ts; cs] /\ args = [ts; cs]
           else True
       | GetItem recv _ => exists ts cs, unpacked q = Some [recv; ts; cs]
       | _ => True
       end |}.

(** ** Runs seen by two monitors, and the visitor of the page *)

(** Two monitors side by side. *)
Definition both (m1 m2 : monitor) : monitor :=
  {| mstate := mstate m1 * mstate m2;
     mstep := fun q ev => (mstep m1 (fst q) ev, mstep m2 (snd q) ev);
     mguard := fun q ev => mguard m1 (fst q) ev /\ mguard m2 (snd q) ev |}.

(** The visitor has uploaded a sample, typed a URL and pressed the button. *)
Definition ready (q : visit) : bool :=
  match uploaded q, typed q, pressed q with
  | Some f, Some u, Some b => truthy f && truthy u && truthy b
  | _, _, _ => false
  end.

Definition nobody : visit := Visit None None None.

(** The executions of a session, one after the other, each in order; what
    survives from one to the next is the session state and the fact that a
    result has been polled. *)
Fixpoint session_ordered `{World} (runs : nat) (g : globals) (w : ext_state)
    (carried : bool) : Prop :=
  match runs with
  | O => True
  | S n =>
      let r := YouTube.notebook g w in
      let q := final order_monitor (begin carried) (emitted r) in
      along order_monitor (begin carried) (emitted r)
      /\ session_ordered n (glob r) (world r) (carried || polled q)
  end.

(** ** What a function returns that it did not make *)

(** The values the external operations of a trace returned. *)
Definition library_values (tr : list event) : list pyval :=
  flat_map (fun ev => match snd ev with Returned v => [v] | Raised _ => [] end) tr.

(** A value a function did not make: [None], or what an external operation
    of its trace returned. *)
Definition handed_on (values : list pyval) (v : pyval) : Prop :=
  v = PNone \/ In v values.

(** A result a function did not compute: such a value, or a tuple of such
    values. *)
Definition handed_down (values : list pyval) (v : pyval) : Prop :=
  handed_on values v \/ exists l, v = PTuple l /\ Forall (handed_on values) l.

(** A function merely chains library calls when that is all it ever
    returns. *)
Definition only_passes_on (f : pyfun) : Prop :=
  forall (H : World) args g w v,
    res (f H args g w) = Ok v ->
    handed_down (library_values (emitted (f H args g w))) v.

(** The functions that compute their result, or a part of it, themselves. *)
Definition computing : list (string * string) :=
  [ ("choosing_executors", "identity");
    ("choosing_executors", "square");
    ("choosing_executors", "workflow");
    ("pennylane_hybrid", "squared_difference");
    ("pennylane_hybrid", "cost");
    ("pennylane_hybrid", "training");
    ("pennylane_hybrid", "workflow");
    ("youtube_summarization", "upload_speaker_file") ].

(** The values returned so far, latest first. *)
Definition returns_monitor : monitor :=
  {| mstate := list pyval;
     mstep := fun q ev =>
       match snd ev with Returned v => v :: q | Raised _ => q end;
     mguard := fun _ _ => True |}.

(** A library that measures 2 whatever it is asked. *)
Definition constant_world : World := scripted (fun _ => Returned (PInt 2)).

(** ** Files

    The persistent state the notebooks touch besides the environment and the
    session state is the file system.  An operation writes a file when it
    opens one for writing or appending, writes to an open file, or is one of
    the library calls that save, export, download or rename a file. *)
Definition opens_for_writing (args : list pyval) : bool :=
  match args with
  | [_; PStr mode] =>
      String.prefix "w" mode || String.prefix "a" mode || String.prefix "x" mode
  | _ => false
  end.

Definition writes_file (op : extop) : bool :=
  match op with
  | Call f args _ =>
      String.eqb f "io.imsave" || String.eqb f "os.rename"
      || (String.eqb f "open" && opens_for_writing args)
  | CallMethod _ m _ _ =>
      String.eqb m "write" || String.eqb m "export" || String.eqb m "tts_to_file"
      || String.eqb m "download"
  | _ => false
  end.

Definition no_file_written : monitor :=
  {| mstate := unit;
     mstep := fun q _ => q;
     mguard := fun _ ev => writes_file (fst ev) = false |}.

(** The functions that write files, themselves or through the functions
    they call. *)
Definition file_writers : list (string * string) :=
  [ ("file_transfers_to_from_s3", "to_grayscale");
    ("youtube_summarization", "download_video");
    ("youtube_summarization", "load_audio");
    ("youtube_summarization", "transcribe_audio");
    ("youtube_summarization", "text_to_speech_voice_clone");
    ("youtube_summarization", "workflow");
    ("youtube_summarization", "main");
    ("youtube_summarization", "upload_speaker_file") ].

(** The state is what the latest [ct.get_result] call returned. *)
Definition last_retrieved : monitor :=
  {| mstate := option pyval;
     mstep := fun q ev =>
       if is_get_result (fst ev)
       then match snd ev with Returned v => Some v | Raised _ => q end
       else q;
     mguard := fun _ _ => True |}.

(** The session state after a run that retrieved a true result: the three
    results stored, and nothing else changed. *)
Definition stored_after_retrieval (g g' : globals) (q : option pyval) : Prop :=
  g' = g
  \/ exists s t a r, g' = remembered s t a g /\ q = Some r /\ truthy r = true.

(** A function changes the process state, or writes a file, when it does so
    on some arguments in some world. *)
Definition changes_state (f : pyfun) : Prop :=
  exists (H : World) args g w, glob (f H args g w) <> g.

Definition may_write_file (f : pyfun) : Prop :=
  exists (H : World) args g w ev,
    In ev (emitted (f H args g w)) /\ writes_file (fst ev) = true.

(** ** What a run did

    The name an operation goes by: the callee of a call, the method, the
    attribute; subscription goes by ["[]"]. *)
Definition callee (op : extop) : string :=
  match op with
  | Call f _ _ | CallCurried f _ _ _ _ | Name f => f
  | CallMethod _ m _ _ => m
  | GetAttr _ a => a
  | GetItem _ _ => "[]"
  | CallValue _ _ _ => "()"
  end.

(** The log of the operations of the given names that returned, in order. *)
Definition log_monitor (names : list string) : monitor :=
  {| mstate := list event;
     mstep := fun q ev =>
       match snd ev with
       | Returned _ =>
           if existsb (String.eqb (callee (fst ev))) names
           then (q ++ [ev])%list else q
       | Raised _ => q
       end;
     mguard := fun _ _ => True |}.

(** What a decoration was given: the task and the executor, if any. *)
Definition decoration (ev : event) : list pyval * option pyval :=
  (op_args (fst ev), lookup_kw "executor" (op_kwargs (fst ev))).

(** What [display_results] puts on the screen, given what the checkbox
    answers: the summary, the box, the transcription if the box is ticked,
    the audio. *)
Definition screen (summary transcription audio box : pyval) : list extop :=
  ([ Call "st.text" [summary] [];
     Call "st.checkbox" [PStr "Show/Hide"; PBool false] [] ]
   ++ (if truthy box then [Call "st.text" [transcription] []] else [])
   ++ [ Call "st.audio" [audio] [("format", PStr "audio/wav")] ])%list.

(** The answer of the first call of the given name in a log. *)
Definition answer_of (name : string) (log : list event) : option pyval :=
  match List.find (fun ev => String.eqb (callee (fst ev)) name) log with
  | Some ev => returned (snd ev)
  | None => None
  end.

(** The items the library returned for subscriptions. *)
Definition subscripts (log : list event) : list pyval :=
  flat_map (fun ev => match fst ev, snd ev with
                      | GetItem _ _, Returned v => [v]
                      | _, _ => []
                      end) log.

(** [p[0]] and [p[1]]: Python's own items, or the ones the library
    returned. *)
Definition first_two (p : pyval) (log : list event) : list (option pyval) :=
  match items_of p with
  | Some l => [py_index l 0; py_index l 1]
  | None => List.map Some (subscripts log)
  end.

(** What the last cells of the PennyLane notebook ask for by the names
    [plot], subscription and [qml.Beamsplitter]. *)
Definition plotting (p ts cs x y ax : pyval) : list extop :=
  ([CallMethod ax "plot" [ts; cs] []]
   ++ match items_of p with
      | Some _ => []
      | None => [GetItem p (PInt 0); GetItem p (PInt 1)]
      end
   ++ [Call "qml.Beamsplitter" [x; y] [("wires", PList [PInt 0; PInt 1])]])%list.

(** A laboratory whose result is a triple of lists and whose figure is a
    pair; its requirements file has one line. *)
Definition lab_answer (op : extop) : response :=
  match op with
  | GetAttr _ "result" =>
      Returned (PTuple [PList [PInt 1; PInt 2]; PList [PInt 0]; PList [PInt 5]])
  | Call "plt.subplots" _ _ => Returned (PTuple [PObj 1; PObj 2])
  | Call "open" _ _ => Returned (PList [PStr "pennylane"])
  | _ => Returned (PObj 0)
  end.
Definition lab_world : World := scripted lab_answer.

(** * Proofs *)

(** ** The cells at work *)

Example square_of_values :
  res (ChoosingExecutors.square (H := silent_world) (PInt (-4)) empty_globals tt)
  = Ok (PInt 16)
  /\ res (ChoosingExecutors.square (H := silent_world) (PBool true) empty_globals tt)
     = Ok (PInt 1)
  /\ res (ChoosingExecutors.square (H := silent_world) (PStr "ab") empty_globals tt)
     = Exn "TypeError"
  /\ emitted (ChoosingExecutors.square (H := silent_world) (PFloat 4 (-1))
                empty_globals tt)
     = [(Call "operator.mul" [PFloat 4 (-1); PFloat 4 (-1)] [], Returned PNone)].
Proof. repeat split. Qed.

Example choosing_executors_run :
  emitted (ChoosingExecutors.notebook (H := counting_world) empty_globals 0%nat)
  = [ (Call "ct.executor.LocalExecutor" [] [], Returned (PObj 0));
      (CallCurried "ct.electron" [] [("executor", PObj 0)] [PFun "identity"] [],
       Returned (PObj 1));
      (CallCurried "ct.electron" [] [("executor", PStr "local")] [PFun "square"] [],
       Returned (PObj 2));
      (Call "ct.lattice" [PFun "workflow"] [], Returned (PObj 3));
      (CallCurried "ct.dispatch" [PFun "workflow"] [] [] [("a", PInt 2)],
       Returned (PObj 4));
      (Call "print" [PObj 4] [], Returned (PObj 5));
      (Call "ct.get_result" [] [("dispatch_id", PObj 4); ("wait", PBool true)],
       Returned (PObj 6));
      (Call "print" [PObj 6] [], Returned (PObj 7)) ].
Proof. vm_compute. reflexivity. Qed.

Example to_grayscale_run :
  let files :=
    PList [ PTuple [PStr "/remote_unprocessed_file.png"; PStr "/cwd/unprocessed_file.png"];
            PTuple [PStr "/cwd/processed_file.png"; PStr "/remote_processed_file.png"] ] in
  S3Transfer.to_grayscale (H := counting_world) files empty_globals 0%nat
  = @Ran counting_world _ (Ok PNone) empty_globals 4%nat
      [ (Call "io.imread" [PStr "/cwd/unprocessed_file.png"] [], Returned (PObj 0));
        (GetItem (PObj 0)
           (PTuple [PSlice PNone PNone; PSlice PNone PNone; PSlice PNone (PInt 3)]),
         Returned (PObj 1));
        (Call "color.rgb2gray" [PObj 1] [], Returned (PObj 2));
        (Call "io.imsave" [PStr "/cwd/processed_file.png"; PObj 2] [("mode", PStr "L")],
         Returned (PObj 3)) ].
Proof. vm_compute. reflexivity. Qed.

Example training_three_steps :
  res (PennyLane.training (H := counting_world) (PObj 100) (PInt 7) (PFun "cost")
         (PInt 3) empty_globals 0%nat)
  = Ok (PTuple [PObj 4; PList [PInt 0; PInt 1; PInt 2]; PList [PObj 1; PObj 3; PObj 5]])
  /\ res (PennyLane.training (H := counting_world) (PObj 100) (PInt 7) (PFun "cost")
            (PInt (-2)) empty_globals 0%nat)
     = Ok (PTuple [PInt 7; PList []; PList []])
  /\ res (PennyLane.training (H := counting_world) (PObj 100) (PInt 7) (PFun "cost")
            (PStr "3") empty_globals 0%nat)
     = Exn "TypeError".
Proof. repeat split. Qed.

Example page_without_inputs :
  List.map fst (emitted (YouTube.main (H := silent_world) empty_globals tt))
  = [ Call "st.title" [PStr "Summarize YouTube videos in your own voice using AI"] [];
      Call "st.file_uploader" [PStr "Upload an audio file (WAV)"]
           [("type", PList [PStr "wav"])];
      Call "st.text_input" [PStr "Enter valid YouTube URL"] [];
      Call "st.button" [PStr "Process"] [] ].
Proof. vm_compute. reflexivity. Qed.

(** ** Monitors and concatenation *)

Lemma along_app (mon : monitor) (q : mstate mon) (t1 t2 : list event) :
  along mon q (t1 ++ t2) <-> along mon q t1 /\ along mon (final mon q t1) t2.
Proof.
  revert q. induction t1 as [|ev t1 IH]; intros q; simpl.
  - tauto.
  - rewrite IH. unfold final. simpl. tauto.
Qed.

Lemma final_app (mon : monitor) (q : mstate mon) (t1 t2 : list event) :
  final mon q (t1 ++ t2) = final mon (final mon q t1) t2.
Proof. unfold final. apply fold_left_app. Qed.

(** ** The rules of the calculus *)

Section Rules.
Context `{World} (mon : monitor).

Lemma wp_ret {R} (r : R) g (q : mstate mon) post :
  post (Ok r) g q -> wp mon (ret r) g q post.
Proof. intros Hp w. simpl. auto. Qed.

Lemma wp_raise {R} e g (q : mstate mon) (post : outcome R -> globals -> mstate mon -> Prop) :
  post (Exn e) g q -> wp mon (raise e) g q post.
Proof. intros Hp w. simpl. auto. Qed.

Lemma wp_ext op g (q : mstate mon) post :
  (forall r, mguard mon q (op, r) /\ post (outcome_of r) g (mstep mon q (op, r))) ->
  wp mon (ext op) g q post.
Proof.
  intros Hr w. unfold ext. simpl.
  destruct (ext_call op w) as [r w'].
  destruct (Hr r) as [Hg Hp]. destruct r; simpl in *; auto.
Qed.

Lemma wp_bind {A B} (m : M A) (k : A -> M B) g (q : mstate mon) post :
  wp mon m g q (fun o g1 q1 =>
                  match o with
                  | Ok a => wp mon (k a) g1 q1 post
                  | Exn e => post (Exn e) g1 q1
                  end) ->
  wp mon (bind m k) g q post.
Proof.
  intros Hm w. unfold bind. simpl.
  destruct (Hm w) as [Ha Hp]. simpl in Ha, Hp.
  destruct (res (m g w)) as [a|e]; simpl.
  - destruct (Hp (world (m g w))) as [Ha2 Hp2]. simpl in Ha2, Hp2.
    rewrite along_app, final_app. auto.
  - auto.
Qed.

Lemma wp_mono {R} (m : M R) g (q : mstate mon) (post post' : outcome R -> globals -> mstate mon -> Prop) :
  wp mon m g q post -> (forall o g' q', post o g' q' -> post' o g' q') ->
  wp mon m g q post'.
Proof. intros Hm Hi w. destruct (Hm w). split; auto. Qed.

Lemma wp_environ_set k v g (q : mstate mon) post :
  post (Ok tt) (set_environ k v g) q -> wp mon (environ_set k v) g q post.
Proof. intros Hp w. simpl. auto. Qed.

Lemma wp_session_set k v g (q : mstate mon) post :
  post (Ok tt) (set_session k v g) q -> wp mon (session_set k v) g q post.
Proof. intros Hp w. simpl. auto. Qed.

Lemma wp_session_has k g (q : mstate mon) post :
  post (Ok (bool_decide (is_Some (session_state g !! k)))) g q ->
  wp mon (session_has k) g q post.
Proof. intros Hp w. simpl. auto. Qed.

Lemma wp_session_get k g (q : mstate mon) post :
  (forall v, session_state g !! k = Some v -> post (Ok v) g q) ->
  (session_state g !! k = None -> post (Exn "KeyError") g q) ->
  wp mon (session_get k) g q post.
Proof.
  intros Hs Hn w. unfold session_get. simpl.
  destruct (session_state g !! k) as [v|]; simpl; auto.
Qed.

(** A loop maintains an invariant over the items already visited, the
    accumulator, the globals and the monitor. *)
Lemma wp_for_each_from {A S} (seen xs : list A) (body : A -> S -> M S) (acc : S) g
    (q : mstate mon) (inv : list A -> S -> globals -> mstate mon -> Prop) post :
  inv seen acc g q ->
  (forall pre x a g' q', inv pre a g' q' ->
     wp mon (body x a) g' q'
       (fun o g1 q1 => match o with
                       | Ok a' => inv (pre ++ [x])%list a' g1 q1
                       | Exn e => post (Exn e) g1 q1
                       end)) ->
  (forall a g' q', inv (seen ++ xs)%list a g' q' -> post (Ok a) g' q') ->
  wp mon (for_each xs body acc) g q post.
Proof.
  intros Hi Hb Hp. revert seen acc g q Hi Hp.
  induction xs as [|x xs IH]; intros seen acc g q Hi Hp; simpl.
  - apply wp_ret. apply Hp. rewrite app_nil_r. exact Hi.
  - apply wp_bind. eapply wp_mono; [apply Hb, Hi|].
    intros [a'|e] g' q' Ho; auto.
    apply (IH (seen ++ [x])%list); auto.
    intros a g'' q'' Hinv. apply Hp. rewrite <- app_assoc in Hinv. exact Hinv.
Qed.

Lemma wp_for_each {A S} (xs : list A) (body : A -> S -> M S) (acc : S) g
    (q : mstate mon) (inv : list A -> S -> globals -> mstate mon -> Prop) post :
  inv [] acc g q ->
  (forall pre x a g' q', inv pre a g' q' ->
     wp mon (body x a) g' q'
       (fun o g1 q1 => match o with
                       | Ok a' => inv (pre ++ [x])%list a' g1 q1
                       | Exn e => post (Exn e) g1 q1
                       end)) ->
  (forall a g' q', inv xs a g' q' -> post (Ok a) g' q') ->
  wp mon (for_each xs body acc) g q post.
Proof. intros. eapply (wp_for_each_from []); eauto. Qed.

(** Attribute access, method calls and calls of a value either raise at
    once or return what the world answers. *)
Lemma wp_py_getattr recv a g (q : mstate mon) post :
  post (Exn "AttributeError") g q ->
  (forall r, mguard mon q (GetAttr recv a, r)
             /\ post (outcome_of r) g (mstep mon q (GetAttr recv a, r))) ->
  wp mon (py_getattr recv a) g q post.
Proof.
  intros He Ha. unfold py_getattr.
  destruct recv; try (apply wp_ext; exact Ha). apply wp_raise, He.
Qed.

Lemma wp_py_method recv m args kw g (q : mstate mon) post :
  post (Exn "AttributeError") g q ->
  (forall r, mguard mon q (CallMethod recv m args kw, r)
             /\ post (outcome_of r) g (mstep mon q (CallMethod recv m args kw, r))) ->
  wp mon (py_method recv m args kw) g q post.
Proof.
  intros He Ha. unfold py_method.
  destruct recv; try (apply wp_ext; exact Ha). apply wp_raise, He.
Qed.

Lemma wp_py_call f args kw g (q : mstate mon) post :
  post (Exn "TypeError") g q ->
  (forall r, mguard mon q (CallValue f args kw, r)
             /\ post (outcome_of r) g (mstep mon q (CallValue f args kw, r))) ->
  wp mon (py_call f args kw) g q post.
Proof.
  intros He Ha. unfold py_call.
  destruct f; try (apply wp_ext; exact Ha); apply wp_raise, He.
Qed.

(** Subscripting with a string key either raises or asks the library. *)
Lemma wp_py_getitem_str recv k g (q : mstate mon) post :
  post (Exn "TypeError") g q ->
  (forall r, mguard mon q (GetItem recv (PStr k), r)
             /\ post (outcome_of r) g (mstep mon q (GetItem recv (PStr k), r))) ->
  wp mon (py_getitem recv (PStr k)) g q post.
Proof.
  intros He Ha. unfold py_getitem.
  destruct recv; simpl; try (apply wp_raise, He). apply wp_ext, Ha.
Qed.

(** Operations that ask the world at most once. *)
Lemma wp_asks_once {R} op (m : M R) g (q : mstate mon) post :
  asks_once op m ->
  (forall o, post o g q) ->
  (forall r, mguard mon q (op, r) /\
             match r with
             | Raised e => post (Exn e) g (mstep mon q (op, r))
             | Returned _ => forall o, post o g (mstep mon q (op, r))
             end) ->
  wp mon m g q post.
Proof.
  intros Hm Hq Hr w. destruct (Hm g w) as [Hg [He|[r [He Hx]]]]; simpl.
  - rewrite He, Hg. simpl. auto.
  - rewrite He, Hg. simpl. destruct (Hr r) as [Hgd Hp].
    split; [tauto|]. destruct r as [v|e]; [apply Hp|].
    rewrite (Hx e eq_refl). exact Hp.
Qed.

(** The usual case: the monitor reacts to the operation only if it raises. *)
Lemma wp_asks_returning {R} op (m : M R) g (q : mstate mon) post :
  asks_once op m ->
  (forall r, mguard mon q (op, r)) ->
  (forall v, mstep mon q (op, Returned v) = q) ->
  (forall o, post o g q) ->
  (forall e, post (Exn e) g (mstep mon q (op, Raised e))) ->
  wp mon m g q post.
Proof.
  intros Hm Hg Hs Hq He. eapply wp_asks_once; [exact Hm|exact Hq|].
  intros [v|e]; (split; [apply Hg|]); [rewrite Hs; exact Hq|apply He].
Qed.
End Rules.

(** ** The Python operations ask the world at most once *)

Section AsksOnce.
Context `{World}.

Ltac crack :=
  repeat (simpl;
          match goal with
          | |- context [ext_call ?op ?w] =>
              destruct (ext_call op w) as [[?|?] ?]
          | |- context [match ?x with _ => _ end] => destruct x
          | |- context [if ?x then _ else _] => destruct x
          end).

Ltac asks_tac :=
  intros g w; unfold bind, ext, ret, raise; crack; simpl;
  (split; [reflexivity|]);
  first [ left; reflexivity
        | right; eexists; split; [reflexivity|]; intros ? E;
          first [discriminate E | injection E as <-; reflexivity] ].

Lemma asks_ext op : asks_once op (ext op).
Proof. asks_tac. Qed.

Lemma asks_py_getattr recv a : asks_once (GetAttr recv a) (py_getattr recv a).
Proof. unfold py_getattr. asks_tac. Qed.

Lemma asks_py_method recv m args kw :
  asks_once (CallMethod recv m args kw) (py_method recv m args kw).
Proof. unfold py_method. asks_tac. Qed.

Lemma asks_py_call f args kw :
  asks_once (CallValue f args kw) (py_call f args kw).
Proof. unfold py_call. asks_tac. Qed.

Lemma asks_py_mul a b : asks_once (Call "operator.mul" [a; b] []) (py_mul a b).
Proof. unfold py_mul. asks_tac. Qed.

Lemma asks_py_sub a b : asks_once (Call "operator.sub" [a; b] []) (py_sub a b).
Proof. unfold py_sub. asks_tac. Qed.

Lemma asks_py_pow a b : asks_once (Call "operator.pow" [a; b] []) (py_pow a b).
Proof. unfold py_pow. asks_tac. Qed.

Lemma asks_py_getitem recv key : asks_once (GetItem recv key) (py_getitem recv key).
Proof. unfold py_getitem. asks_tac. Qed.

Lemma asks_py_unpack2 v : asks_once (Call "tuple" [v] []) (py_unpack2 v).
Proof. unfold py_unpack2, unpack2_items. asks_tac. Qed.

Lemma asks_py_unpack3 v : asks_once (Call "tuple" [v] []) (py_unpack3 v).
Proof. unfold py_unpack3, unpack3_items. asks_tac. Qed.

Lemma asks_py_range n : asks_once (Call "operator.index" [n] []) (py_range n).
Proof. unfold py_range. asks_tac. Qed.

Lemma asks_py_iter v : asks_once (Call "list" [v] []) (py_iter v).
Proof. unfold py_iter. asks_tac. Qed.

Lemma asks_py_format v : asks_once (Call "format" [v] []) (py_format v).
Proof. unfold py_format. asks_tac. Qed.
End AsksOnce.

(** ** The training loop under a monitor that reacts to its operations only
    when they raise *)

Lemma wp_training_loop `{World} (mon : monitor) opt cost xs acc g (q : mstate mon) post :
  (forall op r, training_op op -> mguard mon q (op, r)) ->
  (forall op v, training_op op -> mstep mon q (op, Returned v) = q) ->
  (forall o, post o g q) ->
  (forall op e, training_op op -> post (Exn e) g (mstep mon q (op, Raised e))) ->
  wp mon (for_each xs (PennyLane.training_step opt cost) acc) g q post.
Proof.
  intros Hg Hs Hp He.
  eapply wp_for_each with (inv := fun _ _ g' q' => g' = g /\ q' = q); [auto| |].
  - intros pre x [[p ts] cs] g' q' [-> ->]. unfold PennyLane.training_step.
    apply wp_bind. eapply wp_asks_returning; [apply asks_py_method| | | |].
    + intros r. apply Hg. reflexivity.
    + intros v. apply Hs. reflexivity.
    + intros [p'|e]; [|apply Hp].
      apply wp_bind. eapply wp_asks_returning; [apply asks_py_call| | | |].
      * intros r. apply Hg. exact I.
      * intros v. apply Hs. exact I.
      * intros [c|e]; [|apply Hp]. apply wp_ret. auto.
      * intros e. apply He. exact I.
    + intros e. apply He. reflexivity.
  - intros a g' q' [-> ->]. apply Hp.
Qed.

(** ** Automation: walking through a cell *)

Arguments wp : simpl never.

Ltac wp_helper lem guard_tac :=
  first
    [ eapply wp_asks_returning;
      [ apply lem
      | intros [?|?]; guard_tac
      | intros ?; reflexivity
      | intros [?|?]
      | intros ? ]
    | eapply wp_asks_once;
      [ apply lem
      | intros [?|?]
      | intros [?|?]; (split; [guard_tac | try (intros [?|?])]) ] ].

Ltac training_op_cases :=
  let Hop := fresh "Hop" in
  intros [] ? Hop; simpl in Hop; try contradiction; subst; simpl.

Ltac wp_step_with ext_tac guard_tac :=
  lazymatch goal with
  | |- wp _ (for_each _ (PennyLane.training_step _ _) _) _ _ _ =>
      apply wp_training_loop;
      [ training_op_cases; guard_tac
      | training_op_cases; reflexivity
      | intros [[[? ?] ?]|?]
      | training_op_cases ]
  | |- wp _ (bind _ _) _ _ _ => apply wp_bind
  | |- wp _ (ret _) _ _ _ => apply wp_ret
  | |- wp _ (raise _) _ _ _ => apply wp_raise
  | |- wp _ (ext _) _ _ _ => ext_tac
  | |- wp _ (py_getattr _ _) _ _ _ =>
      apply wp_py_getattr; [|intros [?|?]; (split; [guard_tac|])]
  | |- wp _ (py_method _ _ _ _) _ _ _ =>
      apply wp_py_method; [|intros [?|?]; (split; [guard_tac|])]
  | |- wp _ (py_call _ _ _) _ _ _ =>
      apply wp_py_call; [|intros [?|?]; (split; [guard_tac|])]
  | |- wp _ (py_mul _ _) _ _ _ => wp_helper asks_py_mul guard_tac
  | |- wp _ (py_sub _ _) _ _ _ => wp_helper asks_py_sub guard_tac
  | |- wp _ (py_pow _ _) _ _ _ => wp_helper asks_py_pow guard_tac
  | |- wp _ (py_getitem _ (PStr _)) _ _ _ =>
      apply wp_py_getitem_str; [|intros [?|?]; (split; [guard_tac|])]
  | |- wp _ (py_getitem _ _) _ _ _ => wp_helper asks_py_getitem guard_tac
  | |- wp _ (py_unpack2 _) _ _ _ => wp_helper asks_py_unpack2 guard_tac
  | |- wp _ (py_unpack3 _) _ _ _ => wp_helper asks_py_unpack3 guard_tac
  | |- wp _ (py_range _) _ _ _ => wp_helper asks_py_range guard_tac
  | |- wp _ (py_iter _) _ _ _ => wp_helper asks_py_iter guard_tac
  | |- wp _ (py_format _) _ _ _ => wp_helper asks_py_format guard_tac
  | |- wp _ (environ_set _ _) _ _ _ => apply wp_environ_set
  | |- wp _ (session_set _ _) _ _ _ => apply wp_session_set
  | |- wp _ (session_has _) _ _ _ => apply wp_session_has
  | |- wp _ (session_get _) _ _ _ => apply wp_session_get; [intros ? ?|intros ?]
  | |- wp _ (if ?b then _ else _) _ _ _ => destruct b eqn:?
  | |- wp _ (match ?p with (_, _) => _ end) _ _ _ => destruct p
  end.

Ltac wp_ext_any guard_tac := apply wp_ext; intros [?|?]; (split; [guard_tac|]).

Ltac wp_walk guard_tac :=
  repeat (simpl; wp_step_with ltac:(wp_ext_any guard_tac) guard_tac).


(** ** One external operation followed by the rest *)

Lemma bind_ext_returned `{World} {R} op (k : pyval -> M R) g w v w' :
  ext_call op w = (Returned v, w') ->
  bind (ext op) k g w
  = Ran (res (k v g w')) (glob (k v g w')) (world (k v g w'))
        ((op, Returned v) :: emitted (k v g w')).
Proof. intros Hc. unfold bind, ext. rewrite Hc. reflexivity. Qed.

Lemma bind_ext_raised `{World} {R} op (k : pyval -> M R) g w e w' :
  ext_call op w = (Raised e, w') ->
  bind (ext op) k g w = Ran (Exn e) g w' [(op, Raised e)].
Proof. intros Hc. unfold bind, ext. rewrite Hc. reflexivity. Qed.

(** ** The choosing-executors workflow *)

(** C8.  For every integer [a] the lattice [workflow(a)] of the
    choosing-executors notebook returns [a * a], asks nothing of the outside
    world and changes no state; for every input whatsoever it is
    [square(identity(a))]; for the dispatched input 2 the result is the 4
    of the recorded output. *)
Theorem workflow_squares_its_input :
  forall (H : World) g w,
    (forall a : Z,
        ChoosingExecutors.workflow (PInt a) g w = Ran (Ok (PInt (a * a))) g w [])
    /\ (forall x : pyval,
           ChoosingExecutors.identity x g w = Ran (Ok x) g w []
           /\ ChoosingExecutors.workflow x g w = ChoosingExecutors.square x g w)
    /\ ChoosingExecutors.workflow (PInt 2) g w
       = Ran (Ok ChoosingExecutors.recorded_result) g w [].
Proof.
  intros H g w. split; [|split].
  - intros a. reflexivity.
  - intros x. split; [reflexivity|].
    unfold ChoosingExecutors.workflow, ChoosingExecutors.identity, bind, ret. simpl.
    destruct (ChoosingExecutors.square x g w); reflexivity.
  - reflexivity.
Qed.

(** ** Uploading a voice sample and processing the input *)

(** C10.  [upload_speaker_file] returns [(None, None)] when the uploader
    widget holds no file, having written nothing; [process_input] with a
    false speaker file or a false URL returns at once: no external operation
    (so no dispatch) and no write to the session state; hence a dispatch
    found in its trace means both were true. *)
Theorem no_dispatch_without_both_inputs :
  forall (H : World) g w,
    (forall v w',
        ext_call (Call "st.file_uploader" [PStr "Upload an audio file (WAV)"]
                       [("type", PList [PStr "wav"])]) w = (Returned v, w') ->
        truthy v = false ->
        res (YouTube.upload_speaker_file g w) = Ok (PTuple [PNone; PNone])
        /\ glob (YouTube.upload_speaker_file g w) = g
        /\ List.length (emitted (YouTube.upload_speaker_file g w)) = 1%nat)
    /\ (forall speaker_file speaker_file_path youtube_url,
           truthy speaker_file = false \/ truthy youtube_url = false ->
           YouTube.process_input speaker_file speaker_file_path youtube_url g w
           = Ran (Ok PNone) g w [])
    /\ (forall speaker_file speaker_file_path youtube_url ev,
           In ev (emitted (YouTube.process_input speaker_file speaker_file_path
                             youtube_url g w)) ->
           truthy speaker_file = true /\ truthy youtube_url = true).
Proof.
  intros H g w. split; [|split].
  - intros v w' Hcall Hv.
    assert (E : YouTube.upload_speaker_file g w
                = Ran (Ok (PTuple [PNone; PNone])) g w'
                    [(Call "st.file_uploader" [PStr "Upload an audio file (WAV)"]
                           [("type", PList [PStr "wav"])], Returned v)]).
    { unfold YouTube.upload_speaker_file.
      rewrite (bind_ext_returned _ _ g w v w' Hcall), Hv. reflexivity. }
    rewrite E. simpl. auto.
  - intros sf path url Hf. unfold YouTube.process_input.
    destruct Hf as [Hf|Hf]; rewrite Hf; [|rewrite andb_false_r]; reflexivity.
  - intros sf path url ev Hin. unfold YouTube.process_input in Hin.
    destruct (truthy sf) eqn:Hs, (truthy url) eqn:Hu; simpl in Hin; tauto.
Qed.

Lemma no_dispatch_without_both_inputs_witness :
  res (YouTube.upload_speaker_file (H := silent_world) empty_globals tt)
  = Ok (PTuple [PNone; PNone])
  /\ YouTube.process_input (H := silent_world) PNone PNone (PStr "") empty_globals tt
     = @Ran silent_world _ (Ok PNone) empty_globals tt [].
Proof.
  destruct (no_dispatch_without_both_inputs silent_world empty_globals tt)
    as [Hup [Hproc _]].
  split.
  - eapply (Hup PNone); reflexivity.
  - apply Hproc. left. reflexivity.
Defined.

(** ** The training loop *)

Section Training.
Context `{World}.

Lemma wp_ext_total (mon : monitor) op g (q : mstate mon) post :
  never_raises H ->
  (forall v, mguard mon q (op, Returned v)
             /\ post (Ok v) g (mstep mon q (op, Returned v))) ->
  wp mon (ext op) g q post.
Proof.
  intros Hnr Hv w. unfold ext. simpl.
  destruct (Hnr op w) as [v Hr].
  destruct (ext_call op w) as [r w']. simpl in Hr. subst r. simpl.
  destruct (Hv v). auto.
Qed.

(** Whatever the optimizer and the cost function answer, a pass of the loop
    appends the index to the steps and one value to the costs. *)
Lemma training_loop_records opt cost (xs : list pyval) init g :
  wp unmonitored (for_each xs (PennyLane.training_step opt cost) (init, [], [])) g tt
    (fun o _ _ =>
       forall acc, o = Ok acc ->
         snd (fst acc) = xs /\ List.length (snd acc) = List.length xs).
Proof.
  eapply wp_for_each
    with (inv := fun pre acc _ _ =>
                   snd (fst acc) = pre /\ List.length (snd acc) = List.length pre).
  - simpl. auto.
  - intros pre x [[p ts] cs] g' q' [Hts Hcs]. simpl in Hts, Hcs.
    unfold PennyLane.training_step.
    wp_walk ltac:(exact I); try discriminate; try exact I;
      try (intros acc Hacc; discriminate Hacc).
    all: simpl; rewrite ?length_app; simpl; split; [congruence | lia].
  - intros a g' q' Hinv acc [= <-]. exact Hinv.
Qed.

(** With an optimizer and a callable cost in a world that answers, every
    pass completes. *)
Lemma training_loop_completes opt cost (xs : list pyval) acc g :
  never_raises H -> opt <> PNone -> callable cost = true ->
  wp unmonitored (for_each xs (PennyLane.training_step opt cost) acc) g tt
    (fun o _ _ => exists acc', o = Ok acc').
Proof.
  intros Hnr Hopt Hcost.
  eapply wp_for_each with (inv := fun _ _ _ _ => True); [exact I| |eauto].
  intros pre x [[p ts] cs] g' q' _. unfold PennyLane.training_step.
  apply wp_bind.
  replace (py_method opt "step" [cost; p] [])
    with (ext (CallMethod opt "step" [cost; p] []))
    by (destruct opt; try reflexivity; congruence).
  apply wp_ext_total; [exact Hnr|]. intros v. split; [exact I|]. simpl.
  apply wp_bind.
  replace (py_call cost [v] []) with (ext (CallValue cost [v] []))
    by (destruct cost; try reflexivity; discriminate).
  apply wp_ext_total; [exact Hnr|]. intros c. split; [exact I|]. simpl.
  apply wp_ret. exact I.
Qed.
End Training.

(** C9.  For a non-negative integer [n], [training(opt, init_params, cost, n)]
    - returns, when it returns, a triple whose second component is the list
      [0, 1, ..., n-1] and whose third component has length [n];
    - does return whenever [opt] is an object, [cost] can be called and no
      external operation raises;
    - for [n = 0] returns [(init_params, [], [])] without asking anything. *)
Theorem training_records_every_step :
  forall (H : World) (opt init_params cost : pyval) (n : Z) g w,
    0 <= n ->
    let r := PennyLane.training opt init_params cost (PInt n) g w in
    (forall v, res r = Ok v ->
       exists params steps costs,
         v = PTuple [params; PList steps; PList costs]
         /\ steps = List.map (fun i => PInt (Z.of_nat i)) (List.seq 0 (Z.to_nat n))
         /\ Z.of_nat (List.length costs) = n)
    /\ (opt <> PNone -> callable cost = true -> never_raises H ->
        exists v, res r = Ok v)
    /\ (n = 0 -> r = Ran (Ok (PTuple [init_params; PList []; PList []])) g w []).
Proof.
  intros H opt init cost n g w Hn r. subst r.
  unfold PennyLane.training. simpl py_range.
  split; [|split].
  - intros v.
    destruct (training_loop_records opt cost (range_list n) init g w) as [_ Hpost].
    simpl in Hpost. unfold bind at 1. simpl.
    unfold bind at 1.
    destruct (res (for_each (range_list n) (PennyLane.training_step opt cost)
                     (init, [], []) g w)) as [[[p ts] cs]|e] eqn:Hres; simpl.
    + intros [= <-]. destruct (Hpost _ eq_refl) as [Hts Hcs]. simpl in Hts, Hcs.
      exists p, ts, cs. split; [reflexivity|]. split; [exact Hts|].
      rewrite Hcs. unfold range_list. rewrite length_map, length_seq. lia.
    + discriminate.
  - intros Hopt Hcost Hnr.
    destruct (training_loop_completes opt cost (range_list n) (init, [], []) g
                Hnr Hopt Hcost w) as [_ [acc Hacc]].
    simpl in Hacc. unfold bind at 1. simpl. unfold bind at 1. rewrite Hacc.
    destruct acc as [[p ts] cs]. simpl. eauto.
  - intros ->. reflexivity.
Qed.

Lemma training_records_every_step_witness :
  exists params costs,
    res (PennyLane.training (H := counting_world) (PObj 0) (PInt 7) (PFun "cost")
           (PInt 3) empty_globals 0%nat)
    = Ok (PTuple [params; PList [PInt 0; PInt 1; PInt 2]; PList costs]).
Proof.
  destruct (training_records_every_step counting_world (PObj 0) (PInt 7)
              (PFun "cost") 3 empty_globals 0%nat ltac:(lia)) as [Hshape [Hreturns _]].
  destruct Hreturns as [v Hv].
  - discriminate.
  - reflexivity.
  - intros op w. exists (PObj w). reflexivity.
  - destruct (Hshape v Hv) as [params [steps [costs [-> [-> _]]]]].
    exists params, costs. exact Hv.
Defined.

(** ** From the calculus back to traces *)

Lemma wp_run `{World} (mon : monitor) {R} (m : M R) g q post w :
  wp mon m g q post ->
  along mon q (emitted (m g w))
  /\ post (res (m g w)) (glob (m g w)) (final mon q (emitted (m g w))).
Proof. intros Hm. exact (Hm w). Qed.

(** The cell that lists the requirements, under a monitor that reacts to its
    operations only when they raise. *)
Lemma wp_print_requirements `{World} (mon : monitor) g (q : mstate mon) post :
  (forall op r, listing_op op -> mguard mon q (op, r)) ->
  (forall op v, listing_op op -> mstep mon q (op, Returned v) = q) ->
  (forall o, post o g q) ->
  (forall op e, listing_op op -> post (Exn e) g (mstep mon q (op, Raised e))) ->
  wp mon PennyLane.print_requirements g q post.
Proof.
  intros Hg Hs Hp He. unfold PennyLane.print_requirements.
  assert (Hask : forall op R (m : M R) (post' : outcome R -> globals -> mstate mon -> Prop),
             listing_op op -> asks_once op m -> (forall o, post' o g q) ->
             (forall e, post' (Exn e) g (mstep mon q (op, Raised e))) ->
             wp mon m g q post').
  { intros op R m post' Hop Hm Hp' He'. eapply wp_asks_returning; eauto. }
  apply wp_bind. eapply Hask; [|apply asks_ext| |]; [simpl; auto| |].
  2: { intros e. apply He. simpl. auto. }
  intros [file|e]; [|apply Hp].
  apply wp_bind. eapply Hask; [|apply asks_py_iter| |]; [simpl; auto| |].
  2: { intros e. apply He. simpl. auto. }
  intros [lines|e]; [|apply Hp].
  eapply wp_for_each with (inv := fun _ _ g' q' => g' = g /\ q' = q); [auto| |].
  - intros pre line [] g' q' [-> ->].
    apply wp_bind. eapply Hask; [|apply asks_py_method| |]; [simpl; auto| |].
    2: { intros e. apply He. simpl. auto. }
    intros [s|e]; [|apply Hp].
    apply wp_bind. eapply Hask; [|apply asks_ext| |]; [simpl; auto| |].
    2: { intros e. apply He. simpl. auto. }
    intros [v|e]; [|apply Hp].
    apply wp_ret. auto.
  - intros a g' q' [-> ->]. apply Hp.
Qed.

(** ** Shared steps of the notebook proofs *)

Ltac unfold_youtube :=
  unfold YouTube.notebook, YouTube.main, YouTube.upload_speaker_file,
    YouTube.process_input, YouTube.display_results, YouTube.display_summary,
    YouTube.display_full_transcription, YouTube.display_audio_summary.

Ltac listing_op_cases :=
  let Hop := fresh "Hop" in
  intros [] ? Hop; simpl in Hop; try contradiction;
  [destruct Hop as [[->|[->| ->]] ->]|destruct Hop as [-> ->]]; simpl; auto.

Ltac through_listing end_tac :=
  apply wp_bind; apply wp_print_requirements;
  [ listing_op_cases
  | listing_op_cases
  | intros [[]|?]; [|end_tac]
  | listing_op_cases; end_tac ].

Ltac easy_guard :=
  simpl; repeat split; try exact I; try reflexivity; try lia; try discriminate; eauto.

Ltac easy_end :=
  simpl; first [exact I | discriminate | reflexivity | intros _; reflexivity | eauto].

(** ** Retrieval is keyed by the dispatched identifier *)

Section Keyed.
Context `{World}.

Ltac keyed_guard := simpl; try exact I; eauto.
Ltac keyed_end := simpl; first [exact I | discriminate | intros _; eauto | eauto].

Lemma choosing_executors_keyed g w : keyed_run ChoosingExecutors.notebook g w.
Proof.
  apply (wp_run keyed_monitor _ g nothing_dispatched
           (fun o _ q => o = Ok tt -> exists id, q = Keyed (Some id) 1)).
  unfold ChoosingExecutors.notebook. wp_walk keyed_guard; keyed_end.
Qed.

Lemma s3_transfer_keyed g w : keyed_run S3Transfer.notebook g w.
Proof.
  apply (wp_run keyed_monitor _ g nothing_dispatched
           (fun o _ q => o = Ok tt -> exists id, q = Keyed (Some id) 1)).
  unfold S3Transfer.notebook, S3Transfer.resolved. wp_walk keyed_guard; keyed_end.
Qed.

Lemma pennylane_keyed g w : keyed_run PennyLane.notebook g w.
Proof.
  apply (wp_run keyed_monitor _ g nothing_dispatched
           (fun o _ q => o = Ok tt -> exists id, q = Keyed (Some id) 1)).
  unfold PennyLane.notebook. through_listing ltac:(discriminate).
  unfold PennyLane.photon_redirection, PennyLane.qubit_rotation.
  wp_walk keyed_guard; keyed_end.
Qed.

Lemma youtube_keyed g q :
  wp keyed_monitor YouTube.notebook g q (fun _ _ _ => True).
Proof.
  unfold YouTube.notebook, YouTube.main, YouTube.upload_speaker_file,
    YouTube.process_input, YouTube.display_results, YouTube.display_summary,
    YouTube.display_full_transcription, YouTube.display_audio_summary.
  wp_walk keyed_guard; keyed_end.
Qed.

Lemma youtube_session_keyed n g q w :
  along keyed_monitor q (emitted (YouTube.session n g w)).
Proof.
  revert g q w. induction n as [|n IH]; intros g q w; simpl; [exact I|].
  unfold bind. simpl. rewrite along_app. split.
  - apply (youtube_keyed g q w).
  - apply IH.
Qed.
End Keyed.

(** ** Retrieval is one blocking wait per dispatch *)

Section Blocking.
Context `{World}.

Lemma choosing_executors_blocking g w : blocking_run ChoosingExecutors.notebook g w.
Proof.
  apply (wp_run blocking_monitor _ g false (fun o _ q => o = Ok tt -> q = false)).
  unfold ChoosingExecutors.notebook. wp_walk easy_guard; easy_end.
Qed.

Lemma s3_transfer_blocking g w : blocking_run S3Transfer.notebook g w.
Proof.
  apply (wp_run blocking_monitor _ g false (fun o _ q => o = Ok tt -> q = false)).
  unfold S3Transfer.notebook, S3Transfer.resolved. wp_walk easy_guard; easy_end.
Qed.

Lemma pennylane_blocking g w : blocking_run PennyLane.notebook g w.
Proof.
  apply (wp_run blocking_monitor _ g false (fun o _ q => o = Ok tt -> q = false)).
  unfold PennyLane.notebook. through_listing ltac:(discriminate).
  unfold PennyLane.photon_redirection, PennyLane.qubit_rotation.
  wp_walk easy_guard; easy_end.
Qed.

Lemma youtube_blocking g w :
  along blocking_monitor false (emitted (YouTube.notebook g w)).
Proof.
  apply (wp_run blocking_monitor _ g false (fun _ _ _ => True)).
  unfold_youtube. wp_walk easy_guard; easy_end.
Qed.
End Blocking.

(** C5.  Every [ct.get_result] call in the four notebooks passes [wait=True]
    and is the single retrieval of the dispatch before it: no notebook asks
    again, loops or waits by itself.  A run of the three scripts that
    completes has retrieved what it dispatched. *)
Theorem every_retrieval_is_one_blocking_wait :
  forall (H : World) g w,
    blocking_run ChoosingExecutors.notebook g w
    /\ blocking_run S3Transfer.notebook g w
    /\ blocking_run PennyLane.notebook g w
    /\ along blocking_monitor false (emitted (YouTube.notebook g w)).
Proof.
  intros H g w. split; [|split; [|split]].
  - apply choosing_executors_blocking.
  - apply s3_transfer_blocking.
  - apply pennylane_blocking.
  - apply youtube_blocking.
Qed.

Lemma every_retrieval_is_one_blocking_wait_witness :
  final blocking_monitor false
    (emitted (S3Transfer.notebook (H := counting_world) empty_globals 0%nat))
  = false.
Proof.
  destruct (every_retrieval_is_one_blocking_wait counting_world empty_globals 0%nat)
    as [_ [[_ Hcomplete] _]].
  apply Hcomplete. vm_compute. reflexivity.
Defined.

(** ** Results shown along a session *)

Section Shown.
Context `{World}.

Lemma youtube_shown g q :
  stored_was_retrieved g q ->
  wp shown_monitor YouTube.notebook g q (fun _ g' q' => stored_was_retrieved g' q').
Proof.
  intros Hinv.
  assert (Hstored : bool_decide (is_Some (session_state g !! "transcription")) = true
                    -> q = true).
  { intros Hb. apply Hinv. exact (bool_decide_eq_true_1 _ Hb). }
  unfold_youtube.
  wp_walk ltac:(simpl; try exact I; try reflexivity; auto);
    simpl; try exact Hinv; try (intros _; reflexivity); auto.
Qed.

Lemma youtube_session_shown n g q w :
  stored_was_retrieved g q ->
  along shown_monitor q (emitted (YouTube.session n g w)).
Proof.
  revert g q w. induction n as [|n IH]; intros g q w Hinv; simpl; [exact I|].
  unfold bind. simpl. rewrite along_app.
  destruct (youtube_shown g q Hinv w) as [Ha Hp]. split; [exact Ha|].
  apply IH. exact Hp.
Qed.
End Shown.

(** ** Failure handling *)

Lemma along_raise_uncaught (tr : list event) {R} (o : outcome R) :
  along raise_monitor None tr ->
  (forall e, final raise_monitor None tr = Some e -> o = Exn e) ->
  uncaught tr o.
Proof.
  intros Ha Hf pre op e post ->.
  rewrite along_app in Ha. destruct Ha as [_ Ha]. simpl in Ha.
  destruct Ha as [Hq Ha].
  assert (Hpost : post = []).
  { destruct post as [|ev post]; [reflexivity|]. simpl in Ha.
    destruct Ha as [Hbad _]. discriminate Hbad. }
  split; [exact Hpost|]. subst post. apply Hf.
  rewrite final_app. unfold final. simpl. reflexivity.
Qed.

Lemma uncaught_of_wp `{World} {R} (m : M R) g w :
  wp raise_monitor m g None (fun o _ q => forall e, q = Some e -> o = Exn e) ->
  uncaught (emitted (m g w)) (res (m g w)).
Proof.
  intros Hm. destruct (Hm w) as [Ha Hp]. apply along_raise_uncaught; assumption.
Qed.

Ltac unfold_functions :=
  unfold ChoosingExecutors.workflow, ChoosingExecutors.square,
    ChoosingExecutors.identity,
    S3Transfer.process_s3_data, S3Transfer.to_grayscale,
    PennyLane.workflow, PennyLane.training, PennyLane.get_init_params,
    PennyLane.get_optimizer, PennyLane.cost, PennyLane.squared_difference,
    PennyLane.qubit_rotation, PennyLane.photon_redirection,
    YouTube.main, YouTube.process_input, YouTube.upload_speaker_file,
    YouTube.display_results, YouTube.display_summary,
    YouTube.display_full_transcription, YouTube.display_audio_summary,
    YouTube.workflow, YouTube.load_wav_file, YouTube.text_to_speech_voice_clone,
    YouTube.summarize_transcription, YouTube.transcribe_audio, YouTube.load_audio,
    YouTube.download_video.

Ltac by_arity args :=
  destruct args as [|? [|? [|? [|? [|? ?]]]]]; simpl.

Ltac for_every_function tac :=
  let Hin := fresh "Hin" in
  intros ? ? ? Hin; unfold all_functions, tagged in Hin; simpl in Hin;
  repeat (destruct Hin as [Hin|Hin]; [injection Hin as <- <- <-; tac|]);
  try contradiction.

Section Failure.
Context `{World}.

Ltac raise_end := simpl; intros; congruence.

Lemma function_exceptions_uncaught :
  forall nb name f, In (nb, name, f) all_functions ->
    forall args g w, uncaught (emitted (f H args g w)) (res (f H args g w)).
Proof.
  for_every_function
    ltac:(intros args g w; apply uncaught_of_wp; by_arity args; unfold_functions;
          wp_walk easy_guard; raise_end).
Qed.
End Failure.

Section FailureInNotebooks.
Context `{World}.

Ltac raise_end := simpl; intros; congruence.

Lemma choosing_executors_no_failure_logic g w :
  along no_failure_logic tt (emitted (ChoosingExecutors.notebook g w)).
Proof.
  apply (wp_run no_failure_logic _ g tt (fun _ _ _ => True)).
  unfold ChoosingExecutors.notebook. wp_walk easy_guard; easy_end.
Qed.

Lemma s3_transfer_no_failure_logic g w :
  along no_failure_logic tt (emitted (S3Transfer.notebook g w)).
Proof.
  apply (wp_run no_failure_logic _ g tt (fun _ _ _ => True)).
  unfold S3Transfer.notebook, S3Transfer.resolved. wp_walk easy_guard; easy_end.
Qed.

Lemma pennylane_no_failure_logic g w :
  along no_failure_logic tt (emitted (PennyLane.notebook g w)).
Proof.
  apply (wp_run no_failure_logic _ g tt (fun _ _ _ => True)).
  unfold PennyLane.notebook. through_listing ltac:(exact I).
  unfold PennyLane.photon_redirection, PennyLane.qubit_rotation.
  wp_walk easy_guard; easy_end.
Qed.

Lemma s3_transfer_prints_status g w :
  along status_monitor (Status None None) (emitted (S3Transfer.notebook g w)).
Proof.
  apply (wp_run status_monitor _ g (Status None None) (fun _ _ _ => True)).
  unfold S3Transfer.notebook, S3Transfer.resolved. wp_walk easy_guard; easy_end.
Qed.

Lemma youtube_failure_logic g w :
  along failure_monitor None (emitted (YouTube.notebook g w)).
Proof.
  apply (wp_run failure_monitor _ g None (fun _ _ _ => True)).
  unfold_youtube.
  wp_walk ltac:(simpl; repeat split; try exact I; try reflexivity;
                try discriminate; eauto);
    easy_end.
Qed.

Lemma choosing_executors_uncaught g w :
  uncaught (emitted (ChoosingExecutors.notebook g w))
           (res (ChoosingExecutors.notebook g w)).
Proof.
  apply uncaught_of_wp. unfold ChoosingExecutors.notebook.
  wp_walk easy_guard; raise_end.
Qed.

Lemma s3_transfer_uncaught g w :
  uncaught (emitted (S3Transfer.notebook g w)) (res (S3Transfer.notebook g w)).
Proof.
  apply uncaught_of_wp. unfold S3Transfer.notebook, S3Transfer.resolved.
  wp_walk easy_guard; raise_end.
Qed.

Lemma pennylane_uncaught g w :
  uncaught (emitted (PennyLane.notebook g w)) (res (PennyLane.notebook g w)).
Proof.
  apply uncaught_of_wp. unfold PennyLane.notebook.
  through_listing ltac:(raise_end).
  unfold PennyLane.photon_redirection, PennyLane.qubit_rotation.
  wp_walk easy_guard; raise_end.
Qed.

Lemma youtube_uncaught g w :
  uncaught (emitted (YouTube.notebook g w)) (res (YouTube.notebook g w)).
Proof.
  apply uncaught_of_wp. unfold_youtube. wp_walk easy_guard; raise_end.
Qed.
End FailureInNotebooks.

(** C3, as the code has it.  The choosing-executors, S3 and PennyLane
    notebooks pass no retry count and take no error action; the S3 notebook
    reads [status] off the result it retrieved and prints that status.  The
    YouTube notebook passes [retries=1], and only to the GCP Batch executor
    it constructs, and it calls [st.error] only after a retrieval that
    returned a false result.  No notebook and no function a notebook defines
    catches an exception: one raised by an external operation is the last
    event of the run and its outcome. *)
Theorem failure_is_left_to_the_library :
  forall (H : World) g w,
    (along no_failure_logic tt (emitted (ChoosingExecutors.notebook g w))
     /\ along no_failure_logic tt (emitted (S3Transfer.notebook g w))
     /\ along no_failure_logic tt (emitted (PennyLane.notebook g w)))
    /\ along status_monitor (Status None None) (emitted (S3Transfer.notebook g w))
    /\ along failure_monitor None (emitted (YouTube.notebook g w))
    /\ (uncaught (emitted (ChoosingExecutors.notebook g w))
                 (res (ChoosingExecutors.notebook g w))
        /\ uncaught (emitted (S3Transfer.notebook g w)) (res (S3Transfer.notebook g w))
        /\ uncaught (emitted (PennyLane.notebook g w)) (res (PennyLane.notebook g w))
        /\ uncaught (emitted (YouTube.notebook g w)) (res (YouTube.notebook g w)))
    /\ (forall nb name f args, In (nb, name, f) all_functions ->
          uncaught (emitted (f H args g w)) (res (f H args g w))).
Proof.
  intros H g w.
  split; [|split; [|split; [|split]]].
  - split; [|split].
    + apply choosing_executors_no_failure_logic.
    + apply s3_transfer_no_failure_logic.
    + apply pennylane_no_failure_logic.
  - apply s3_transfer_prints_status.
  - apply youtube_failure_logic.
  - split; [|split; [|split]].
    + apply choosing_executors_uncaught.
    + apply s3_transfer_uncaught.
    + apply pennylane_uncaught.
    + apply youtube_uncaught.
  - intros nb name f args Hin. eapply function_exceptions_uncaught; eauto.
Qed.

Lemma failure_is_left_to_the_library_witness :
  uncaught
    (emitted (YouTube.download_video (H := failing_world) (PStr "https://youtu.be/demo")
                empty_globals tt))
    (res (YouTube.download_video (H := failing_world) (PStr "https://youtu.be/demo")
            empty_globals tt)).
Proof.
  destruct (failure_is_left_to_the_library failing_world empty_globals tt)
    as [_ [_ [_ [_ Hfunctions]]]].
  apply (Hfunctions "youtube_summarization" "download_video"
                    (fun _ args =>
                       match args with
                       | [u] => YouTube.download_video u
                       | _ => raise "TypeError"
                       end)
                    [PStr "https://youtu.be/demo"]).
  unfold all_functions, tagged. simpl. do 13 right. left. reflexivity.
Defined.

(** C3 as stated fails on the YouTube notebook: its first operation
    constructs the executor with [retries=1], and when the retrieved result
    is false the page calls [st.error]. *)
Lemma youtube_configures_retry_and_reports_failure :
  ~ no_local_failure_handling
  /\ (exists op r,
        List.nth_error (emitted (YouTube.notebook (H := lost_world) empty_globals tt)) 0
        = Some (op, r)
        /\ lookup_kw "retries" (op_kwargs op) = Some (PInt 1))
  /\ (exists ev,
        List.last (emitted (YouTube.notebook (H := lost_world) empty_globals tt))
                  (Name "", Raised "")
        = ev
        /\ is_error_action (fst ev) = true)
  /\ (forall ev,
        In ev (emitted (YouTube.notebook (H := studio_world) empty_globals tt)) ->
        is_error_action (fst ev) = false).
Proof.
  split; [|split; [|split]].
  - intros Hclaim.
    destruct (Hclaim lost_world empty_globals tt) as [_ [_ [_ Hyt]]].
    vm_compute in Hyt. destruct Hyt as [[Hretry _] _]. discriminate Hretry.
  - eexists _, _. split; vm_compute; reflexivity.
  - eexists. split; vm_compute; reflexivity.
  - intros ev Hin. vm_compute in Hin.
    repeat (destruct Hin as [<-|Hin]; [reflexivity|]). contradiction.
Qed.

(** ** What the functions write to the process state *)

Section Frame.
Context `{World}.

Lemma untouched_by_most :
  forall nb name f, In (nb, name, f) all_functions -> ~ In (nb, name) mutators ->
    forall args g w, glob (f H args g w) = g.
Proof.
  for_every_function
    ltac:(intros Hnot args g w;
          first
            [ solve [exfalso; apply Hnot; simpl; tauto]
            | apply (wp_run unmonitored _ g tt (fun _ g' _ => g' = g));
              by_arity args; unfold_functions;
              wp_walk easy_guard; reflexivity ]).
Qed.

Lemma voice_clone_agrees text speaker_content output_file g w :
  let r := YouTube.text_to_speech_voice_clone text speaker_content output_file g w in
  glob r = g \/ glob r = agreed g.
Proof.
  apply (wp_run unmonitored _ g tt (fun _ g' _ => g' = g \/ g' = agreed g)).
  unfold_functions. wp_walk easy_guard; first [left; reflexivity | right; reflexivity].
Qed.

Lemma youtube_workflow_agrees url user_voice_file output_file g w :
  let r := YouTube.workflow url user_voice_file output_file g w in
  glob r = g \/ glob r = agreed g.
Proof.
  apply (wp_run unmonitored _ g tt (fun _ g' _ => g' = g \/ g' = agreed g)).
  unfold_functions. wp_walk easy_guard; first [left; reflexivity | right; reflexivity].
Qed.

Lemma process_input_remembers speaker_file speaker_file_path youtube_url g w :
  let r := YouTube.process_input speaker_file speaker_file_path youtube_url g w in
  glob r = g \/ exists s t a, glob r = remembered s t a g.
Proof.
  apply (wp_run unmonitored _ g tt
           (fun _ g' _ => g' = g \/ exists s t a, g' = remembered s t a g)).
  unfold_functions. wp_walk easy_guard; first [left; reflexivity | right; eauto].
Qed.

Lemma main_remembers g w :
  let r := YouTube.main g w in
  glob r = g \/ exists s t a, glob r = remembered s t a g.
Proof.
  apply (wp_run unmonitored _ g tt
           (fun _ g' _ => g' = g \/ exists s t a, g' = remembered s t a g)).
  unfold_functions. wp_walk easy_guard; first [left; reflexivity | right; eauto].
Qed.
End Frame.

(** C2 as stated fails: in a world that answers every operation,
    [text_to_speech_voice_clone] sets an environment variable and
    [process_input] fills the session state. *)
Lemma voice_clone_sets_environ_and_page_fills_session :
  ~ no_function_mutates_state
  /\ environ (glob (YouTube.text_to_speech_voice_clone (H := studio_world)
                      (PStr "a summary") (PObj 1) (PStr "audio.wav")
                      empty_globals tt))
     !! "COQUI_TOS_AGREED" = Some (PStr "1")
  /\ session_state (glob (YouTube.process_input (H := studio_world)
                            (PObj 1) (PStr "speaker.wav") (PStr "https://youtu.be/demo")
                            empty_globals tt))
     !! "summary" = Some (PStr "a summary").
Proof.
  split; [|split].
  - intros Hclaim.
    assert (Hin : In ("youtube_summarization", "text_to_speech_voice_clone",
                      (fun (_ : World) args =>
                         match args with
                         | [t; s; o] => YouTube.text_to_speech_voice_clone t s o
                         | _ => raise "TypeError"
                         end) : pyfun) all_functions).
    { unfold all_functions, tagged. simpl. do 17 right. left. reflexivity. }
    pose proof (Hclaim _ _ _ Hin studio_world
                  [PStr "a summary"; PObj 1; PStr "audio.wav"] empty_globals tt) as E.
    apply (f_equal (fun g => environ g !! "COQUI_TOS_AGREED")) in E.
    vm_compute in E. discriminate E.
  - vm_compute. reflexivity.
  - vm_compute. reflexivity.
Qed.

(** ** Which functions compute a result of their own *)

(** In the world where every operation fails. *)
Lemma wp_ext_failing (mon : monitor) op g (q : mstate mon) post :
  mguard mon q (op, Raised "RuntimeError") ->
  post (Exn "RuntimeError") g (mstep mon q (op, Raised "RuntimeError")) ->
  wp (H := failing_world) mon (ext op) g q post.
Proof. intros Hg Hp w. simpl. auto. Qed.

Ltac wp_walk_failing :=
  repeat (simpl;
          wp_step_with ltac:(apply wp_ext_failing; [exact I|]) ltac:(exact I)).

(** Apart from the self-contained ones, a function returns nothing but
    [None] once the world fails. *)
Lemma nothing_returned_when_the_world_fails :
  forall nb name f, In (nb, name, f) all_functions -> ~ In (nb, name) self_contained ->
    forall args g w v, res (f failing_world args g w) = Ok v -> v = PNone.
Proof.
  for_every_function
    ltac:(intros Hnot args g w;
          first
            [ solve [exfalso; apply Hnot; simpl; tauto]
            | apply (wp_run (H := failing_world) unmonitored _ g tt
                       (fun o _ _ => forall v, o = Ok v -> v = PNone));
              by_arity args; unfold_functions;
              wp_walk_failing; simpl; intros; congruence ]).
Qed.

Lemma self_contained_functions_own :
  forall nb name f, In (nb, name, f) all_functions -> In (nb, name) self_contained ->
    own_behaviour f.
Proof.
  for_every_function
    ltac:(intros Hsc;
          first
            [ solve [exfalso; simpl in Hsc;
                     repeat (destruct Hsc as [Hsc|Hsc]; [discriminate Hsc|]);
                     exact Hsc]
            | idtac ]).
  - exists [PInt 1], (PInt 1). split; [discriminate|]. reflexivity.
  - exists [PInt 3], (PInt 9). split; [discriminate|]. reflexivity.
  - exists [PInt 2], (PInt 4). split; [discriminate|]. reflexivity.
  - exists [PNone; PInt 7; PNone; PInt 0], (PTuple [PInt 7; PList []; PList []]).
    split; [discriminate|]. reflexivity.
Qed.


(** ** Imports, and whose work the domain work is *)

Section Api.
Context `{World}.

Lemma choosing_executors_calls_api g w :
  res (ChoosingExecutors.notebook g w) = Ok tt ->
  final (api_monitor "ct") false (emitted (ChoosingExecutors.notebook g w)) = true.
Proof.
  apply (wp_run (api_monitor "ct") _ g false (fun o _ q => o = Ok tt -> q = true)).
  unfold ChoosingExecutors.notebook. wp_walk easy_guard; easy_end.
Qed.

Lemma s3_transfer_calls_api g w :
  res (S3Transfer.notebook g w) = Ok tt ->
  final (api_monitor "ct") false (emitted (S3Transfer.notebook g w)) = true.
Proof.
  apply (wp_run (api_monitor "ct") _ g false (fun o _ q => o = Ok tt -> q = true)).
  unfold S3Transfer.notebook, S3Transfer.resolved. wp_walk easy_guard; easy_end.
Qed.

Lemma pennylane_calls_api g w :
  res (PennyLane.notebook g w) = Ok tt ->
  final (api_monitor "ct") false (emitted (PennyLane.notebook g w)) = true.
Proof.
  apply (wp_run (api_monitor "ct") _ g false (fun o _ q => o = Ok tt -> q = true)).
  unfold PennyLane.notebook. through_listing ltac:(discriminate).
  unfold PennyLane.photon_redirection, PennyLane.qubit_rotation.
  wp_walk easy_guard; easy_end.
Qed.

(** X26.  Whatever [files] it is given, the image [to_grayscale] saves is
    the one [color.rgb2gray] returned. *)
Lemma grayscale_comes_from_the_library files g w :
  along grayscale_monitor None (emitted (S3Transfer.to_grayscale files g w)).
Proof.
  apply (wp_run grayscale_monitor _ g None (fun _ _ _ => True)).
  unfold S3Transfer.to_grayscale. wp_walk easy_guard; easy_end.
Qed.

(** X25.  Whatever [steps] is, [training] returns the parameters of the
    latest [opt.step], or the initial ones, and the costs the calls of
    [cost] returned, in order. *)
Lemma optimisation_comes_from_the_library opt init_params cost steps g w :
  let r := PennyLane.training opt init_params cost steps g w in
  forall params recorded costs,
    res r = Ok (PTuple [params; recorded; PList costs]) ->
    params = default init_params (stepped (final training_monitor (Trained None [])
                                             (emitted r)))
    /\ costs = costs_seen (final training_monitor (Trained None []) (emitted r)).
Proof.
  apply (wp_run training_monitor _ g (Trained None [])
           (fun o _ q =>
              forall params recorded costs,
                o = Ok (PTuple [params; recorded; PList costs]) ->
                params = default init_params (stepped q) /\ costs = costs_seen q)).
  unfold PennyLane.training. apply wp_bind.
  wp_helper asks_py_range ltac:(exact I); try (intros; discriminate).
  simpl. apply wp_bind.
  eapply wp_for_each
    with (inv := fun _ acc _ q' =>
                   fst (fst acc) = default init_params (stepped q')
                   /\ snd acc = costs_seen q').
  - simpl. auto.
  - intros pre i [[p ts] cs] g' q' [Hp Hc]. simpl in Hp, Hc.
    unfold PennyLane.training_step.
    wp_walk ltac:(exact I); try (intros; discriminate).
    simpl. split; [reflexivity|congruence].
  - intros [[p ts] cs] g' q' [Hp Hc]. simpl in Hp, Hc. simpl.
    apply wp_ret. intros params recorded costs [= <- _ <-]. auto.
Qed.
End Api.

(** What [transcribe_audio] returns is what the speech-recognition pipeline's
    output held under ["text"]. *)
Lemma transcription_comes_from_the_library `{World} audio_content g w :
  let r := YouTube.transcribe_audio audio_content g w in
  forall v, res r = Ok v -> final item_monitor None (emitted r) = Some v.
Proof.
  apply (wp_run item_monitor _ g None (fun o _ q => forall v, o = Ok v -> q = Some v)).
  unfold YouTube.transcribe_audio.
  wp_walk ltac:(exact I); simpl; intros; congruence.
Qed.

(** C7.  The choosing-executors, S3 and PennyLane notebooks import
    [covalent] as [ct].  The YouTube notebook imports [covalent_cloud] as
    [cc] but no cell of it imports [covalent] or binds [ct], although its
    first operation, like its decorators, dispatch and retrieval, goes
    through [ct]. *)
Theorem youtube_calls_ct_without_importing_it :
  (imports_module ChoosingExecutors.imports "covalent" = true
   /\ binds ChoosingExecutors.imports "ct" = true)
  /\ (imports_module S3Transfer.imports "covalent" = true
      /\ binds S3Transfer.imports "ct" = true)
  /\ (imports_module PennyLane.imports "covalent" = true
      /\ binds PennyLane.imports "ct" = true)
  /\ orchestration_aliases YouTube.imports = ["cc"]
  /\ imports_module YouTube.imports "covalent" = false
  /\ binds YouTube.imports "ct" = false
  /\ (forall (H : World) g w,
        exists op r,
          List.nth_error (emitted (YouTube.notebook g w)) 0 = Some (op, r)
          /\ through_alias "ct" op = true).
Proof.
  do 3 (split; [split; reflexivity|]).
  do 3 (split; [reflexivity|]).
  intros H g w. unfold YouTube.notebook.
  match goal with
  | |- context [bind (ext ?op) ?k g w] =>
      destruct (ext_call op w) as [[v|e] w'] eqn:E;
      [rewrite (bind_ext_returned op k g w v w' E)
      |rewrite (bind_ext_raised op k g w e w' E)]
  end; simpl; eexists _, _; split; reflexivity.
Qed.

(** * Further properties of the cells *)

(** ** The Python operations fail only with Python's own errors *)

Section AsksOrFails.
Context `{World}.

Ltac crack' :=
  repeat (simpl;
          match goal with
          | |- context [ext_call ?op ?w] =>
              destruct (ext_call op w) as [[?|?] ?]
          | |- context [match ?x with _ => _ end] => destruct x
          | |- context [if ?x then _ else _] => destruct x
          end).

Ltac own_error :=
  let e := fresh "e" in
  let E := fresh "E" in
  intros e E; first [discriminate E | injection E as <-; simpl; tauto].

Ltac fails_tac :=
  intros g w; unfold bind, ext, ret, raise; crack'; simpl;
  (split; [reflexivity|]);
  first [ left; split; [reflexivity|own_error]
        | right; eexists; split; [reflexivity|]; simpl;
          first [reflexivity | own_error] ].

Lemma fails_py_mul a b : asks_or_fails (Call "operator.mul" [a; b] []) (py_mul a b).
Proof. unfold py_mul. fails_tac. Qed.

Lemma fails_py_sub a b : asks_or_fails (Call "operator.sub" [a; b] []) (py_sub a b).
Proof. unfold py_sub. fails_tac. Qed.

Lemma fails_py_pow a b : asks_or_fails (Call "operator.pow" [a; b] []) (py_pow a b).
Proof. unfold py_pow. fails_tac. Qed.

Lemma fails_py_getitem recv key : asks_or_fails (GetItem recv key) (py_getitem recv key).
Proof. unfold py_getitem. fails_tac. Qed.

Lemma fails_py_unpack2 v : asks_or_fails (Call "tuple" [v] []) (py_unpack2 v).
Proof. unfold py_unpack2, unpack2_items. fails_tac. Qed.

Lemma fails_py_unpack3 v : asks_or_fails (Call "tuple" [v] []) (py_unpack3 v).
Proof. unfold py_unpack3, unpack3_items. fails_tac. Qed.

Lemma fails_py_range n : asks_or_fails (Call "operator.index" [n] []) (py_range n).
Proof. unfold py_range. fails_tac. Qed.

Lemma fails_py_iter v : asks_or_fails (Call "list" [v] []) (py_iter v).
Proof. unfold py_iter. fails_tac. Qed.

Lemma fails_py_format v : asks_or_fails (Call "format" [v] []) (py_format v).
Proof. unfold py_format. fails_tac. Qed.
End AsksOrFails.

Section PreciseRules.
Context `{World} (mon : monitor).

Lemma wp_asks_or_fails {R} op (m : M R) g (q : mstate mon) post :
  asks_or_fails op m ->
  (forall a, post (Ok a) g q) ->
  (forall e, In e own_errors -> post (Exn e) g q) ->
  (forall x, mguard mon q (op, x) /\
             match x with
             | Raised e => post (Exn e) g (mstep mon q (op, x))
             | Returned _ =>
                 (forall a, post (Ok a) g (mstep mon q (op, x)))
                 /\ (forall e, In e own_errors -> post (Exn e) g (mstep mon q (op, x)))
             end) ->
  wp mon m g q post.
Proof.
  intros Hm Hok Herr Hx w. destruct (Hm g w) as [Hg [[He Hr]|[x [He Hr]]]]; simpl.
  - rewrite He, Hg. simpl. split; [exact I|].
    destruct (res (m g w)) as [a|e]; [apply Hok|apply Herr, Hr; reflexivity].
  - rewrite He, Hg. simpl. destruct (Hx x) as [Hgd Hp].
    split; [tauto|]. destruct x as [v|e].
    + destruct Hp as [Hok' Herr'].
      destruct (res (m g w)) as [a|e]; [apply Hok'|apply Herr', Hr; reflexivity].
    + rewrite Hr. exact Hp.
Qed.

Lemma wp_asks_or_fails_returning {R} op (m : M R) g (q : mstate mon) post :
  asks_or_fails op m ->
  (forall x, mguard mon q (op, x)) ->
  (forall v, mstep mon q (op, Returned v) = q) ->
  (forall a, post (Ok a) g q) ->
  (forall e, In e own_errors -> post (Exn e) g q) ->
  (forall e, post (Exn e) g (mstep mon q (op, Raised e))) ->
  wp mon m g q post.
Proof.
  intros Hm Hg Hs Hok Herr He. eapply wp_asks_or_fails; eauto.
  intros [v|e]; (split; [apply Hg|]); [rewrite Hs; auto|apply He].
Qed.

(** Unpacking into three gives the three items of the value, or of the tuple
    the library made of a value that has no items of Python's own. *)
Lemma wp_py_unpack3_items v g (q : mstate mon) post :
  (forall a b c, items_of v = Some [a; b; c] -> post (Ok (a, b, c)) g q) ->
  (forall e, In e own_errors -> post (Exn e) g q) ->
  (items_of v = None ->
   forall x, mguard mon q (Call "tuple" [v] [], x) /\
             let q' := mstep mon q (Call "tuple" [v] [], x) in
             match x with
             | Raised e => post (Exn e) g q'
             | Returned t =>
                 (forall a b c, t = PTuple [a; b; c] -> post (Ok (a, b, c)) g q')
                 /\ (forall e, In e own_errors -> post (Exn e) g q')
             end) ->
  wp mon (py_unpack3 v) g q post.
Proof.
  intros Hok Herr Hx.
  assert (Hitems : forall l, items_of v = Some l -> wp mon (unpack3_items l) g q post).
  { intros l Hl. unfold unpack3_items.
    destruct l as [|a [|b [|c [|d l]]]];
      try (apply wp_raise, Herr; simpl; tauto).
    apply wp_ret, Hok, Hl. }
  unfold py_unpack3.
  destruct v; try (apply wp_raise, Herr; simpl; tauto);
    try (apply Hitems; reflexivity).
  apply wp_bind, wp_ext. intros x. destruct (Hx eq_refl x) as [Hg Hp].
  split; [exact Hg|].
  destruct x as [t|e]; simpl in *; [|exact Hp].
  destruct Hp as [Hok' Herr'].
  destruct t; try (apply wp_raise, Herr'; simpl; tauto).
  unfold unpack3_items.
  destruct items as [|a [|b [|c [|d l]]]];
    try (apply wp_raise, Herr'; simpl; tauto).
  apply wp_ret, Hok'. reflexivity.
Qed.
End PreciseRules.

Ltac own_cases :=
  let e := fresh "e" in
  let He := fresh "He" in
  intros e He; simpl in He;
  repeat (destruct He as [<-|He]); [..|contradiction].

Ltac wp_fails lem guard_tac :=
  first
    [ eapply wp_asks_or_fails_returning;
      [ apply lem
      | intros [?|?]; guard_tac
      | intros ?; reflexivity
      | intros ?
      | own_cases
      | intros ? ]
    | eapply wp_asks_or_fails;
      [ apply lem
      | intros ?
      | own_cases
      | intros [?|?]; (split; [guard_tac | try (split; [intros ?|own_cases])]) ] ].

Ltac wp_step_precise guard_tac :=
  lazymatch goal with
  | |- wp _ (bind _ _) _ _ _ => apply wp_bind
  | |- wp _ (ret _) _ _ _ => apply wp_ret
  | |- wp _ (raise _) _ _ _ => apply wp_raise
  | |- wp _ (ext _) _ _ _ => apply wp_ext; intros [?|?]; (split; [guard_tac|])
  | |- wp _ (py_getattr _ _) _ _ _ =>
      apply wp_py_getattr; [|intros [?|?]; (split; [guard_tac|])]
  | |- wp _ (py_method _ _ _ _) _ _ _ =>
      apply wp_py_method; [|intros [?|?]; (split; [guard_tac|])]
  | |- wp _ (py_call _ _ _) _ _ _ =>
      apply wp_py_call; [|intros [?|?]; (split; [guard_tac|])]
  | |- wp _ (py_getitem _ (PStr _)) _ _ _ =>
      apply wp_py_getitem_str; [|intros [?|?]; (split; [guard_tac|])]
  | |- wp _ (py_unpack2 (PTuple [_; _])) _ _ _ =>
      unfold py_unpack2, unpack2_items; apply wp_ret
  | |- wp _ (py_unpack3 _) _ _ _ =>
      apply wp_py_unpack3_items;
      [ intros ? ? ? ?
      | own_cases
      | intros ? [?|?]; (split; [guard_tac|]); simpl;
        [split; [intros ? ? ? ?|own_cases]|] ]
  | |- wp _ (py_mul _ _) _ _ _ => wp_fails fails_py_mul guard_tac
  | |- wp _ (py_sub _ _) _ _ _ => wp_fails fails_py_sub guard_tac
  | |- wp _ (py_pow _ _) _ _ _ => wp_fails fails_py_pow guard_tac
  | |- wp _ (py_getitem _ _) _ _ _ => wp_fails fails_py_getitem guard_tac
  | |- wp _ (py_unpack2 _) _ _ _ => wp_fails fails_py_unpack2 guard_tac
  | |- wp _ (py_range _) _ _ _ => wp_fails fails_py_range guard_tac
  | |- wp _ (py_iter _) _ _ _ => wp_fails fails_py_iter guard_tac
  | |- wp _ (py_format _) _ _ _ => wp_fails fails_py_format guard_tac
  | |- wp _ (environ_set _ _) _ _ _ => apply wp_environ_set
  | |- wp _ (session_set _ _) _ _ _ => apply wp_session_set
  | |- wp _ (session_has _) _ _ _ => apply wp_session_has
  | |- wp _ (session_get _) _ _ _ => apply wp_session_get; [intros ? ?|intros ?]
  | |- wp _ (if ?b then _ else _) _ _ _ => destruct b eqn:?
  | |- wp _ (match ?p with (_, _) => _ end) _ _ _ => destruct p
  end.

Ltac wp_walk_precise guard_tac := repeat (simpl; wp_step_precise guard_tac).

(** ** The Streamlit page *)

Lemma remembered_is_stored s t a g k :
  In k result_keys -> is_Some (session_state (remembered s t a g) !! k).
Proof.
  intros Hk. unfold remembered, set_session. simpl in *.
  destruct Hk as [<-|[<-|[<-|[]]]]; simplify_map_eq; eauto.
Qed.

Lemma remembered_keeps s t a g k :
  is_Some (session_state g !! k) -> is_Some (session_state (remembered s t a g) !! k).
Proof.
  intros Hk. unfold remembered, set_session. simpl.
  repeat (rewrite lookup_insert; case_decide; [eauto|]). exact Hk.
Qed.

Lemma remembered_environ s t a g : environ (remembered s t a g) = environ g.
Proof. reflexivity. Qed.

Lemma notebook_remembers `{World} g w :
  let r := YouTube.notebook g w in
  glob r = g \/ exists s t a, glob r = remembered s t a g.
Proof.
  apply (wp_run unmonitored _ g tt
           (fun _ g' _ => g' = g \/ exists s t a, g' = remembered s t a g)).
  unfold_youtube. wp_walk easy_guard; first [left; reflexivity | right; eauto].
Qed.

(** X1.  The page keeps its three results together: if the session state
    holds the transcription, the summary and the audio all three or none of
    them, it still does after any number of executions of the script,
    whatever the visitor does and the libraries answer. *)
Theorem results_are_stored_together :
  forall (H : World) n g w,
    stored_together g -> stored_together (glob (YouTube.session n g w)).
Proof.
  intros H n. induction n as [|n IH]; intros g w Hg; simpl; [exact Hg|].
  unfold bind. simpl. apply IH.
  destruct (notebook_remembers g w) as [->|[s [t [a ->]]]]; [exact Hg|].
  intros k k' _ Hk' _. apply remembered_is_stored, Hk'.
Qed.

Lemma results_are_stored_together_witness :
  stored_together (glob (YouTube.session (H := returning_visitor) 2 empty_globals false)).
Proof.
  apply (results_are_stored_together returning_visitor 2 empty_globals false).
  intros k k' _ _ [v Hv]. simpl in Hv. rewrite lookup_empty in Hv. discriminate Hv.
Defined.

(** X2.  Along a session the page never touches the environment and never
    removes a key from the session state: what an execution stored is there
    for every later one. *)
Theorem session_only_adds :
  forall (H : World) n g w,
    environ (glob (YouTube.session n g w)) = environ g
    /\ forall k, is_Some (session_state g !! k) ->
                 is_Some (session_state (glob (YouTube.session n g w)) !! k).
Proof.
  intros H n. induction n as [|n IH]; intros g w; simpl; [auto|].
  unfold bind. simpl.
  destruct (IH (glob (YouTube.notebook g w)) (world (YouTube.notebook g w)))
    as [He Hk].
  split.
  - rewrite He.
    destruct (notebook_remembers g w) as [E|[s [t [a E]]]]; rewrite E; reflexivity.
  - intros k Hs. apply Hk.
    destruct (notebook_remembers g w) as [E|[s [t [a E]]]]; rewrite E;
      [exact Hs|apply remembered_keeps, Hs].
Qed.

Lemma raised_in_trace (tr : list event) q e :
  final raise_monitor q tr = Some e ->
  q = Some e \/ exists op, In (op, Raised e) tr.
Proof.
  revert q. induction tr as [|[op r] tr IH]; intros q Hf; [left; exact Hf|].
  unfold final in Hf. simpl in Hf. apply IH in Hf. destruct Hf as [Hq|[op' Hin]].
  - destruct r as [v|e']; simpl in Hq; [left; exact Hq|].
    injection Hq as <-. right. exists op. left. reflexivity.
  - right. exists op'. right. exact Hin.
Qed.

Ltac no_key_error Hg :=
  exfalso;
  match goal with
  | Hb : bool_decide _ = true, Hn : session_state _ !! ?k = None |- _ =>
      apply bool_decide_eq_true_1 in Hb;
      let Hv := fresh "Hv" in
      destruct (Hg "transcription" k) as [? Hv];
      [simpl; tauto | simpl; tauto | exact Hb | rewrite Hn in Hv; discriminate Hv]
  end.

(** X3.  With the three results stored together or not at all, [main] never
    fails on a missing key: an exception that ends it is one of Python's own
    type, value, attribute or index errors or was raised by an external
    operation of its trace.  The condition matters: with a transcription
    stored alone, [main] ends in [KeyError] when the button is not pressed. *)
Theorem page_finds_what_it_stored :
  (forall (H : World) g w e,
      stored_together g ->
      res (YouTube.main g w) = Exn e ->
      In e own_errors \/ exists op, In (op, Raised e) (emitted (YouTube.main g w)))
  /\ res (YouTube.main (H := silent_world) half_stored tt) = Exn "KeyError".
Proof.
  split; [|reflexivity].
  intros H g w e Hg.
  assert (Hwp : wp raise_monitor YouTube.main g None
                  (fun o _ q => forall e, o = Exn e -> In e own_errors \/ q = Some e)).
  { unfold_functions.
    wp_walk_precise ltac:(reflexivity);
      simpl;
      first [ intros e' E; discriminate E
            | intros e' E; injection E as <-;
              first [left; simpl; tauto | right; reflexivity]
            | no_key_error Hg ]. }
  destruct (Hwp w) as [_ Hpost]. intros Hres.
  destruct (Hpost e Hres) as [Hown|Hq]; [left; exact Hown|right].
  apply raised_in_trace in Hq. destruct Hq as [Hq|Hq]; [discriminate Hq|exact Hq].
Qed.

Lemma page_finds_what_it_stored_witness :
  exists op, In (op, Raised "RuntimeError")
               (emitted (YouTube.main (H := failing_world) empty_globals tt)).
Proof.
  destruct page_finds_what_it_stored as [Hmain _].
  destruct (Hmain failing_world empty_globals tt "RuntimeError") as [Hown|Hop].
  - intros k k' _ _ [v Hv]. simpl in Hv. rewrite lookup_empty in Hv. discriminate Hv.
  - reflexivity.
  - simpl in Hown. exfalso.
    repeat (destruct Hown as [Hown|Hown]; [discriminate Hown|]). exact Hown.
  - exact Hop.
Defined.

(** X4.  The page dispatches only after the visitor has uploaded a voice
    sample, typed a URL and pressed the button, each answered with a true
    value, and the URL it hands to the workflow is the one typed. *)
Theorem dispatch_follows_the_visitor :
  forall (H : World) g w,
    along visit_monitor (Visit None None None) (emitted (YouTube.notebook g w)).
Proof.
  intros H g w.
  apply (wp_run visit_monitor _ g (Visit None None None) (fun _ _ _ => True)).
  unfold_youtube.
  wp_walk_precise
    ltac:(simpl; try exact I;
          repeat match goal with
                 | Hb : _ && _ = true |- _ => apply andb_prop in Hb; destruct Hb
                 end;
          try (do 3 eexists; repeat split; try reflexivity; try eassumption;
               eexists; reflexivity));
    exact I.
Qed.

(** X5.  What [process_input] stores is what it retrieved: when it writes to
    the session state, the value read as [result.result] (or the tuple the
    library made of it) unpacks into exactly three items, stored in order
    under ["summary"], ["transcription"] and ["audio_file_content"]. *)
Theorem retrieved_result_is_stored :
  forall (H : World) speaker_file speaker_file_path youtube_url g w,
    let r := YouTube.process_input speaker_file speaker_file_path youtube_url g w in
    glob r = g
    \/ exists s t a v,
        glob r = remembered s t a g
        /\ final result_monitor None (emitted r) = Some v
        /\ items_of v = Some [s; t; a]
        /\ session_state (glob r) !! "summary" = Some s
        /\ session_state (glob r) !! "transcription" = Some t
        /\ session_state (glob r) !! "audio_file_content" = Some a.
Proof.
  intros H sf path url g w.
  apply (wp_run result_monitor _ g None
           (fun _ g' q =>
              g' = g
              \/ exists s t a v,
                  g' = remembered s t a g /\ q = Some v /\ items_of v = Some [s; t; a]
                  /\ session_state g' !! "summary" = Some s
                  /\ session_state g' !! "transcription" = Some t
                  /\ session_state g' !! "audio_file_content" = Some a)).
  unfold_functions.
  wp_walk_precise ltac:(exact I);
    first [ left; reflexivity
          | right; do 4 eexists;
            split; [reflexivity|];
            split; [reflexivity|];
            split; [first [eassumption | subst; reflexivity]|];
            unfold set_session; simpl; simplify_map_eq; auto ].
Qed.


(** X8.  When the session state holds a summary and a transcription, the
    text [main] shows before any retrieval of this execution has returned is
    the stored summary or the stored transcription, nothing else. *)
Theorem stored_result_is_shown_again :
  forall (H : World) g w s t,
    session_state g !! "summary" = Some s ->
    session_state g !! "transcription" = Some t ->
    along (redisplay_monitor s t) false (emitted (YouTube.main g w)).
Proof.
  intros H g w s t Hs Ht.
  apply (wp_run (redisplay_monitor s t) _ g false (fun _ _ _ => True)).
  unfold_functions.
  wp_walk_precise
    ltac:(simpl;
          first [ exact I
                | intros E; discriminate E
                | intros _; first [left; congruence | right; congruence] ]);
    exact I.
Qed.

Lemma stored_result_is_shown_again_witness :
  along (redisplay_monitor (PStr "a summary") (PStr "a transcription")) false
    (emitted (YouTube.main (H := silent_world)
                (remembered (PStr "a summary") (PStr "a transcription") (PObj 3)
                   empty_globals) tt)).
Proof.
  apply (stored_result_is_shown_again silent_world); reflexivity.
Defined.

(** ** The tasks of the YouTube workflow *)



(** X10.  [text_to_speech_voice_clone] writes the speaker's bytes to
    ["speaker.wav"] before it constructs the model, has agreed to the terms
    of service (COQUI_TOS_AGREED is ["1"]) whenever the constructor has been
    called, asks the model it constructed to speak [text] into
    [output_file] with ["speaker.wav"] as voice, opens [output_file] for
    reading only after that call returned, and returns what it read. *)
Theorem voice_is_cloned_from_the_sample :
  forall (H : World) text speaker_content output_file g w,
    let r := YouTube.text_to_speech_voice_clone text speaker_content output_file g w in
    let q := final (voice_monitor text speaker_content output_file) silent_voice
               (emitted r) in
    along (voice_monitor text speaker_content output_file) silent_voice (emitted r)
    /\ (constructed q = true ->
        environ (glob r) !! "COQUI_TOS_AGREED" = Some (PStr "1"))
    /\ (forall v, res r = Ok v -> voiced q = Some v /\ synthesized q = true).
Proof.
  intros H text speaker out g w.
  apply (wp_run (voice_monitor text speaker out) _ g silent_voice
           (fun o g' q =>
              (constructed q = true ->
               environ g' !! "COQUI_TOS_AGREED" = Some (PStr "1"))
              /\ (forall v, o = Ok v -> voiced q = Some v /\ synthesized q = true))).
  unfold_functions.
  wp_walk_precise
    ltac:(simpl; first [exact I | reflexivity | left; split; reflexivity
                       | right; split; reflexivity
                       | repeat split; reflexivity]);
    simpl;
    (split;
     [ first [ intros E; discriminate E
             | intros _; unfold set_environ; simpl; apply lookup_insert_eq ]
     | intros v' E; first [discriminate E | injection E as <-]; split; reflexivity ]).
Qed.

Lemma voice_is_cloned_from_the_sample_witness :
  environ (glob (YouTube.text_to_speech_voice_clone (H := counting_world)
                   (PStr "a summary") (PObj 7) (PStr "out.wav") empty_globals O))
    !! "COQUI_TOS_AGREED" = Some (PStr "1").
Proof.
  destruct (voice_is_cloned_from_the_sample counting_world
              (PStr "a summary") (PObj 7) (PStr "out.wav") empty_globals O)
    as [_ [Hc _]].
  apply Hc. reflexivity.
Defined.

(** X11.  [load_audio] writes exactly the bytes it was given to the path
    [os.path.join] returned, opened for binary writing, loads the audio from
    that same path once the write has returned, and returns what
    [AudioSegment.from_file] returned. *)
Theorem audio_is_loaded_from_the_file_written :
  forall (H : World) input_file_content g w,
    let r := YouTube.load_audio input_file_content g w in
    let q := final (load_audio_monitor input_file_content) (Audio None false None)
               (emitted r) in
    along (load_audio_monitor input_file_content) (Audio None false None) (emitted r)
    /\ forall v, res r = Ok v -> loaded q = Some v.
Proof.
  intros H content g w.
  apply (wp_run (load_audio_monitor content) _ g (Audio None false None)
           (fun o _ q => forall v, o = Ok v -> loaded q = Some v)).
  unfold_functions.
  wp_walk_precise
    ltac:(simpl; first [exact I | reflexivity | eexists; split; reflexivity
                       | eexists; repeat split; reflexivity]);
    simpl; intros v' E; first [discriminate E | injection E as <-]; reflexivity.
Qed.

Lemma audio_is_loaded_from_the_file_written_witness :
  res (YouTube.load_audio (H := counting_world) (PObj 9) empty_globals O)
  = Ok (PObj 4).
Proof.
  destruct (audio_is_loaded_from_the_file_written counting_world (PObj 9)
              empty_globals O) as [_ Hv].
  specialize (Hv (PObj 4) eq_refl). reflexivity.
Defined.



(** ** How the notebooks wire tasks, executors and transfers *)

Ltac executor_guard :=
  simpl;
  (split;
   [ let E := fresh "E" in
     intros ? E; first [discriminate E | injection E as <-; reflexivity]
   | let E := fresh "E" in
     intros E; first
       [ discriminate E
       | eexists; split; [reflexivity|];
         split;
         [ first [ intros _; simpl; tauto
                 | let Hx := fresh "Hx" in intros [? Hx]; discriminate Hx ]
         | first [ intros _; eexists; reflexivity
                 | let Hin := fresh "Hin" in
                   intros Hin; simpl in Hin; exfalso;
                   repeat (destruct Hin as [Hin|Hin]; [discriminate Hin|]);
                   exact Hin ] ] ] ]).

(** ** The grayscale task *)

Section MoreRules.
Context `{World} (mon : monitor).

(** Subscripting with a tuple of slices either raises or asks the library. *)
Lemma wp_py_getitem_tuple recv ks g (q : mstate mon) post :
  post (Exn "TypeError") g q ->
  (forall r, mguard mon q (GetItem recv (PTuple ks), r)
             /\ post (outcome_of r) g (mstep mon q (GetItem recv (PTuple ks), r))) ->
  wp mon (py_getitem recv (PTuple ks)) g q post.
Proof.
  intros He Ha. unfold py_getitem.
  destruct recv; simpl; try (apply wp_raise, He). apply wp_ext, Ha.
Qed.

(** Subscripting with an integer: Python indexes its own sequences and asks
    the library for the item of a library object. *)
Lemma wp_py_getitem_int recv i g (q : mstate mon) post :
  (forall l v, items_of recv = Some l -> py_index l i = Some v -> post (Ok v) g q) ->
  (forall e, In e own_errors -> post (Exn e) g q) ->
  (items_of recv = None ->
   forall r, mguard mon q (GetItem recv (PInt i), r)
             /\ post (outcome_of r) g (mstep mon q (GetItem recv (PInt i), r))) ->
  wp mon (py_getitem recv (PInt i)) g q post.
Proof.
  intros Hok Herr Ha. unfold py_getitem.
  destruct recv; simpl; try (apply wp_raise, Herr; simpl; tauto).
  - destruct (py_index (chars s) i) as [v|] eqn:E;
      [apply wp_ret; eapply Hok; [reflexivity|exact E]
      |apply wp_raise, Herr; simpl; tauto].
  - destruct (py_index items i) as [v|] eqn:E;
      [apply wp_ret; eapply Hok; [reflexivity|exact E]
      |apply wp_raise, Herr; simpl; tauto].
  - destruct (py_index items i) as [v|] eqn:E;
      [apply wp_ret; eapply Hok; [reflexivity|exact E]
      |apply wp_raise, Herr; simpl; tauto].
  - apply wp_ext, Ha. reflexivity.
Qed.
End MoreRules.

Ltac wp_step_gray guard_tac :=
  lazymatch goal with
  | |- wp _ (py_getitem _ (PTuple _)) _ _ _ =>
      apply wp_py_getitem_tuple; [|intros [?|?]; (split; [guard_tac|])]
  | _ => wp_step_precise guard_tac
  end.

Ltac wp_walk_gray guard_tac := repeat (simpl; wp_step_gray guard_tac).

(** X15.  Given the two transfers as pairs of paths, [to_grayscale] reads the
    image from the local end of the first pair, takes all rows and columns
    and the first three channels of the image it read, converts exactly
    those channels, and saves exactly the converted image, in mode ["L"], to
    the local end of the second pair; it returns [None], and only after the
    image has been saved. *)
Theorem grayscale_reads_the_download_and_writes_the_upload :
  forall (H : World) remote_from local_to local_from remote_to g w,
    let files := PList [PTuple [remote_from; local_to];
                        PTuple [local_from; remote_to]] in
    let r := S3Transfer.to_grayscale files g w in
    let q := final (conversion_monitor local_to local_from)
               (Gray None None None false) (emitted r) in
    along (conversion_monitor local_to local_from) (Gray None None None false)
      (emitted r)
    /\ forall v, res r = Ok v -> v = PNone /\ saved q = true.
Proof.
  intros H s1 d1 s2 d2 g w files.
  apply (wp_run (conversion_monitor d1 s2) _ g (Gray None None None false)
           (fun o _ q => forall v, o = Ok v -> v = PNone /\ saved q = true)).
  unfold S3Transfer.to_grayscale, files.
  wp_walk_gray
    ltac:(simpl; first [exact I | reflexivity | split; reflexivity
                       | eexists; repeat split; reflexivity]);
    simpl; intros v' E; first [discriminate E | injection E as <-];
    split; reflexivity.
Qed.

Lemma grayscale_reads_the_download_and_writes_the_upload_witness :
  res (S3Transfer.to_grayscale (H := counting_world)
         (PList [PTuple [PStr "s3://bucket/in.png"; PStr "/tmp/in.png"];
                 PTuple [PStr "/tmp/out.png"; PStr "s3://bucket/out.png"]])
         empty_globals O)
  = Ok PNone.
Proof.
  destruct (grayscale_reads_the_download_and_writes_the_upload counting_world
              (PStr "s3://bucket/in.png") (PStr "/tmp/in.png")
              (PStr "/tmp/out.png") (PStr "s3://bucket/out.png") empty_globals O)
    as [_ Hv].
  destruct (Hv PNone eq_refl) as [_ _]. reflexivity.
Defined.

(** X16.  Without two transfers [to_grayscale] never saves an image and
    never returns: called with its default [files=None], as
    [process_s3_data] calls it, it raises [TypeError], and with an empty
    list [IndexError], before any library call; with a single transfer it
    fails after reading and converting. *)
Theorem grayscale_needs_both_transfers :
  forall (H : World) files g w,
    too_few_transfers files ->
    let r := S3Transfer.to_grayscale files g w in
    along never_saves tt (emitted r)
    /\ (forall v, res r <> Ok v)
    /\ (files = PNone ->
        r = Ran (Exn "TypeError") g w [] /\ S3Transfer.process_s3_data g w = r)
    /\ (files = PList [] -> r = Ran (Exn "IndexError") g w []).
Proof.
  intros H files g w Hfew r.
  assert (Hwp : wp never_saves (S3Transfer.to_grayscale files) g tt
                  (fun o _ _ => forall v, o <> Ok v)).
  { unfold S3Transfer.to_grayscale.
    destruct Hfew as [->|[l [-> Hl]]].
    - simpl. apply wp_bind, wp_raise. discriminate.
    - destruct l as [|x [|y l]]; [| |simpl in Hl; lia].
      + simpl. apply wp_bind, wp_raise. discriminate.
      + wp_walk_gray ltac:(reflexivity); simpl; discriminate. }
  destruct (Hwp w) as [Ha Hp].
  split; [exact Ha|]. split; [exact Hp|].
  split; intros ->; [split|]; reflexivity.
Qed.

Lemma grayscale_needs_both_transfers_witness :
  res (S3Transfer.to_grayscale (H := counting_world)
         (PList [PTuple [PStr "s3://bucket/in.png"; PStr "/tmp/in.png"]])
         empty_globals O)
  = Exn "IndexError".
Proof.
  destruct (grayscale_needs_both_transfers counting_world
              (PList [PTuple [PStr "s3://bucket/in.png"; PStr "/tmp/in.png"]])
              empty_globals O) as [_ _].
  - right. eexists. split; [reflexivity|]. simpl. lia.
  - reflexivity.
Defined.

(** ** Listing the requirements *)

Lemma listing_loop `{World} lines g q post :
  pending q = Some lines -> stripped q = None ->
  (forall q', pending q' = Some [] -> post (Ok tt) g q') ->
  (forall e q', post (Exn e) g q') ->
  wp listing_monitor
    (for_each lines (fun line _ =>
                       s <- py_method line "rstrip" [] [] ;;
                       ext (Call "print" [s] []) ;;;
                       ret tt) tt) g q post.
Proof.
  intros Hp Hs Hok Herr. revert q Hp Hs.
  induction lines as [|line rest IH]; intros q Hp Hs; simpl.
  - apply wp_ret, Hok, Hp.
  - destruct q as [p s]. simpl in Hp, Hs. subst p s.
    apply wp_bind, wp_bind, wp_py_method; [apply Herr|].
    intros [v|e]; (split; [simpl; do 2 eexists; repeat split; reflexivity|]);
      simpl; [|apply Herr].
    apply wp_bind, wp_ext.
    intros [u|e]; (split; [simpl; eexists; split; reflexivity|]);
      simpl; [|apply Herr].
    apply wp_ret. apply IH; reflexivity.
Qed.



(** ** Gradient descent *)

Lemma wp_training_descent `{World} cost opt p n g (q : descent_state) post :
  optimizer q = Some opt -> current q = Some p -> stepping q = true ->
  (forall p' costs q',
      optimizer q' = Some opt -> seed q' = seed q -> current q' = Some p' ->
      stepping q' = true -> rounds q' = (rounds q + Z.to_nat n)%nat ->
      List.length costs = Z.to_nat n ->
      post (Ok (PTuple [p'; PList (range_list n); PList costs])) g q') ->
  (forall e q', post (Exn e) g q') ->
  wp (descent_monitor cost) (PennyLane.training opt p cost (PInt n)) g q post.
Proof.
  intros Ho Hc Hs Hok Herr. unfold PennyLane.training. simpl py_range.
  apply wp_bind, wp_ret. apply wp_bind.
  eapply wp_for_each
    with (inv := fun pre acc g' q' =>
                   g' = g /\ optimizer q' = Some opt /\ seed q' = seed q
                   /\ current q' = Some (fst (fst acc)) /\ stepping q' = true
                   /\ rounds q' = (rounds q + List.length pre)%nat
                   /\ snd (fst acc) = pre
                   /\ List.length (snd acc) = List.length pre).
  - simpl. repeat split; auto.
  - intros pre i [[p' ts] cs] g' q' (-> & Ho' & Hseed & Hc' & Hs' & Hr & Hts & Hcs).
    simpl in Hc', Hts, Hcs. unfold PennyLane.training_step.
    destruct q' as [o' sd' c' s' r']. simpl in Ho', Hseed, Hc', Hs', Hr. subst.
    apply wp_bind, wp_py_method; [apply Herr|].
    intros [v|e]; (split; [simpl; repeat split; eauto|]); simpl; [|apply Herr].
    apply wp_bind, wp_py_call; [apply Herr|].
    intros [c|e]; (split; [simpl; repeat split; eauto|]); simpl; [|apply Herr].
    apply wp_ret. simpl. rewrite !length_app. simpl.
    repeat split; try reflexivity; lia.
  - intros [[p' ts] cs] g' q' (-> & Ho' & Hseed & Hc' & Hs' & Hr & Hts & Hcs).
    simpl in Hc', Hts, Hcs. subst ts. apply wp_ret. apply Hok; auto.
    + rewrite Hr. unfold range_list. rewrite length_map, length_seq. reflexivity.
    + rewrite Hcs. unfold range_list. rewrite length_map, length_seq. reflexivity.
Qed.

(** X18.  [training] with an integer number of steps does nothing but
    alternate [opt.step(cost, params)] and [cost(params)]: every step is
    asked of the optimizer it was given, on the parameters the previous step
    returned (the initial ones at first), every cost is evaluated on the
    parameters the step just returned, and a run that returns has made
    exactly [steps] rounds and returns the parameters of the last step. *)
Theorem training_alternates_step_and_cost :
  forall (H : World) opt init_params cost n g w,
    let r := PennyLane.training opt init_params cost (PInt n) g w in
    let q0 := Descent (Some opt) None (Some init_params) true O in
    let q := final (descent_monitor cost) q0 (emitted r) in
    along (descent_monitor cost) q0 (emitted r)
    /\ forall v, res r = Ok v ->
         rounds q = Z.to_nat n
         /\ exists params costs,
             current q = Some params
             /\ v = PTuple [params; PList (range_list n); PList costs].
Proof.
  intros H opt init cost n g w.
  apply (wp_run (descent_monitor cost) _ g (Descent (Some opt) None (Some init) true O)
           (fun o _ q =>
              forall v, o = Ok v ->
                rounds q = Z.to_nat n
                /\ exists params costs,
                    current q = Some params
                    /\ v = PTuple [params; PList (range_list n); PList costs])).
  apply wp_training_descent; try reflexivity.
  - intros p' costs q' _ _ Hc _ Hr _ v [= <-]. simpl in Hr. eauto.
  - intros e q' v E. discriminate E.
Qed.

Lemma training_alternates_step_and_cost_witness :
  rounds (final (descent_monitor (PFun "cost"))
            (Descent (Some (PObj 0)) None (Some (PInt 7)) true O)
            (emitted (PennyLane.training (H := counting_world) (PObj 0) (PInt 7)
                        (PFun "cost") (PInt 3) empty_globals O)))
  = 3%nat.
Proof.
  destruct (training_alternates_step_and_cost counting_world (PObj 0) (PInt 7)
              (PFun "cost") 3 empty_globals O) as [_ Hv].
  destruct (Hv _ eq_refl) as [Hr _]. exact Hr.
Defined.

(** X19.  The PennyLane [workflow] trains with the optimizer
    [qml.GradientDescentOptimizer] returned, starting from the array
    [np.array] made of its [init_params] with [requires_grad=True], with the
    notebook's [cost] as cost function, and does nothing else; it returns
    the triple of [training] unchanged: the parameters of the last step, the
    steps [0 .. steps-1] and one cost per step. *)
Theorem workflow_trains_with_what_it_constructed :
  forall (H : World) init_params n g w,
    let r := PennyLane.workflow init_params (PInt n) g w in
    let q0 := Descent None None None true O in
    let q := final (descent_monitor (PFun "cost")) q0 (emitted r) in
    along (descent_monitor (PFun "cost")) q0 (emitted r)
    /\ forall v, res r = Ok v ->
         seed q = Some init_params
         /\ rounds q = Z.to_nat n
         /\ exists params costs,
             current q = Some params
             /\ List.length costs = Z.to_nat n
             /\ v = PTuple [params; PList (range_list n); PList costs].
Proof.
  intros H init n g w.
  apply (wp_run (descent_monitor (PFun "cost")) _ g (Descent None None None true O)
           (fun o _ q =>
              forall v, o = Ok v ->
                seed q = Some init
                /\ rounds q = Z.to_nat n
                /\ exists params costs,
                    current q = Some params
                    /\ List.length costs = Z.to_nat n
                    /\ v = PTuple [params; PList (range_list n); PList costs])).
  unfold PennyLane.workflow, PennyLane.get_optimizer, PennyLane.get_init_params.
  apply wp_bind, wp_ext.
  intros [opt|e]; (split; [simpl; auto|]); simpl; [|discriminate].
  apply wp_bind, wp_ext.
  intros [p|e]; (split; [simpl; auto|]); simpl; [|discriminate].
  apply wp_bind, wp_training_descent; try reflexivity.
  - intros p' costs q' _ Hseed Hc _ Hr Hl. simpl in Hseed, Hr.
    apply wp_bind, wp_ret. simpl. apply wp_ret.
    intros v [= <-]. repeat split; eauto.
  - intros e q' v E. discriminate E.
Qed.

Lemma workflow_trains_with_what_it_constructed_witness :
  seed (final (descent_monitor (PFun "cost")) (Descent None None None true O)
          (emitted (PennyLane.workflow (H := counting_world)
                      (PList [PInt 1; PInt 2]) (PInt 2) empty_globals O)))
  = Some (PList [PInt 1; PInt 2]).
Proof.
  destruct (workflow_trains_with_what_it_constructed counting_world
              (PList [PInt 1; PInt 2]) 2 empty_globals O) as [_ Hv].
  destruct (Hv _ eq_refl) as [Hs _]. exact Hs.
Defined.

(** ** The cost function *)

Section Arithmetic.
Context `{World} (mon : monitor).

(** [a - b]: Python subtracts its own integers and asks the library when one
    side is the library's. *)
Lemma wp_py_sub a b g (q : mstate mon) post :
  (forall i j, as_int a = Some i -> as_int b = Some j ->
               post (Ok (PInt (i - j))) g q) ->
  post (Exn "TypeError") g q ->
  (forall r, mguard mon q (Call "operator.sub" [a; b] [], r)
             /\ post (outcome_of r) g (mstep mon q (Call "operator.sub" [a; b] [], r))) ->
  wp mon (py_sub a b) g q post.
Proof.
  intros Hok Herr Ha. unfold py_sub.
  destruct (is_external a || is_external b); [apply wp_ext, Ha|].
  destruct (as_int a) as [i|]; [|apply wp_raise, Herr].
  destruct (as_int b) as [j|]; [|apply wp_raise, Herr].
  apply wp_ret, Hok; reflexivity.
Qed.

(** [a ** 2] *)
Lemma wp_py_pow_two a g (q : mstate mon) post :
  (forall i, as_int a = Some i -> post (Ok (PInt (i ^ 2))) g q) ->
  post (Exn "TypeError") g q ->
  (forall r, mguard mon q (Call "operator.pow" [a; PInt 2] [], r)
             /\ post (outcome_of r) g
                  (mstep mon q (Call "operator.pow" [a; PInt 2] [], r))) ->
  wp mon (py_pow a (PInt 2)) g q post.
Proof.
  intros Hok Herr Ha. unfold py_pow.
  destruct (is_external a || is_external (PInt 2)); [apply wp_ext, Ha|].
  destruct (as_int a) as [i|]; simpl; [|apply wp_raise, Herr].
  apply wp_ret, Hok; reflexivity.
Qed.
End Arithmetic.

Ltac cost_guard :=
  simpl;
  first [ exact I | reflexivity | split; reflexivity
        | eexists; split; reflexivity ].

Ltac cost_end :=
  simpl;
  let v := fresh "v" in
  let E := fresh "E" in
  intros v E; discriminate E.

Ltac wp_ext_cost :=
  apply wp_ext; intros [?|?]; (split; [cost_guard|]); simpl; [|cost_end].

Ltac square_tail :=
  apply wp_py_pow_two;
  [ let k := fresh "k" in
    let Hk := fresh "Hk" in
    let r := fresh "r" in
    let E := fresh "E" in
    intros k Hk r E; injection E as <-; split; [reflexivity|];
    unfold is_square; simpl; eauto
  | cost_end
  | intros [?|?]; (split; [cost_guard|]); simpl; [|cost_end];
    let r := fresh "r" in
    let E := fresh "E" in
    intros r E; injection E as <-; split; reflexivity ].

Ltac difference_tail :=
  apply wp_bind, wp_py_sub;
  [ let i := fresh "i" in
    let j := fresh "j" in
    let Hi := fresh "Hi" in
    let Hj := fresh "Hj" in
    intros i j Hi Hj; apply wp_bind, wp_ext;
    intros [?|?];
    (split;
     [ simpl; eexists; split; [reflexivity|];
       unfold is_difference; simpl; do 4 eexists; eauto |]);
    simpl; [|cost_end]; square_tail
  | cost_end
  | intros [?|?]; (split; [cost_guard|]); simpl; [|cost_end];
    apply wp_bind, wp_ext;
    intros [?|?]; (split; [cost_guard|]); simpl; [|cost_end];
    square_tail ].



(** ** The choosing-executors workflow on other inputs *)

(** X21.  The choosing-executors [workflow] treats booleans as the
    integers 0 and 1; on [None], strings, lists, tuples, slices and
    functions it raises [TypeError] without any external operation and with
    the state unchanged; on a float or a library object it is exactly one
    multiplication of the value by itself, carried out by the library. *)
Theorem workflow_on_other_inputs :
  forall (H : World) g w,
    (forall b : bool,
        ChoosingExecutors.workflow (PBool b) g w
        = Ran (Ok (PInt (if b then 1 else 0))) g w [])
    /\ (forall x, is_external x = false -> as_int x = None ->
                  ChoosingExecutors.workflow x g w = Ran (Exn "TypeError") g w [])
    /\ (forall x, is_external x = true ->
                  ChoosingExecutors.workflow x g w
                  = ext (Call "operator.mul" [x; x] []) g w).
Proof.
  intros H g w. split; [|split].
  - intros []; reflexivity.
  - intros x Hx Hi.
    unfold ChoosingExecutors.workflow, ChoosingExecutors.identity,
      ChoosingExecutors.square, bind, ret, py_mul. simpl.
    rewrite Hx, Hi. reflexivity.
  - intros x Hx.
    unfold ChoosingExecutors.workflow, ChoosingExecutors.identity,
      ChoosingExecutors.square, bind, ret, py_mul. simpl.
    rewrite Hx. simpl. unfold ext.
    destruct (ext_call (Call "operator.mul" [x; x] []) w) as [[v|e] w'];
      reflexivity.
Qed.

Lemma workflow_on_other_inputs_witness :
  res (ChoosingExecutors.workflow (H := silent_world) (PStr "two") empty_globals tt)
  = Exn "TypeError"
  /\ emitted (ChoosingExecutors.workflow (H := counting_world) (PFloat 15 (-1))
               empty_globals O)
     = [(Call "operator.mul" [PFloat 15 (-1); PFloat 15 (-1)] [], Returned (PObj 0))].
Proof.
  split.
  - destruct (workflow_on_other_inputs silent_world empty_globals tt) as [_ [Hx _]].
    rewrite (Hx (PStr "two") eq_refl eq_refl). reflexivity.
  - destruct (workflow_on_other_inputs counting_world empty_globals O) as [_ [_ Hx]].
    rewrite (Hx (PFloat 15 (-1)) eq_refl). reflexivity.
Defined.

(** ** Witnesses of the provenance lemmas *)

Lemma optimisation_comes_from_the_library_witness :
  costs_seen (final training_monitor (Trained None [])
                (emitted (PennyLane.training (H := counting_world) (PObj 0) (PInt 7)
                            (PFun "cost") (PInt 2) empty_globals O)))
  = [PObj 1; PObj 3].
Proof.
  destruct (optimisation_comes_from_the_library (H := counting_world)
              (PObj 0) (PInt 7) (PFun "cost") (PInt 2) empty_globals O
              (PObj 2) (PList [PInt 0; PInt 1]) [PObj 1; PObj 3] eq_refl)
    as [_ Hc].
  symmetry. exact Hc.
Defined.

(** X22.  [transcribe_audio] exports the audio it was given to
    ["audio_file.wav"] as WAV, calls the pipeline it constructed on that
    same file name once the export has returned, and returns the item
    ["text"] of what the pipeline returned. *)
Theorem transcription_is_the_text_of_the_exported_audio :
  forall (H : World) audio_content g w,
    let r := YouTube.transcribe_audio audio_content g w in
    let q0 := Pipeline false None None None None in
    let q := final (transcribe_monitor audio_content) q0 (emitted r) in
    along (transcribe_monitor audio_content) q0 (emitted r)
    /\ forall v, res r = Ok v -> text_read q = Some v.
Proof.
  intros H audio g w.
  apply (wp_run (transcribe_monitor audio) _ g (Pipeline false None None None None)
           (fun o _ q => forall v, o = Ok v -> text_read q = Some v)).
  unfold_functions.
  wp_walk_precise
    ltac:(simpl; first [exact I | repeat split; reflexivity]);
    simpl; intros v' E; first [discriminate E | injection E as <-]; reflexivity.
Qed.

Lemma transcription_is_the_text_of_the_exported_audio_witness :
  res (YouTube.transcribe_audio (H := counting_world) (PObj 9) empty_globals O)
  = Ok (PObj 3).
Proof.
  destruct (transcription_is_the_text_of_the_exported_audio counting_world (PObj 9)
              empty_globals O) as [_ Hv].
  specialize (Hv (PObj 3) eq_refl). reflexivity.
Defined.

(** X23.  [summarize_transcription] calls the summarisation pipeline it
    constructed on exactly the transcription it was given and returns the
    item ["summary_text"] of the first item of what the pipeline returned,
    having called no method. *)
Theorem summary_is_the_first_summary_text :
  forall (H : World) transcription g w,
    let r := YouTube.summarize_transcription transcription g w in
    let q0 := Pipeline false None None None None in
    let q := final (summary_monitor transcription) q0 (emitted r) in
    along (summary_monitor transcription) q0 (emitted r)
    /\ forall v, res r = Ok v -> text_read q = Some v.
Proof.
  intros H t g w.
  apply (wp_run (summary_monitor t) _ g (Pipeline false None None None None)
           (fun o _ q => forall v, o = Ok v -> text_read q = Some v)).
  unfold YouTube.summarize_transcription.
  apply wp_bind, wp_ext.
  intros [p|e]; (split; [exact I|]); simpl; [|discriminate].
  apply wp_bind, wp_py_call; [discriminate|].
  intros [out|e]; (split; [simpl; split; reflexivity|]); simpl; [|discriminate].
  apply wp_bind, wp_py_getitem_int.
  - intros l x Hl Hx.
    apply wp_bind, wp_py_getitem_str; [discriminate|].
    intros [s|e];
      (split; [simpl; split; [unfold first_of; simpl; rewrite Hl; exact Hx
                             |reflexivity]|]);
      simpl; [|discriminate].
    apply wp_ret. intros v [= <-]. reflexivity.
  - intros e _. discriminate.
  - intros Hn [x|e]; (split; [simpl; split; reflexivity|]); simpl; [|discriminate].
    apply wp_bind, wp_py_getitem_str; [discriminate|].
    intros [s|e];
      (split; [simpl; split; [unfold first_of; simpl; rewrite Hn; reflexivity
                             |reflexivity]|]);
      simpl; [|discriminate].
    apply wp_ret. intros v [= <-]. reflexivity.
Qed.

Lemma summary_is_the_first_summary_text_witness :
  res (YouTube.summarize_transcription (H := counting_world) (PStr "a transcription")
         empty_globals O)
  = Ok (PObj 3).
Proof.
  destruct (summary_is_the_first_summary_text counting_world (PStr "a transcription")
              empty_globals O) as [_ Hv].
  specialize (Hv (PObj 3) eq_refl). reflexivity.
Defined.

(** ** Plotting the retrieved result *)

Ltac known_items :=
  repeat match goal with
         | E : ?x = PTuple _ |- _ => subst x
         | Hi : items_of ?v = _ |- context [items_of ?v] => rewrite Hi
         end.

Ltac plot_guard :=
  simpl; known_items; simpl;
  first [ exact I | split; reflexivity
        | eexists; split; reflexivity
        | do 2 eexists; reflexivity
        | do 3 eexists; split; reflexivity
        | match goal with
          | |- match ?x with Some _ => True | None => _ end =>
              destruct x; [exact I | eexists; split; reflexivity]
          end ].

(** ** Two monitors side by side *)

Lemma final_both (m1 m2 : monitor) q1 q2 tr :
  final (both m1 m2) (q1, q2) tr = (final m1 q1 tr, final m2 q2 tr).
Proof.
  revert q1 q2. induction tr as [|ev tr IH]; intros q1 q2; [reflexivity|].
  unfold final in *. simpl. apply IH.
Qed.

Lemma along_both (m1 m2 : monitor) q1 q2 tr :
  along (both m1 m2) (q1, q2) tr <-> along m1 q1 tr /\ along m2 q2 tr.
Proof.
  revert q1 q2. induction tr as [|ev tr IH]; intros q1 q2; simpl; [tauto|].
  rewrite IH. tauto.
Qed.

(** ** The order of the steps *)

Ltac order_guard :=
  simpl;
  (split;
   [ first [ exact I
           | split; [simpl; lia|];
             let E := fresh "E" in
             intros E; first [discriminate E | simpl; lia] ]
   | let E := fresh "E" in
     intros E;
     first [ discriminate E
           | left; reflexivity
           | right; left; reflexivity
           | right; right; simpl; left; split; [reflexivity|];
             first [left; reflexivity | right; reflexivity]
           | right; right; simpl; right; split; reflexivity ] ]).

Section Order.
Context `{World}.

Lemma listing_ordered g post :
  (forall l, post (Ok tt) g (Progress 0 false false [] None l None)) ->
  (forall e q, post (Exn e) g q) ->
  wp order_monitor PennyLane.print_requirements g start post.
Proof.
  intros Hok Herr. unfold PennyLane.print_requirements.
  apply wp_bind, wp_ext.
  intros [file|e]; (split; [order_guard|]); simpl; [|apply Herr].
  apply wp_bind.
  assert (Hloop : forall lines l,
             wp order_monitor
               (for_each lines (fun line _ =>
                                  s <- py_method line "rstrip" [] [] ;;
                                  ext (Call "print" [s] []) ;;;
                                  ret tt) tt) g
               (Progress 0 false false [] None l None) post).
  { induction lines as [|x rest IH]; intros l; simpl.
    - apply wp_ret, Hok.
    - apply wp_bind, wp_bind, wp_py_method; [apply Herr|].
      intros [s|e]; (split; [order_guard|]); simpl; [|apply Herr].
      apply wp_bind, wp_ext.
      intros [u|e]; (split; [order_guard|]); simpl; [|apply Herr].
      apply wp_ret, IH. }
  unfold py_iter.
  destruct file; simpl; try (apply wp_raise, Herr); try (apply wp_ret, Hloop).
  apply wp_bind, wp_ext.
  intros [t|e]; (split; [order_guard|]); simpl; [|apply Herr].
  destruct t; simpl; try (apply wp_raise, Herr). apply wp_ret, Hloop.
Qed.

Ltac order_end := simpl; first [exact I | discriminate | reflexivity | intros _; reflexivity].

Lemma choosing_executors_ordered g w : ordered_run ChoosingExecutors.notebook g w.
Proof.
  apply (wp_run order_monitor _ g start
           (fun o _ q => o = Ok tt -> taken q = every_step)).
  unfold ChoosingExecutors.notebook. wp_walk order_guard; order_end.
Qed.

Lemma s3_transfer_ordered g w : ordered_run S3Transfer.notebook g w.
Proof.
  apply (wp_run order_monitor _ g start
           (fun o _ q => o = Ok tt -> taken q = every_step)).
  unfold S3Transfer.notebook, S3Transfer.resolved. wp_walk order_guard; order_end.
Qed.

Lemma pennylane_ordered g w : ordered_run PennyLane.notebook g w.
Proof.
  apply (wp_run order_monitor _ g start
           (fun o _ q => o = Ok tt -> taken q = every_step)).
  unfold PennyLane.notebook. apply wp_bind, listing_ordered; [|discriminate].
  intros l.
  unfold PennyLane.photon_redirection, PennyLane.qubit_rotation.
  wp_walk order_guard; order_end.
Qed.

(** One execution of the page, in a session in which [carried] tells whether
    a result has been polled before. *)
Lemma youtube_ordered g c :
  stored_was_retrieved g c ->
  wp order_monitor YouTube.notebook g (begin c)
    (fun _ g' q' => stored_was_retrieved g' (c || polled q')).
Proof.
  intros Hinv. unfold_youtube. destruct c.
  - wp_walk order_guard; simpl; intros _; reflexivity.
  - wp_walk ltac:(first [ order_guard
                        | exfalso;
                          match goal with
                          | Hb : bool_decide _ = true |- _ =>
                              apply bool_decide_eq_true_1 in Hb;
                              apply Hinv in Hb; discriminate Hb
                          end ]);
      simpl; first [exact Hinv | intros _; reflexivity].
Qed.

Lemma youtube_session_ordered n g c w :
  stored_was_retrieved g c -> session_ordered n g w c.
Proof.
  revert g c w. induction n as [|n IH]; intros g c w Hinv; simpl; [exact I|].
  destruct (youtube_ordered g c Hinv w) as [Ha Hp]. split; [exact Ha|].
  apply IH. exact Hp.
Qed.

(** A completed execution in which the visitor was ready has taken every
    step. *)
Lemma youtube_takes_every_step g c w :
  stored_was_retrieved g c ->
  res (YouTube.notebook g w) = Ok tt ->
  ready (final visit_monitor nobody (emitted (YouTube.notebook g w))) = true ->
  taken (final order_monitor (begin c) (emitted (YouTube.notebook g w))) = every_step.
Proof.
  intros Hinv Hres Hready.
  destruct (wp_run (both visit_monitor order_monitor) YouTube.notebook g
              (nobody, begin c)
              (fun o _ q => o = Ok tt -> ready (fst q) = true ->
                            taken (snd q) = every_step) w) as [_ Hp].
  - unfold_youtube. destruct c.
    all: wp_walk_precise
           ltac:(split;
                 [ simpl; try exact I;
                   repeat match goal with
                          | Hb : _ && _ = true |- _ =>
                              apply andb_prop in Hb; destruct Hb
                          end;
                   try (do 3 eexists; repeat split; try reflexivity;
                        try eassumption; eexists; reflexivity)
                 | first [ order_guard
                         | exfalso;
                           match goal with
                           | Hb : bool_decide _ = true |- _ =>
                               apply bool_decide_eq_true_1 in Hb;
                               apply Hinv in Hb; discriminate Hb
                           end ] ]).
    all: simpl;
      let E := fresh "E" in
      let Hr := fresh "Hr" in
      intros E Hr;
      first [ discriminate E
            | reflexivity
            | exfalso; unfold ready in Hr; simpl in Hr;
              repeat match goal with
                     | Hb : _ = false |- _ => rewrite Hb in Hr
                     end;
              simpl in Hr; rewrite ?andb_false_r in Hr; discriminate Hr ].
  - rewrite final_both in Hp. simpl in Hp. apply Hp; assumption.
Qed.
End Order.



(** ** The page dispatches and retrieves *)

Section PageKeyed.
Context `{World}.

Ltac keyed_guard := simpl; try exact I; eauto.

Ltac visit_guard :=
  simpl; try exact I;
  repeat match goal with
         | Hb : _ && _ = true |- _ => apply andb_prop in Hb; destruct Hb
         end;
  try (do 3 eexists; repeat split; try reflexivity; try eassumption;
       eexists; reflexivity).

(** Given a voice sample and a URL, [process_input] that returns has
    dispatched once and retrieved once, by the id the dispatch returned. *)
Lemma process_input_retrieves speaker_file speaker_file_path youtube_url g w :
  truthy speaker_file = true -> truthy youtube_url = true ->
  let r := YouTube.process_input speaker_file speaker_file_path youtube_url g w in
  forall v, res r = Ok v ->
    exists id, final keyed_monitor nothing_dispatched (emitted r) = Keyed (Some id) 1.
Proof.
  intros Hs Hu.
  apply (wp_run keyed_monitor _ g nothing_dispatched
           (fun o _ q => forall v, o = Ok v -> exists id, q = Keyed (Some id) 1)).
  unfold_functions. rewrite Hs, Hu.
  wp_walk_precise keyed_guard;
    simpl; intros v' E; first [discriminate E | eexists; reflexivity].
Qed.

(** A completed execution of the page in which the visitor was ready has
    dispatched once and retrieved once, by the id the dispatch returned. *)
Lemma youtube_retrieves g w :
  res (YouTube.notebook g w) = Ok tt ->
  ready (final visit_monitor nobody (emitted (YouTube.notebook g w))) = true ->
  exists id, final keyed_monitor nothing_dispatched (emitted (YouTube.notebook g w))
             = Keyed (Some id) 1.
Proof.
  intros Hres Hready.
  destruct (wp_run (both visit_monitor keyed_monitor) YouTube.notebook g
              (nobody, nothing_dispatched)
              (fun o _ q => o = Ok tt -> ready (fst q) = true ->
                            exists id, snd q = Keyed (Some id) 1) w) as [_ Hp].
  - unfold_youtube.
    wp_walk_precise ltac:(split; [visit_guard | keyed_guard]).
    all: simpl;
      let E := fresh "E" in
      let Hr := fresh "Hr" in
      intros E Hr;
      first [ discriminate E
            | eexists; reflexivity
            | exfalso; unfold ready in Hr; simpl in Hr;
              repeat match goal with
                     | Hb : _ = false |- _ => rewrite Hb in Hr
                     end;
              simpl in Hr; rewrite ?andb_false_r in Hr; discriminate Hr ].
  - rewrite final_both in Hp. simpl in Hp. apply Hp; assumption.
Qed.
End PageKeyed.

(** C4.  In each notebook every [ct.get_result] call is made after a
    [ct.dispatch] call and passes, as its dispatch id, the very value that
    call returned; a run of the three scripts that completes has dispatched
    once and retrieved once.  For the Streamlit page this holds along a whole
    session, whatever the visitor does; an execution of the page that
    completes after the visitor has uploaded a sample, typed a URL and
    pressed the button has dispatched once and retrieved once by the id the
    dispatch returned, and so has every call of [process_input] that is
    given a sample and a URL and returns. *)
Theorem retrieval_keyed_by_dispatch_id :
  forall (H : World) g w,
    keyed_run ChoosingExecutors.notebook g w
    /\ keyed_run S3Transfer.notebook g w
    /\ keyed_run PennyLane.notebook g w
    /\ (forall n, along keyed_monitor nothing_dispatched
                    (emitted (YouTube.session n g w)))
    /\ (let r := YouTube.notebook g w in
        res r = Ok tt ->
        ready (final visit_monitor nobody (emitted r)) = true ->
        exists id, final keyed_monitor nothing_dispatched (emitted r)
                   = Keyed (Some id) 1)
    /\ (forall speaker_file speaker_file_path youtube_url v,
           truthy speaker_file = true -> truthy youtube_url = true ->
           let r := YouTube.process_input speaker_file speaker_file_path
                      youtube_url g w in
           res r = Ok v ->
           exists id, final keyed_monitor nothing_dispatched (emitted r)
                      = Keyed (Some id) 1).
Proof.
  intros H g w. split; [|split; [|split; [|split; [|split]]]].
  - apply choosing_executors_keyed.
  - apply s3_transfer_keyed.
  - apply pennylane_keyed.
  - intros n. apply youtube_session_keyed.
  - apply youtube_retrieves.
  - intros sf path url v Hs Hu r. apply process_input_retrieves; assumption.
Qed.

Lemma retrieval_keyed_by_dispatch_id_witness :
  final keyed_monitor nothing_dispatched
    (emitted (YouTube.notebook (H := studio_world) empty_globals tt))
  = Keyed (Some (PStr "5f0e220f-35dc-4a75-92c6-a00176f530e2")) 1.
Proof.
  destruct (retrieval_keyed_by_dispatch_id studio_world empty_globals tt)
    as [_ [_ [_ [_ [Hpage _]]]]].
  destruct Hpage as [id Hid].
  - vm_compute. reflexivity.
  - vm_compute. reflexivity.
  - vm_compute. reflexivity.
Defined.

(** ** Which functions compute a part of their result *)

Lemma final_returns tr q v :
  In v (final returns_monitor q tr) <-> In v q \/ In v (library_values tr).
Proof.
  revert q. induction tr as [|[op [x|e]] tr IH]; intros q; unfold final in *; simpl.
  - tauto.
  - rewrite IH. simpl. tauto.
  - apply IH.
Qed.

Lemma handed_down_final tr v :
  handed_down (final returns_monitor [] tr) v -> handed_down (library_values tr) v.
Proof.
  assert (Hon : forall x, handed_on (final returns_monitor [] tr) x ->
                          handed_on (library_values tr) x).
  { intros x [Hx|Hx]; [left; exact Hx|right].
    apply final_returns in Hx. destruct Hx as [[]|Hx]. exact Hx. }
  intros [Hv|[l [-> Hl]]]; [left; auto|right].
  exists l. split; [reflexivity|].
  eapply Forall_impl; [exact Hl|exact Hon].
Qed.

Ltac handed_down_end :=
  simpl;
  let v := fresh "v" in
  let E := fresh "E" in
  intros v E;
  first [ discriminate E
        | injection E as <-;
          first [ left; left; reflexivity
                | left; right; simpl; tauto
                | right; eexists; split; [reflexivity|];
                  repeat constructor; right; simpl; tauto ] ].

(** Apart from the computing ones, a function returns only what it was
    handed. *)
Lemma others_pass_on :
  forall nb name f, In (nb, name, f) all_functions -> ~ In (nb, name) computing ->
    only_passes_on f.
Proof.
  for_every_function
    ltac:(intros Hnot H args g w;
          first
            [ solve [exfalso; apply Hnot; simpl; tauto]
            | intros v Hv; apply handed_down_final; revert v Hv;
              apply (wp_run returns_monitor _ g []
                       (fun o _ q => forall v, o = Ok v -> handed_down q v));
              by_arity args; unfold_functions;
              wp_walk ltac:(exact I); handed_down_end ]).
Qed.

Ltac refute Hd :=
  vm_compute in Hd;
  let E := fresh "E" in
  let Hin := fresh "Hin" in
  let l := fresh "l" in
  let HF := fresh "HF" in
  destruct Hd as [[E|Hin]|[l [E HF]]];
  [ discriminate E
  | repeat (destruct Hin as [Hin|Hin]; [discriminate Hin|]); exact Hin
  | first [ discriminate E
          | injection E as <-;
            repeat match goal with
                   | HF' : Forall _ (_ :: _) |- _ =>
                       let Hx := fresh "Hx" in
                       apply Forall_cons_1 in HF'; destruct HF' as [Hx HF'];
                       try (destruct Hx as [Hx|Hx];
                            [ discriminate Hx
                            | repeat (destruct Hx as [Hx|Hx]; [discriminate Hx|]);
                              exact Hx ])
                   end ] ].

Lemma computing_functions_compute :
  forall nb name f, In (nb, name, f) all_functions -> In (nb, name) computing ->
    ~ only_passes_on f.
Proof.
  for_every_function
    ltac:(intros Hc Hp;
          first
            [ solve [exfalso; simpl in Hc;
                     repeat (destruct Hc as [Hc|Hc]; [discriminate Hc|]);
                     exact Hc]
            | idtac ]).
  - pose proof (Hp silent_world [PInt 1] empty_globals tt _ eq_refl) as Hd. refute Hd.
  - pose proof (Hp silent_world [PInt 3] empty_globals tt _ eq_refl) as Hd. refute Hd.
  - pose proof (Hp silent_world [PInt 2] empty_globals tt _ eq_refl) as Hd. refute Hd.
  - pose proof (Hp constant_world [PInt 3; PInt 1] empty_globals tt _ eq_refl) as Hd.
    refute Hd.
  - pose proof (Hp constant_world [PList [PInt 0; PInt 0]; PInt 0; PInt 0]
                  empty_globals tt _ eq_refl) as Hd.
    refute Hd.
  - pose proof (Hp silent_world [PNone; PInt 7; PNone; PInt 0] empty_globals tt _
                  eq_refl) as Hd.
    refute Hd.
  - pose proof (Hp counting_world [PInt 1; PInt 0] empty_globals O _ eq_refl) as Hd.
    refute Hd.
  - pose proof (Hp studio_world [] empty_globals tt _ eq_refl) as Hd. refute Hd.
Qed.



Section Files.
Context `{World}.

Lemma no_file_written_by_most :
  forall nb name f, In (nb, name, f) all_functions -> ~ In (nb, name) file_writers ->
    forall args g w, along no_file_written tt (emitted (f H args g w)).
Proof.
  for_every_function
    ltac:(intros Hnot args g w;
          first
            [ solve [exfalso; apply Hnot; simpl; tauto]
            | apply (wp_run no_file_written _ g tt (fun _ _ _ => True));
              by_arity args; unfold_functions;
              wp_walk ltac:(reflexivity); exact I ]).
Qed.

Lemma process_input_stores_retrieved speaker_file speaker_file_path youtube_url g w :
  let r := YouTube.process_input speaker_file speaker_file_path youtube_url g w in
  stored_after_retrieval g (glob r) (final last_retrieved None (emitted r)).
Proof.
  apply (wp_run last_retrieved _ g None (fun _ g' q => stored_after_retrieval g g' q)).
  unfold_functions.
  wp_walk ltac:(exact I);
    first [ left; reflexivity
          | right; do 4 eexists; split; [reflexivity|]; split; [reflexivity|];
            assumption ].
Qed.

Lemma main_stores_retrieved g w :
  let r := YouTube.main g w in
  stored_after_retrieval g (glob r) (final last_retrieved None (emitted r)).
Proof.
  apply (wp_run last_retrieved _ g None (fun _ g' q => stored_after_retrieval g g' q)).
  unfold_functions.
  wp_walk ltac:(exact I);
    first [ left; reflexivity
          | right; do 4 eexists; split; [reflexivity|]; split; [reflexivity|];
            assumption ].
Qed.
End Files.

Lemma file_writers_write :
  forall nb name, In (nb, name) file_writers ->
    exists f, In (nb, name, f) all_functions /\ may_write_file f.
Proof.
  intros nb name Hin. simpl in Hin.
  repeat (destruct Hin as [Hin|Hin]; [injection Hin as <- <-|]); [..|contradiction];
    eexists; (split; [unfold all_functions, tagged; simpl;
                      repeat first [left; reflexivity | right]|]).
  all: unfold may_write_file.
  - exists counting_world,
      [PList [PTuple [PStr "a"; PStr "b"]; PTuple [PStr "c"; PStr "d"]]],
      empty_globals, O.
    eexists. split; [vm_compute; do 3 right; left; reflexivity|reflexivity].
  - exists counting_world, [PStr "u"], empty_globals, O.
    eexists. split; [vm_compute; do 4 right; left; reflexivity|reflexivity].
  - exists counting_world, [PObj 9], empty_globals, O.
    eexists. split; [vm_compute; do 2 right; left; reflexivity|reflexivity].
  - exists counting_world, [PObj 9], empty_globals, O.
    eexists. split; [vm_compute; left; reflexivity|reflexivity].
  - exists counting_world, [PStr "t"; PObj 9; PStr "o"], empty_globals, O.
    eexists. split; [vm_compute; left; reflexivity|reflexivity].
  - exists counting_world, [PStr "u"; PStr "v"; PStr "o"], empty_globals, O.
    eexists. split; [vm_compute; do 4 right; left; reflexivity|reflexivity].
  - exists studio_world, [], empty_globals, tt.
    eexists. split; [vm_compute; do 3 right; left; reflexivity|reflexivity].
  - exists studio_world, [], empty_globals, tt.
    eexists. split; [vm_compute; do 2 right; left; reflexivity|reflexivity].
Qed.

Lemma mutators_change_state :
  forall nb name, In (nb, name) mutators ->
    exists f, In (nb, name, f) all_functions /\ changes_state f.
Proof.
  intros nb name Hin. simpl in Hin.
  repeat (destruct Hin as [Hin|Hin]; [injection Hin as <- <-|]); [..|contradiction];
    eexists; (split; [unfold all_functions, tagged; simpl;
                      repeat first [left; reflexivity | right]|]).
  all: unfold changes_state.
  - exists counting_world, [PStr "t"; PObj 9; PStr "o"], empty_globals, O.
    intros E. apply (f_equal (fun g => environ g !! "COQUI_TOS_AGREED")) in E.
    vm_compute in E. discriminate E.
  - exists counting_world, [PStr "u"; PStr "v"; PStr "o"], empty_globals, O.
    intros E. apply (f_equal (fun g => environ g !! "COQUI_TOS_AGREED")) in E.
    vm_compute in E. discriminate E.
  - exists studio_world, [PObj 1; PStr "speaker.wav"; PStr "https://youtu.be/demo"],
      empty_globals, tt.
    intros E. apply (f_equal (fun g => session_state g !! "summary")) in E.
    vm_compute in E. discriminate E.
  - exists studio_world, [], empty_globals, tt.
    intros E. apply (f_equal (fun g => session_state g !! "summary")) in E.
    vm_compute in E. discriminate E.
Qed.

(** C2, as the code has it.  Every function the notebooks define leaves
    the environment and the session state as it found them, whatever its
    arguments and whatever the world answers, except four, which do change
    them in some world: [text_to_speech_voice_clone], and the YouTube
    [workflow] that calls it, may set the environment variable
    [COQUI_TOS_AGREED] to ["1"] and change nothing else; [process_input],
    and [main] that calls it, store the transcription, the summary and the
    audio under their three keys of the session state, only after a
    [ct.get_result] call of that run has returned a true result, and change
    nothing else.  The other state the functions touch is the file system:
    eight functions do write files in some world ([to_grayscale],
    [download_video], [load_audio], [transcribe_audio],
    [text_to_speech_voice_clone], [upload_speaker_file], and the YouTube
    [workflow] and [main] that call them); no other function performs any
    operation that writes a file. *)
Theorem state_is_written_by_four_functions_only :
  forall (H : World) g w,
    (forall nb name f args,
        In (nb, name, f) all_functions -> ~ In (nb, name) mutators ->
        glob (f H args g w) = g)
    /\ (forall text speaker_content output_file,
           let r := YouTube.text_to_speech_voice_clone text speaker_content
                      output_file g w in
           glob r = g \/ glob r = agreed g)
    /\ (forall url user_voice_file output_file,
           let r := YouTube.workflow url user_voice_file output_file g w in
           glob r = g \/ glob r = agreed g)
    /\ (forall speaker_file speaker_file_path youtube_url,
           let r := YouTube.process_input speaker_file speaker_file_path
                      youtube_url g w in
           stored_after_retrieval g (glob r)
             (final last_retrieved None (emitted r)))
    /\ (let r := YouTube.main g w in
        stored_after_retrieval g (glob r) (final last_retrieved None (emitted r)))
    /\ (forall nb name f args,
           In (nb, name, f) all_functions -> ~ In (nb, name) file_writers ->
           along no_file_written tt (emitted (f H args g w)))
    /\ (forall nb name, In (nb, name) mutators ->
           exists f, In (nb, name, f) all_functions /\ changes_state f)
    /\ (forall nb name, In (nb, name) file_writers ->
           exists f, In (nb, name, f) all_functions /\ may_write_file f).
Proof.
  intros H g w. repeat apply conj.
  - intros nb name f args Hin Hnot. eapply untouched_by_most; eauto.
  - intros. apply voice_clone_agrees.
  - intros. apply youtube_workflow_agrees.
  - intros. apply process_input_stores_retrieved.
  - apply main_stores_retrieved.
  - intros nb name f args Hin Hnot. eapply no_file_written_by_most; eauto.
  - apply mutators_change_state.
  - apply file_writers_write.
Qed.

Lemma state_is_written_by_four_functions_only_witness :
  glob (PennyLane.training (H := counting_world) (PObj 0) (PInt 7) (PFun "cost")
          (PInt 3) empty_globals 0%nat)
  = empty_globals
  /\ along no_file_written tt
       (emitted (PennyLane.training (H := counting_world) (PObj 0) (PInt 7)
                   (PFun "cost") (PInt 3) empty_globals 0%nat)).
Proof.
  destruct (state_is_written_by_four_functions_only counting_world empty_globals 0%nat)
    as [Hmost [_ [_ [_ [_ [Hfiles _]]]]]].
  assert (Hin : In ("pennylane_hybrid", "training",
                    (fun (_ : World) args =>
                       match args with
                       | [opt; init_params; cost; steps] =>
                           PennyLane.training opt init_params cost steps
                       | _ => raise "TypeError"
                       end) : pyfun) all_functions).
  { unfold all_functions, tagged. simpl. do 11 right. left. reflexivity. }
  split.
  - apply (Hmost _ _ _ [PObj 0; PInt 7; PFun "cost"; PInt 3] Hin).
    simpl. intros [E|[E|[E|[E|[]]]]]; discriminate E.
  - apply (Hfiles _ _ _ [PObj 0; PInt 7; PFun "cost"; PInt 3] Hin).
    simpl. intros Hw. repeat (destruct Hw as [Hw|Hw]; [discriminate Hw|]). exact Hw.
Defined.

(** ** What the runs did *)

(** X7.  [display_results] shows the summary first, asks the Show/Hide
    checkbox, shows the transcription only if the box was answered true, and
    plays the audio after the checkbox has been asked; it shows no other
    text.  When it returns, it returns [None] and has put on the screen
    exactly the summary, the box, the transcription if the box was ticked,
    and the audio, in this order. *)
Theorem transcription_is_shown_on_request :
  forall (H : World) summary transcription audio g w,
    let r := YouTube.display_results summary transcription audio g w in
    let log := final (log_monitor ["st.text"; "st.checkbox"; "st.audio"]) []
                 (emitted r) in
    along (display_monitor summary transcription audio) None (emitted r)
    /\ forall v, res r = Ok v ->
         v = PNone
         /\ exists box, answer_of "st.checkbox" log = Some box
                        /\ List.map fst log = screen summary transcription audio box.
Proof.
  intros H s t a g w. split.
  - apply (wp_run (display_monitor s t a) _ g None (fun _ _ _ => True)).
    unfold_functions.
    wp_walk_precise
      ltac:(simpl; first [exact I | reflexivity | split; [reflexivity|discriminate]
                         | split; [assumption|reflexivity]]);
      exact I.
  - apply (wp_run (log_monitor ["st.text"; "st.checkbox"; "st.audio"]) _ g []
             (fun o _ log =>
                forall v, o = Ok v ->
                  v = PNone
                  /\ exists box, answer_of "st.checkbox" log = Some box
                                 /\ List.map fst log = screen s t a box)).
    unfold_functions.
    wp_walk_precise ltac:(exact I);
      simpl; intros v' E; first [discriminate E | injection E as <-];
      (split; [reflexivity|]); eexists; (split; [reflexivity|]);
      unfold screen;
      match goal with Hb : truthy _ = _ |- _ => rewrite Hb end; reflexivity.
Qed.

Lemma transcription_is_shown_on_request_witness :
  List.map fst
    (final (log_monitor ["st.text"; "st.checkbox"; "st.audio"]) []
       (emitted (YouTube.display_results (H := studio_world) (PStr "a summary")
                   (PStr "a transcription") (PObj 3) empty_globals tt)))
  = screen (PStr "a summary") (PStr "a transcription") (PObj 3) (PBool false).
Proof.
  destruct (transcription_is_shown_on_request studio_world (PStr "a summary")
              (PStr "a transcription") (PObj 3) empty_globals tt) as [_ Hv].
  destruct (Hv PNone eq_refl) as [_ [box [Hbox Hlog]]].
  vm_compute in Hbox. injection Hbox as <-. exact Hlog.
Defined.





(** X24.  The PennyLane notebook reads [result] off the object
    [ct.get_result] returned, plots the second item of that result against
    the third, and evaluates the photon circuit on the first item: the
    parameters, steps and costs it shows are the ones retrieved.  A run
    that completes has unpacked the result into three, plotted the second
    item against the third once, and run the beam splitter once, on the
    first two items of the first. *)
Theorem retrieved_training_is_plotted :
  forall (H : World) g w,
    let r := PennyLane.notebook g w in
    let q := final plot_monitor (Plot None None None) (emitted r) in
    let log := final (log_monitor ["plot"; "[]"; "qml.Beamsplitter"]) []
                 (emitted r) in
    along plot_monitor (Plot None None None) (emitted r)
    /\ (res r = Ok tt ->
        exists p ts cs x y ax,
          unpacked q = Some [p; ts; cs]
          /\ List.map fst log = plotting p ts cs x y ax
          /\ first_two p log = [Some x; Some y]).
Proof.
  intros H g w r.
  destruct (wp_run (both plot_monitor
                      (log_monitor ["plot"; "[]"; "qml.Beamsplitter"]))
              PennyLane.notebook g (Plot None None None, [])
              (fun o _ q =>
                 o = Ok tt ->
                 exists p ts cs x y ax,
                   unpacked (fst q) = Some [p; ts; cs]
                   /\ List.map fst (snd q) = plotting p ts cs x y ax
                   /\ first_two p (snd q) = [Some x; Some y]) w)
    as [Ha Hp].
  - unfold PennyLane.notebook. through_listing ltac:(discriminate).
    unfold PennyLane.photon_redirection, PennyLane.qubit_rotation.
    repeat (simpl; known_items; simpl;
            lazymatch goal with
            | |- wp _ (py_getitem _ (PInt _)) _ _ _ =>
                apply wp_py_getitem_int;
                [ intros ? ? ? ?
                | own_cases
                | intros ? [?|?]; (split; [split; [plot_guard|exact I]|]) ]
            | _ => wp_step_precise ltac:(split; [plot_guard|exact I])
            end).
    all: simpl; known_items; simpl.
    all: try (let E := fresh "E" in intros E; discriminate E).
    all: intros _.
    all: first
           [ exfalso; congruence
           | do 6 eexists; split; [reflexivity|];
             unfold plotting, first_two;
             match goal with
             | Hi : items_of ?p = _ |- context [items_of ?p] => rewrite Hi
             end;
             split; [reflexivity|simpl; congruence] ].
  - apply along_both in Ha. destruct Ha as [Ha _].
    rewrite final_both in Hp. split; [exact Ha|exact Hp].
Qed.

Lemma retrieved_training_is_plotted_witness :
  List.map fst
    (final (log_monitor ["plot"; "[]"; "qml.Beamsplitter"]) []
       (emitted (PennyLane.notebook (H := lab_world) empty_globals tt)))
  = plotting (PList [PInt 1; PInt 2]) (PList [PInt 0]) (PList [PInt 5])
      (PInt 1) (PInt 2) (PObj 2).
Proof.
  destruct (retrieved_training_is_plotted lab_world empty_globals tt) as [_ Hdone].
  assert (E : res (PennyLane.notebook (H := lab_world) empty_globals tt) = Ok tt)
    by (vm_compute; reflexivity).
  destruct (Hdone E) as [p [ts [cs [x [y [ax _]]]]]].
  vm_compute. reflexivity.
Defined.
